(** * CT series reconstruction: a shallow embedding of [prepare_3d_data.py]

    The module loads a DICOM series through VTK, corrects the gantry tilt
    with a shear transform, optionally resamples, extracts a numpy array,
    and crops it around the centre of mass.  When the VTK path raises, the
    slices are loaded one by one and stacked instead.

    Python floats are IEEE binary64 numbers: they are embedded as Rocq's
    primitive floats, whose division, negation and comparison are the IEEE
    ones.  VTK, numpy's numeric casts, scipy, the file system and the two
    helpers of the repository that [prepare_3d_data.py] imports are
    collaborators (record [Collab]); every call of a collaborator is logged
    as an [Event], so that the order and the number of the calls can be
    stated.  Exceptions are values of type [exn]; a computation is a
    function from a state to a result-or-exception and a new state, the
    state changes made before a [raise] being kept, as in Python. *)

From Stdlib Require Import ZArith String Ascii List Bool Lia PrimFloat.
From Stdlib Require Import QArith Qround Sorted Permutation DecimalString DecimalNat.
From Stdlib Require Import SpecFloat FloatOps FloatAxioms.
Import ListNotations.

Close Scope Q_scope.
Open Scope nat_scope.
Open Scope string_scope.
Open Scope list_scope.

(** ** Python built-ins used by the module *)

Module Py.

(** [str.replace(old, new)] for a non-empty [old]: occurrences are replaced
    from left to right and do not overlap.  [skip] counts the characters of
    a match that are still to be dropped. *)
Fixpoint replace_from (old new s : string) (skip : nat) : string :=
  match s with
  | EmptyString => EmptyString
  | String c s' =>
      match skip with
      | S k => replace_from old new s' k
      | O =>
          if String.prefix old s
          then new ++ replace_from old new s' (String.length old - 1)
          else String c (replace_from old new s' 0)
      end
  end.

Definition replace (old new s : string) : string := replace_from old new s 0.

(** [str(n)] for a natural number. *)
Definition str_of_nat (n : nat) : string := NilZero.string_of_uint (Nat.to_uint n).

Fixpoint zeros (n : nat) : string :=
  match n with
  | O => EmptyString
  | S k => String "0"%char (zeros k)
  end.

(** The format specification [{idx:03d}]: decimal, padded with zeros on the
    left to a width of at least three. *)
Definition format_03d (n : nat) : string :=
  let s := str_of_nat n in zeros (3 - String.length s) ++ s.

(** [sorted(xs)] on the entries of one directory: paths with the same
    parent compare as their names do, and names compare as [str], by code
    point. *)
Fixpoint insert_sorted (x : string) (l : list string) : list string :=
  match l with
  | [] => [x]
  | y :: l' => if String.leb x y then x :: l else y :: insert_sorted x l'
  end.

Fixpoint sorted (l : list string) : list string :=
  match l with
  | [] => []
  | x :: l' => insert_sorted x (sorted l')
  end.

(** [min] of a 3-tuple of floats: the first item is kept until a later item
    compares strictly smaller. *)
Definition min3 (t : float * float * float) : float :=
  let '(a, b, c) := t in
  let m := a in
  let m := if (b <? m)%float then b else m in
  if (c <? m)%float then c else m.

(** [enumerate(xs)], counting from [start]. *)
Fixpoint enumerate_from {A : Type} (start : nat) (l : list A) : list (nat * A) :=
  match l with
  | [] => []
  | a :: l' => (start, a) :: enumerate_from (S start) l'
  end.

Definition enumerate {A : Type} (l : list A) : list (nat * A) := enumerate_from 0 l.

End Py.

(** ** Plain data *)

(** A 6-tuple, as returned by [GetImageOrientationPatient], [GetBounds] and
    [GetExtent]. *)
Record six (A : Type) : Type := Six { c0 : A; c1 : A; c2 : A; c3 : A; c4 : A; c5 : A }.
Arguments Six {A} _ _ _ _ _ _.
Arguments c0 {A} _.
Arguments c1 {A} _.
Arguments c2 {A} _.
Arguments c3 {A} _.
Arguments c4 {A} _.
Arguments c5 {A} _.

Definition float3 : Type := (float * float * float)%type.
Definition nat3 : Type := (nat * nat * nat)%type.

(** [ShearParams = namedtuple('ShearParams', 'rad_tilt, minus_center_z')] *)
Record ShearParams : Type := mkShearParams { rad_tilt : float; minus_center_z : float }.

Definition OUT_SIZE : nat * nat := (400, 400).
Definition BG_HU : Z := (-2000)%Z.

(** The [spacing] argument of [VtkImage]: ['auto'], ['none'], or a list
    [[x, y, z]] of spacings in millimetres. *)
Inductive spacing_policy : Type :=
| Auto
| NoResample
| Explicit (sx sy sz : float).

(** The [dtype] argument of [get_slices] and of [astype]. *)
Inductive dtype : Type := Float32 | Int16.

(** Exceptions.  The module raises at three places; numpy raises
    [ValueError] from [reshape] and [stack]; every other collaborator fails
    with an exception of its own, of which only a message is kept.  All of
    them derive from [Exception].
    - [OrientationError o]: [Exception(f"Wrong patient orientation: {o}")];
    - [InvalidSpacingError d]: [ValueError('Invalid scan. Path: {d}')];
    - [ShortVolumeError]: [Exception("Cannot read 3D dicom image")]. *)
Inductive exn : Type :=
| OrientationError (o : six float)
| InvalidSpacingError (path : string)
| ShortVolumeError
| NumpyValueError (msg : string)
| ExternalError (msg : string).

(** ** Computations with a state and exceptions *)

Definition M (S A : Type) : Type := S -> (exn + A) * S.

Definition ret {S A : Type} (a : A) : M S A := fun s => (inr a, s).

Definition raise {S A : Type} (e : exn) : M S A := fun s => (inl e, s).

Definition bind {S A B : Type} (m : M S A) (k : A -> M S B) : M S B :=
  fun s =>
    match m s with
    | (inl e, s') => (inl e, s')
    | (inr a, s') => k a s'
    end.

(** [try: body  except Exception as e: handler e] *)
Definition try_except {S A : Type} (body : M S A) (handler : exn -> M S A) : M S A :=
  fun s =>
    match body s with
    | (inl e, s') => handler e s'
    | (inr a, s') => (inr a, s')
    end.

(** A call of a collaborator, whose failure is an [ExternalError]. *)
Definition ext {S A : Type} (r : string + A) : M S A :=
  match r with
  | inl msg => raise (ExternalError msg)
  | inr a => ret a
  end.

(** A call of numpy code modelled here, which raises [exn] itself. *)
Definition lift {S A : Type} (r : exn + A) : M S A :=
  match r with
  | inl e => raise e
  | inr a => ret a
  end.

Declare Scope monad_scope.
Delimit Scope monad_scope with monad.
Notation "x <- m ;; k" := (bind m (fun x => k))
  (at level 61, m at next level, right associativity) : monad_scope.
Notation "' p <- m ;; k" := (bind m (fun x => match x with p => k end))
  (at level 61, p pattern, m at next level, right associativity) : monad_scope.
Notation "m ;; k" := (bind m (fun _ => k))
  (at level 61, right associativity) : monad_scope.
Open Scope monad_scope.

(** [for a in l: out.append(f(a))] *)
Fixpoint for_each {S A B : Type} (f : A -> M S B) (l : list A) : M S (list B) :=
  match l with
  | [] => ret []
  | a :: l' => b <- f a ;; bs <- for_each f l' ;; ret (b :: bs)
  end.

(** ** The VTK pipeline as it is configured by [update_image] *)

(** [vtkImageConstantPad]: [SetConstant], [SetOutputWholeExtent]. *)
Record PadCfg : Type := mkPad { pad_constant : Z; pad_extent : six Z }.

(** The calls made on the [vtkPerspectiveTransform], in order. *)
Inductive transform_op : Type :=
| Shear (dxdy dxdz dydz : float)
| RotateWXYZ (angle x y z : float).

Inductive interpolation : Type := Nearest | Linear | Cubic.

(** The [vtkImageReslice] filter at the time of its [Update]: the series
    its input reads, the padding inserted before it (if any), its
    transform, interpolation mode, auto-crop flag and background level. *)
Record ResliceCfg : Type := mkReslice {
  rs_input : string;
  rs_pad : option PadCfg;
  rs_transform : list transform_op;
  rs_interpolation : interpolation;
  rs_auto_crop : bool;
  rs_background : Z
}.

(** What the module reads from the [vtkDICOMImageReader] after [Update]:
    [GetImageOrientationPatient()], [GetOutput().GetBounds()] and
    [GetOutput().GetExtent()] (minX, maxX, minY, maxY, minZ, maxZ). *)
Record ReaderOutput : Type := mkReader {
  orientation_patient : six float;
  out_bounds : six float;
  out_extent : six Z
}.

Section Pipeline.

(** The element type of the arrays and the type of the centroid's
    coordinates: the module computes with neither, it only hands them to
    numpy, scipy and [crop_scan]. *)
Context {Voxel Coord : Type}.

Definition array2 : Type := list (list Voxel).
Definition array3 : Type := list array2.

(** [a.shape].  An array is a list of equally long lists; the lengths along
    the inner axes are read from the first element, so the shape is numpy's
    whenever the outer lengths are not zero. *)
Definition shape2 (a : array2) : nat * nat := (length a, length (hd [] a)).

Definition shape3 (a : array3) : nat3 :=
  (length a, length (hd [] a), length (hd [] (hd [] a))).

(** The array has shape (d, h, w): d slices of h rows of w voxels.  Unlike
    [shape3] this is exact for empty axes too. *)
Definition has_shape3 (a : array3) (s : nat3) : Prop :=
  let '(d, h, w) := s in
  length a = d /\
  Forall (fun sl => length sl = h /\ Forall (fun row => length row = w) sl) a.

(** The output of a VTK image filter: [GetDimensions()], [GetSpacing()] and
    the flat scalars of [GetPointData().GetScalars()]. *)
Record ImageData : Type := mkImage {
  dimensions : nat3;
  img_spacing : float3;
  scalars : list Voxel
}.

(** The dictionary written to [meta.json]; [None] is JSON's [null]. *)
Record Meta : Type := mkMeta {
  meta_spacing : option float3;
  meta_image_orientation : option (six float);
  crop_x : Coord;
  crop_y : Coord;
  pre_crop_shape : nat3;
  out_shape : nat3
}.

(** The collaborators.  A result [inl msg] is an exception raised by the
    collaborator.  [crop_scan] and [load] are [data.utils.crop_scan] and
    [PydicomLoader.load] of the repository, which [prepare_3d_data.py]
    imports. *)
Record Collab : Type := mkCollab {
  atan : float -> float;
  read_series : string -> string + ReaderOutput;
  reslice : ResliceCfg -> string + ImageData;
  resample : ImageData -> float3 -> string + ImageData;
  astype : dtype -> Voxel -> Voxel;
  gt0 : Voxel -> bool;
  makedirs : string -> option string;
  iterdir : string -> string + list string;
  load : string -> bool -> string + array2;
  center_of_mass : list (list (list bool)) -> string + (Coord * Coord * Coord);
  crop_scan : array3 -> nat * nat -> Coord -> Coord -> Z -> string + array3;
  write_meta : string -> Meta -> option string;
  save_npy : string -> array2 -> option string
}.

(** Every call that reaches outside the module, in program order.  The
    events of the writes ([EvMakedirs], [EvWriteMeta], [EvSaveNpy]) are
    logged when the write has succeeded. *)
Inductive Event : Type :=
| EvRmtree (path : string)
| EvMakedirs (path : string)
| EvReadSeries (dir : string)
| EvReslice (cfg : ResliceCfg)
| EvResample (sp : float3)
| EvPrintExc (e : exn)
| EvPrint (s : string)
| EvIterdir (dir : string)
| EvLoad (path : string) (convert_hu : bool)
| EvCenterOfMass (mask : list (list (list bool)))
| EvCropScan (scan : array3) (out_size : nat * nat) (x y : Coord) (bg : Z)
| EvWriteMeta (path : string) (meta : Meta)
| EvSaveNpy (path : string) (a : array2).

Definition Log : Type := list Event.

(** ** class VtkImage *)

(** The attributes of an instance.  [reader] stands for the
    [vtkDICOMImageReader] after its [Update]; [image] for the filter stored
    by [update_image], of which only the output is read.  The rotation
    angles are floats; [origin_x], which is added to the integers of the
    extent handed to [SetOutputWholeExtent], is an integer. *)
Record VtkImage : Type := mkVtkImage {
  reader : ReaderOutput;
  image_orientation : six float;
  shear_params : ShearParams;
  scan_dir : string;
  spacing : spacing_policy;
  angle_z : float;
  angle_y : float;
  origin_x : option Z;
  image : option ImageData
}.

(** The state of a method call: the object and the log. *)
Definition Obj : Type := (VtkImage * Log)%type.

(** A state that holds the log. *)
Class HasLog (S : Type) : Type := {
  get_log : S -> Log;
  set_log : Log -> S -> S;
  get_set_log : forall l s, get_log (set_log l s) = l
}.

#[export] Instance HasLog_Log : HasLog Log :=
  {| get_log := fun l => l; set_log := fun l _ => l; get_set_log := fun _ _ => eq_refl |}.

#[export] Instance HasLog_Obj : HasLog Obj :=
  {| get_log := fun s => snd s;
     set_log := fun l s => (fst s, l);
     get_set_log := fun _ _ => eq_refl |}.

Definition emit {S : Type} `{HasLog S} (ev : Event) : M S unit :=
  fun s => (inr tt, set_log (get_log s ++ [ev]) s).

Definition ext_unit {S : Type} (r : option string) : M S unit :=
  match r with
  | Some msg => raise (ExternalError msg)
  | None => ret tt
  end.

Definition get_self : M Obj VtkImage := fun s => (inr (fst s), s).

(** An assignment to a field of [self]. *)
Definition modify (f : VtkImage -> VtkImage) : M Obj unit :=
  fun s => (inr tt, (f (fst s), snd s)).

(** A method call [obj.m(...)] from code whose state is the log alone. *)
Definition call {A : Type} (obj : VtkImage) (m : M Obj A) : M Log (VtkImage * A) :=
  fun log =>
    match m (obj, log) with
    | (inl e, (_, log')) => (inl e, log')
    | (inr a, (obj', log')) => (inr (obj', a), log')
    end.

Variable E : Collab.

(** [VtkImage.__init__(self, scan_dir, spacing)] *)
Definition VtkImage_init (scan_dir : string) (spacing : spacing_policy) : M Log VtkImage :=
  emit (EvReadSeries scan_dir) ;;
  rd <- ext (read_series E scan_dir) ;;
  let o := orientation_patient rd in
  let y2 := c4 o in
  let z2 := c5 o in
  if (y2 =? 0)%float then raise (OrientationError o)
  else
    let rad_tilt := atan E (z2 / y2)%float in
    let center_z := (c5 (out_bounds rd) / 2)%float in
    ret {| reader := rd;
           image_orientation := o;
           shear_params := mkShearParams rad_tilt (- center_z)%float;
           scan_dir := scan_dir;
           spacing := spacing;
           angle_z := 0%float;
           angle_y := 0%float;
           origin_x := None;
           image := None |}.

(** The assignments [self.angle_z = v], [self.angle_y = v],
    [self.origin_x = v], [self.spacing = v] and [self.image = v]. *)
Definition assign_angle_z (v : float) (self : VtkImage) : VtkImage :=
  {| reader := reader self;
     image_orientation := image_orientation self;
     shear_params := shear_params self;
     scan_dir := scan_dir self;
     spacing := spacing self;
     angle_z := v;
     angle_y := angle_y self;
     origin_x := origin_x self;
     image := image self |}.

Definition assign_angle_y (v : float) (self : VtkImage) : VtkImage :=
  {| reader := reader self;
     image_orientation := image_orientation self;
     shear_params := shear_params self;
     scan_dir := scan_dir self;
     spacing := spacing self;
     angle_z := angle_z self;
     angle_y := v;
     origin_x := origin_x self;
     image := image self |}.

Definition assign_origin_x (v : option Z) (self : VtkImage) : VtkImage :=
  {| reader := reader self;
     image_orientation := image_orientation self;
     shear_params := shear_params self;
     scan_dir := scan_dir self;
     spacing := spacing self;
     angle_z := angle_z self;
     angle_y := angle_y self;
     origin_x := v;
     image := image self |}.

Definition assign_spacing (v : spacing_policy) (self : VtkImage) : VtkImage :=
  {| reader := reader self;
     image_orientation := image_orientation self;
     shear_params := shear_params self;
     scan_dir := scan_dir self;
     spacing := v;
     angle_z := angle_z self;
     angle_y := angle_y self;
     origin_x := origin_x self;
     image := image self |}.

Definition assign_image (v : option ImageData) (self : VtkImage) : VtkImage :=
  {| reader := reader self;
     image_orientation := image_orientation self;
     shear_params := shear_params self;
     scan_dir := scan_dir self;
     spacing := spacing self;
     angle_z := angle_z self;
     angle_y := angle_y self;
     origin_x := origin_x self;
     image := v |}.

(** [set_transform(self, angle_z, angle_y, origin_x)] *)
Definition set_transform (az ay : float) (ox : option Z) : M Obj unit :=
  modify (assign_angle_z az) ;;
  modify (assign_angle_y ay) ;;
  modify (assign_origin_x ox) ;;
  modify (assign_image None).

(** [set_spacing(self, spacing)] *)
Definition set_spacing (sp : spacing_policy) : M Obj unit :=
  modify (assign_spacing sp) ;;
  modify (assign_image None).

(** The extent given to [pad.SetOutputWholeExtent]:
    [x_size = extent[1] - extent[0]],
    [extent[0] -= max(x_size - 2 * origin_x, 0)],
    [extent[1] += max(2 * origin_x - x_size, 0)]. *)
Definition padded_extent (extent : six Z) (ox : Z) : six Z :=
  let x_size := (c1 extent - c0 extent)%Z in
  let e0 := (c0 extent - Z.max (x_size - 2 * ox) 0)%Z in
  let e1 := (c1 extent + Z.max (2 * ox - x_size) 0)%Z in
  Six e0 e1 (c2 extent) (c3 extent) (c4 extent) (c5 extent).

(** The first part of [update_image]: the reslice filter with its input
    (padded when [origin_x] is set), its transform and its settings. *)
Definition configure_reslice (self : VtkImage) : ResliceCfg :=
  {| rs_input := scan_dir self;
     rs_pad :=
       match origin_x self with
       | Some ox => Some (mkPad BG_HU (padded_extent (out_extent (reader self)) ox))
       | None => None
       end;
     rs_transform :=
       Shear 0 (rad_tilt (shear_params self)) (minus_center_z (shear_params self))
       :: (if negb (angle_z self =? 0)%float || negb (angle_y self =? 0)%float
           then [RotateWXYZ (- angle_z self)%float 0 0 1;
                 RotateWXYZ (angle_y self) 0 1 0]
           else []);
     rs_interpolation := Cubic;
     rs_auto_crop := true;
     rs_background := BG_HU |}.

(** The spacing chosen by [update_image] from [self.spacing] and the
    spacing of the resliced image; [None] is "no resampling". *)
Definition resolve_spacing (self : VtkImage) (spacings_lists : float3) : M Obj (option float3) :=
  match spacing self with
  | Auto =>
      let min_spacing := Py.min3 spacings_lists in
      if (min_spacing =? 0)%float
      then raise (InvalidSpacingError (scan_dir self))
      else ret (Some (min_spacing, min_spacing, min_spacing))
  | NoResample => ret None
  | Explicit sx sy sz => ret (Some (sx, sy, sz))
  end.

(** [update_image(self)] *)
Definition update_image : M Obj unit :=
  self <- get_self ;;
  let cfg := configure_reslice self in
  emit (EvReslice cfg) ;;
  resliced <- ext (reslice E cfg) ;;
  let spacings_lists := img_spacing resliced in
  sp <- resolve_spacing self spacings_lists ;;
  match sp with
  | None => modify (assign_image (Some resliced))
  | Some sp' =>
      emit (EvResample sp') ;;
      resampled <- ext (resample E resliced sp') ;;
      modify (assign_image (Some resampled))
  end.

(** [n] consecutive pieces of length [k]. *)
Fixpoint chunks {A : Type} (n k : nat) (l : list A) : list (list A) :=
  match n with
  | O => []
  | S n' => firstn k l :: chunks n' k (skipn k l)
  end.

(** [array.reshape(depth, cols, rows)] of a flat array (row-major). *)
Definition reshape3 (depth cols rows : nat) (flat : list Voxel) : exn + array3 :=
  if Nat.eqb (length flat) (depth * cols * rows)
  then inr (map (chunks cols rows) (chunks depth (cols * rows) flat))
  else inl (NumpyValueError "cannot reshape array")%string.

(** [np.rot90(array, 2, axes=(0, 1))]: a half turn in the plane of the
    first two axes, which reverses both of them. *)
Definition rot90_2 (a : array3) : array3 := rev (map (@rev (list Voxel)) a).

Definition array_astype (dt : dtype) (a : array3) : array3 :=
  map (map (map (astype E dt))) a.

(** [get_slices(self, dtype=np.float32)] *)
Definition get_slices (dt : option dtype) : M Obj (array3 * float3 * ShearParams) :=
  self <- get_self ;;
  match image self with
  | None => update_image
  | Some _ => ret tt
  end ;;
  self <- get_self ;;
  match image self with
  | None => raise (ExternalError "'NoneType' object has no attribute 'GetOutput'")
  | Some img =>
      let '(rows, cols, depth) := dimensions img in
      let spacing := img_spacing img in
      array <- lift (reshape3 depth cols rows (scalars img)) ;;
      let array := rot90_2 array in
      let array := match dt with Some d => array_astype d array | None => array end in
      if Nat.ltb (length array) 5
      then raise ShortVolumeError
      else ret (array, spacing, shear_params self)
  end.

(** ** process_scan *)

Definition shape2_eqb (s t : nat * nat) : bool :=
  Nat.eqb (fst s) (fst t) && Nat.eqb (snd s) (snd t).

(** [np.stack(slices)]: the arrays become the slices of a new first axis;
    numpy raises [ValueError] on an empty list and on arrays of different
    shapes. *)
Definition np_stack (slices : list array2) : exn + array3 :=
  match slices with
  | [] => inl (NumpyValueError "need at least one array to stack")
  | s :: rest =>
      if forallb (fun t => shape2_eqb (shape2 t) (shape2 s)) rest
      then inr slices
      else inl (NumpyValueError "all input arrays must have the same shape")
  end.

(** What the [try] block or its handler leaves in [scan], [spacing] and
    [image_orientation]. *)
Definition Recon : Type := (array3 * option float3 * option (six float))%type.

(** The body of the [try] block. *)
Definition primary_path (scan_dir : string) : M Log Recon :=
  vtk_image <- VtkImage_init scan_dir NoResample ;;
  ' (vtk_image, (scan, spacing, _)) <- call vtk_image (get_slices (Some Float32)) ;;
  let image_orientation := image_orientation vtk_image in
  ret (scan, Some spacing, Some image_orientation).

(** [loader.load(str(slice_path), convert_hu=False)] *)
Definition load_slice (slice_path : string) : M Log array2 :=
  emit (EvLoad slice_path false) ;;
  ext (load E slice_path false).

(** The body of [except Exception:], [e] being the exception caught. *)
Definition fallback_path (scan_dir : string) (e : exn) : M Log Recon :=
  emit (EvPrintExc e) ;;
  emit (EvPrint scan_dir) ;;
  emit (EvIterdir scan_dir) ;;
  paths <- ext (iterdir E scan_dir) ;;
  slices <- for_each load_slice (Py.sorted paths) ;;
  scan <- lift (np_stack slices) ;;
  let spacing := None in
  let image_orientation := None in
  ret (scan, spacing, image_orientation).

(** The [try] statement. *)
Definition reconstruct (scan_dir : string) : M Log Recon :=
  try_except (primary_path scan_dir) (fallback_path scan_dir).

(** [np.save(f'{out_dir}{idx:03d}.npy', scan_slice.astype(np.int16))] *)
Definition save_slice (out_dir : string) (item : nat * array2) : M Log unit :=
  let '(idx, scan_slice) := item in
  let path := (out_dir ++ Py.format_03d idx ++ ".npy")%string in
  let a := map (map (astype E Int16)) scan_slice in
  ext_unit (save_npy E path a) ;;
  emit (EvSaveNpy path a).

(** The statements after the [try] statement: centroid, crop, metadata and
    slices. *)
Definition finish (out_dir : string) (r : Recon) : M Log unit :=
  let '(scan, spacing, image_orientation) := r in
  let mask := map (map (map (gt0 E))) scan in
  emit (EvCenterOfMass mask) ;;
  ' (_, y, x) <- ext (center_of_mass E mask) ;;
  let pre_crop_shape := shape3 scan in
  emit (EvCropScan scan OUT_SIZE x y BG_HU) ;;
  scan_cropped <- ext (crop_scan E scan OUT_SIZE x y BG_HU) ;;
  let meta := {| meta_spacing := spacing;
                 meta_image_orientation := image_orientation;
                 crop_x := x;
                 crop_y := y;
                 pre_crop_shape := pre_crop_shape;
                 out_shape := shape3 scan_cropped |} in
  let meta_path := (out_dir ++ "../meta.json")%string in
  ext_unit (write_meta E meta_path meta) ;;
  emit (EvWriteMeta meta_path meta) ;;
  for_each (save_slice out_dir) (Py.enumerate scan_cropped) ;;
  ret tt.

(** [process_scan(scan_dir)] *)
Definition process_scan (scan_dir : string) : M Log unit :=
  let out_dir := Py.replace "dicom/" "3d/" scan_dir in
  emit (EvRmtree out_dir) ;;
  ext_unit (makedirs E out_dir) ;;
  emit (EvMakedirs out_dir) ;;
  r <- reconstruct scan_dir ;;
  finish out_dir r.

(** ** Clients of a [VtkImage] *)

(** A call of one of the methods; an exception it raises is left to the
    caller, the object stays as the method left it. *)
Inductive method : Type :=
| SetTransform (az ay : float) (ox : option Z)
| SetSpacing (sp : spacing_policy)
| UpdateImage
| GetSlices (dt : option dtype).

Definition invoke (m : method) : M Obj unit :=
  match m with
  | SetTransform az ay ox => set_transform az ay ox
  | SetSpacing sp => set_spacing sp
  | UpdateImage => update_image
  | GetSlices dt => _ <- get_slices dt ;; ret tt
  end.

Fixpoint run (ms : list method) (st : Obj) : Obj :=
  match ms with
  | [] => st
  | m :: ms' => run ms' (snd (invoke m st))
  end.

Definition is_reslice (ev : Event) : bool :=
  match ev with
  | EvReslice _ => true
  | _ => false
  end.

(** The number of times the reslice pipeline has been computed. *)
Definition recomputations (log : Log) : nat := length (filter is_reslice log).

End Pipeline.

Arguments Collab : clear implicits.
Arguments Event : clear implicits.
Arguments Log : clear implicits.
Arguments Meta : clear implicits.
Arguments ImageData : clear implicits.
Arguments VtkImage : clear implicits.
Arguments Obj : clear implicits.
Arguments array2 : clear implicits.
Arguments array3 : clear implicits.
Arguments Recon : clear implicits.

(** ** data.utils.crop_scan *)

Module DataUtils.

Section CropScan.

Context {Voxel : Type}.

(** Modelled from the spec: part of [crop_scan], which is not among the
    sources.  The lower edge of a window of [size] cells centred on [c] is
    the floor of [c - size / 2]; the upper edge is the lower edge plus
    [size], so that the window always has [size] cells. *)
Definition window_start (c : Q) (size : nat) : Z :=
  Qfloor (c - inject_Z (Z.of_nat size) / 2)%Q.

(** Modelled from the spec: part of [crop_scan].  The element at a
    (possibly negative or too large) index, [default] outside the list:
    the window is padded, not clamped. *)
Definition pick {A : Type} (l : list A) (i : Z) (default : A) : A :=
  if (0 <=? i)%Z then nth (Z.to_nat i) l default else default.

(** Modelled from the spec: part of [crop_scan].  The [tw] cells of a row
    from column [x0] on. *)
Definition crop_row (bg : Voxel) (x0 : Z) (tw : nat) (row : list Voxel) : list Voxel :=
  map (fun j => pick row (x0 + Z.of_nat j)%Z bg) (seq 0 tw).

(** Modelled from the spec: part of [crop_scan].  The [th] rows of a slice
    from row [y0] on; a row outside the slice has no voxel, so all of its
    cells are background. *)
Definition crop_slice (bg : Voxel) (x0 y0 : Z) (tw th : nat) (sl : list (list Voxel))
  : list (list Voxel) :=
  map (fun i => crop_row bg x0 tw (pick sl (y0 + Z.of_nat i)%Z [])) (seq 0 th).

(** Modelled from the spec: [crop_scan(scan, out_size, x, y, bg)] is
    defined in [data/utils.py], which is not among the sources.  Following
    section 4.6 of the specification: for the target footprint
    [out_size = (targetWidth, targetHeight)] and the centroid [(x, y)], every
    depth slice is cut to the window of [targetHeight] rows and
    [targetWidth] columns centred on [(y, x)], the lower edges being
    rounded down and the upper edges placed one target size above them;
    cells of the window outside the slice take the background value [bg]. *)
Definition crop_scan (scan : list (list (list Voxel))) (out_size : nat * nat)
    (x y : Q) (bg : Voxel) : list (list (list Voxel)) :=
  let '(tw, th) := out_size in
  let x0 := window_start x tw in
  let y0 := window_start y th in
  map (crop_slice bg x0 y0 tw th) scan.

End CropScan.

End DataUtils.

(** ** Properties of computations *)

(** [triple P Q R m]: whatever the state, [m] only appends events to the
    log, each of them satisfying [P]; a value it returns satisfies [Q]; an
    exception it raises satisfies [R]. *)
Definition triple {Voxel Coord S A : Type} {H : @HasLog Voxel Coord S}
    (P : Event Voxel Coord -> Prop) (Q : A -> Prop) (R : exn -> Prop)
    (m : M S A) : Prop :=
  forall s,
    (exists added, get_log (snd (m s)) = get_log s ++ added /\ Forall P added) /\
    match fst (m s) with
    | inr a => Q a
    | inl e => R e
    end.

(** The image that [get_slices] works on when it is called in the state
    [st]: the cached one, or the one a successful [update_image] stores.
    [st'] is the state once the image is there. *)
Inductive image_ready {Voxel Coord : Type} (E : Collab Voxel Coord)
  : Obj Voxel Coord -> Obj Voxel Coord -> ImageData Voxel -> Prop :=
| ready_cached (self : VtkImage Voxel) (log : Log Voxel Coord) (img : ImageData Voxel) :
    image self = Some img ->
    image_ready E (self, log) (self, log) img
| ready_updated (self self' : VtkImage Voxel) (log log' : Log Voxel Coord)
    (img : ImageData Voxel) :
    image self = None ->
    update_image E (self, log) = (inr tt, (self', log')) ->
    image self' = Some img ->
    image_ready E (self, log) (self', log') img.

(** A metadata record with [null] spacing and [null] orientation. *)
Definition null_geometry {Coord : Type} (meta : Meta Coord) : Prop :=
  meta_spacing meta = None /\ meta_image_orientation meta = None.

Section RunProperties.

Context {Voxel Coord : Type}.
Variable E : Collab Voxel Coord.

(** [scan] is what the fallback stacks for the directory [dir]: the slices
    that [loader.load(path, convert_hu=False)] returns for the entries of
    the directory, taken in sorted order. *)
Definition fallback_stack (dir : string) (scan : array3 Voxel) : Prop :=
  exists paths,
    iterdir E dir = inr paths /\
    Forall2 (fun p s => load E p false = inr s) (Py.sorted paths) scan.

(** The events of the [except] block: no VTK call, and every slice is
    loaded without the conversion to Hounsfield units. *)
Definition fallback_event (ev : Event Voxel Coord) : Prop :=
  match ev with
  | EvPrintExc _ | EvPrint _ | EvIterdir _ => True
  | EvLoad _ convert_hu => convert_hu = false
  | _ => False
  end.

(** The events of the statements after the [try], for the reconstruction
    [r]. *)
Definition finish_event (r : Recon Voxel) (ev : Event Voxel Coord) : Prop :=
  let '(scan, spacing, image_orientation) := r in
  match ev with
  | EvCenterOfMass mask => mask = map (map (map (gt0 E))) scan
  | EvCropScan s size _ _ bg => s = scan /\ size = OUT_SIZE /\ bg = BG_HU
  | EvWriteMeta _ meta =>
      meta_spacing meta = spacing /\
      meta_image_orientation meta = image_orientation /\
      pre_crop_shape meta = shape3 scan
  | EvSaveNpy _ _ => True
  | _ => False
  end.

(** The events of a run of [process_scan] on [dir] from the point where the
    primary path has raised: the fallback's events, then a centroid, a crop
    of the fallback's stack, metadata with [null] geometry, and slices. *)
Definition degraded_event (dir : string) (ev : Event Voxel Coord) : Prop :=
  match ev with
  | EvPrintExc _ | EvPrint _ | EvIterdir _ => True
  | EvLoad _ convert_hu => convert_hu = false
  | EvCenterOfMass _ | EvSaveNpy _ _ => True
  | EvCropScan s size _ _ bg => fallback_stack dir s /\ size = OUT_SIZE /\ bg = BG_HU
  | EvWriteMeta _ meta => null_geometry meta
  | _ => False
  end.

(** An exception that comes from a collaborator or from numpy, not from
    one of the three [raise] statements of the module. *)
Definition foreign (e : exn) : Prop :=
  match e with
  | ExternalError _ | NumpyValueError _ => True
  | _ => False
  end.

(** The log once [process_scan] has emptied and created the output
    directory. *)
Definition prepared (dir : string) (log : Log Voxel Coord) : Log Voxel Coord :=
  let out_dir := Py.replace "dicom/" "3d/" dir in
  log ++ [EvRmtree out_dir; EvMakedirs out_dir].

(** The events of the persisted slices of a cropped scan. *)
Definition saved_slices (out_dir : string) (scan_cropped : array3 Voxel)
  : Log Voxel Coord :=
  map (fun item : nat * array2 Voxel =>
         EvSaveNpy (out_dir ++ Py.format_03d (fst item) ++ ".npy")%string
                   (map (map (astype E Int16)) (snd item)))
      (Py.enumerate scan_cropped).

End RunProperties.

(** The statements of [get_slices] that follow [if self.image is None:
    self.update_image()], as a function of the image they read. *)
Definition extract {Voxel Coord : Type} (E : Collab Voxel Coord) (dt : option dtype)
    (self : VtkImage Voxel) (img : ImageData Voxel)
  : exn + (array3 Voxel * float3 * ShearParams) :=
  let '(rows, cols, depth) := dimensions img in
  match reshape3 depth cols rows (scalars img) with
  | inl e => inl e
  | inr array =>
      let array := rot90_2 array in
      let array := match dt with Some d => array_astype E d array | None => array end in
      if Nat.ltb (length array) 5
      then inl ShortVolumeError
      else inr (array, img_spacing img, shear_params self)
  end.

(** Two states of an object agree on the fields that no method assigns. *)
Definition same_series {Voxel : Type} (a b : VtkImage Voxel) : Prop :=
  reader a = reader b /\
  image_orientation a = image_orientation b /\
  shear_params a = shear_params b /\
  scan_dir a = scan_dir b.

(** The object that [__init__] builds from what the reader returned. *)
Definition constructed {Voxel Coord : Type} (E : Collab Voxel Coord) (rd : ReaderOutput)
    (dir : string) (sp : spacing_policy) : VtkImage Voxel :=
  {| reader := rd;
     image_orientation := orientation_patient rd;
     shear_params :=
       mkShearParams
         (atan E (c5 (orientation_patient rd) / c4 (orientation_patient rd))%float)
         (- (c5 (out_bounds rd) / 2))%float;
     scan_dir := dir;
     spacing := sp;
     angle_z := 0%float;
     angle_y := 0%float;
     origin_x := None;
     image := None |}.

(** ** A concrete world

    Collaborators small enough to run the definitions on: voxels are
    integers, a coordinate of the centroid is a rational or [None] for
    numpy's [nan].  The theorems below hold for every [Collab]; this one
    provides their instances and the counterexamples. *)

Module Demo.

Definition standard : six float := (Six 1 0 0 0 1 0)%float.
Definition sideways : six float := (Six 1 0 0 0 0 1)%float.

(** The reader knows four series; any other directory cannot be read. *)
Definition read_series (dir : string) : string + ReaderOutput :=
  if (dir =? "ct/sideways/dicom/")%string
  then inr (mkReader sideways (Six 0 2 0 2 0 10)%float (Six 0 1 0 1 0 5)%Z)
  else if ((dir =? "ct/good/dicom/") || (dir =? "ct/short/dicom/")
           || (dir =? "ct/flat/dicom/"))%string
  then inr (mkReader standard (Six 0 2 0 2 0 10)%float (Six 0 1 0 1 0 5)%Z)
  else inl "cannot read the series".

(** A resliced image of 2 x 2 voxels per slice, numbered from 1. *)
Definition volume (depth : nat) (sp : float3) : ImageData Z :=
  mkImage (2, 2, depth) sp (map Z.of_nat (seq 1 (4 * depth))).

Definition reslice (cfg : ResliceCfg) : string + ImageData Z :=
  let dir := rs_input cfg in
  if (dir =? "ct/short/dicom/")%string then inr (volume 4 (0.5, 0.5, 1)%float)
  else if (dir =? "ct/flat/dicom/")%string then inr (volume 6 (0.5, 0.5, 0)%float)
  else inr (volume 6 (0.5, 0.75, 1)%float).

Definition resample (img : ImageData Z) (sp : float3) : string + ImageData Z :=
  inr (mkImage (dimensions img) sp (scalars img)).

(** [astype]: the integers of the demo fit in a float32; for int16 the
    value wraps around. *)
Definition astype (dt : dtype) (v : Z) : Z :=
  match dt with
  | Float32 => v
  | Int16 => ((v + 32768) mod 65536 - 32768)%Z
  end.

(** The listing of a directory at the time [process_scan] reads it.  The
    directories of the four series, and the directory of a series that the
    reader cannot read, hold three files each, listed out of order; one
    directory holds a single file and one does not exist.  Any other
    directory lists as empty: among them are the directories whose name
    holds no [dicom/], which [process_scan] has emptied by the time it
    lists them, since they are their own output directory. *)
Definition iterdir (dir : string) : string + list string :=
  if (dir =? "ct/missing/dicom/")%string then inl "no such directory"
  else if (dir =? "ct/single/dicom/")%string then inr [dir ++ "only.dcm"]%string
  else if ((dir =? "ct/sideways/dicom/") || (dir =? "ct/good/dicom/")
           || (dir =? "ct/short/dicom/") || (dir =? "ct/flat/dicom/")
           || (dir =? "ct/unreadable/dicom/"))%string
  then inr [dir ++ "2.dcm"; dir ++ "3.dcm"; dir ++ "1.dcm"]%string
  else inr [].

(** The code of the character in front of the extension [.dcm]. *)
Definition file_mark (path : string) : Z :=
  match String.get (String.length path - 5) path with
  | Some c => Z.of_nat (nat_of_ascii c)
  | None => 0%Z
  end.

(** A 2 x 2 slice that depends on the name of the file; the conversion to
    Hounsfield units subtracts 1024. *)
Definition load (path : string) (convert_hu : bool) : string + array2 Z :=
  let n := file_mark path in
  let raw := [[n; 0]; [3; n]]%Z in
  inr (if convert_hu then map (map (fun v => v - 1024)%Z) raw else raw).

Definition cells (mask : list (list (list bool))) : list (nat * nat * nat) :=
  flat_map (fun '(i, sl) =>
    flat_map (fun '(j, row) =>
      flat_map (fun '(k, b) => if b : bool then [(i, j, k)] else [])
               (Py.enumerate row))
      (Py.enumerate sl))
    (Py.enumerate mask).

Definition mean (l : list nat) : option Q :=
  match l with
  | [] => None
  | _ :: _ => Some (Qmake (Z.of_nat (list_sum l)) (Pos.of_nat (length l)))
  end.

(** The centre of mass of a mask: the mean index of its set cells along
    each axis, [nan] (here [None]) when no cell is set. *)
Definition center_of_mass (mask : list (list (list bool)))
  : string + (option Q * option Q * option Q) :=
  let cs := cells mask in
  inr (mean (map (fun c => fst (fst c)) cs),
       mean (map (fun c => snd (fst c)) cs),
       mean (map (fun c => snd c) cs)).

Definition crop_scan (scan : array3 Z) (out_size : nat * nat) (x y : option Q) (bg : Z)
  : string + array3 Z :=
  match x, y with
  | Some x', Some y' => inr (DataUtils.crop_scan scan out_size x' y' bg)
  | _, _ => inl "cannot convert float NaN to integer"
  end.

Definition world : Collab Z (option Q) :=
  mkCollab
    (fun t => t)          (* atan: exact at 0, the only tilt of the demo *)
    read_series reslice resample astype
    (Z.ltb 0)             (* gt0 *)
    (fun _ => None)       (* makedirs *)
    iterdir load center_of_mass crop_scan
    (fun _ _ => None)     (* write_meta *)
    (fun _ _ => None).    (* save_npy *)

(** What the reader returns for the series in standard orientation. *)
Definition standard_series : ReaderOutput :=
  mkReader standard (Six 0 2 0 2 0 10)%float (Six 0 1 0 1 0 5)%Z.

(** [VtkImage(dir, spacing)] for a series in standard orientation, as
    [__init__] leaves it. *)
Definition fresh (dir : string) (sp : spacing_policy) : VtkImage Z :=
  {| reader := standard_series;
     image_orientation := standard;
     shear_params := mkShearParams 0 (-5);
     scan_dir := dir;
     spacing := sp;
     angle_z := 0%float;
     angle_y := 0%float;
     origin_x := None;
     image := None |}.

(** The same object once [get_slices] has stored the resliced image. *)
Definition cached (dir : string) (sp : spacing_policy) (img : ImageData Z) : VtkImage Z :=
  assign_image (Some img) (fresh dir sp).

(** An object over a series of 512 columns whose horizontal origin has
    been set to column 200. *)
Definition recentred : VtkImage Z :=
  {| reader := mkReader standard (Six 0 256 0 256 0 45)%float (Six 0 511 0 511 0 9)%Z;
     image_orientation := standard;
     shear_params := mkShearParams 0 (-22.5);
     scan_dir := "ct/good/dicom/";
     spacing := NoResample;
     angle_z := 0%float;
     angle_y := 0%float;
     origin_x := Some 200%Z;
     image := None |}.

(** The directory with a single file: its slice, the stack, and the
    reconstruction that the fallback makes of it. *)
Definition single_slice : array2 Z := [[121; 0]; [3; 121]]%Z.
Definition single_scan : array3 Z := [single_slice].
Definition single_cropped : array3 Z :=
  DataUtils.crop_scan single_scan OUT_SIZE (Qmake 1 3) (Qmake 2 3) BG_HU.

(** The slices of the series in sideways orientation, in sorted order. *)
Definition sideways_scan : array3 Z :=
  [[[49; 0]; [3; 49]]; [[50; 0]; [3; 50]]; [[51; 0]; [3; 51]]]%Z.

(** That stack cropped around its centre of mass, column 3/9 and row 6/9. *)
Definition sideways_cropped : array3 Z :=
  DataUtils.crop_scan sideways_scan OUT_SIZE (Qmake 3 9) (Qmake 6 9) BG_HU.

(** The files of the series that cannot be read hold the same slices. *)
Definition unreadable_scan : array3 Z := sideways_scan.
Definition unreadable_cropped : array3 Z := sideways_cropped.

(** A slice of 3 rows and 4 columns. *)
Definition small_slice : array2 Z := [[1; 2; 3; 4]; [5; 6; 7; 8]; [9; 10; 11; 12]]%Z.

End Demo.

(** ** test.py *)

Module TestPy.

(** [basic_func(x)].  Python's [%] takes the sign of the divisor, as
    [Z.modulo] does. *)
Definition basic_func (x : Z) : string :=
  if (x =? 0)%Z then "zero"
  else if (x mod 2 =? 0)%Z then "even"
  else "odd".

(** [str(x)] for an integer. *)
Definition str (x : Z) : string := NilZero.string_of_int (Z.to_int x).

(** What a call does besides computing: [time.sleep] and [print]. *)
Inductive effect : Type :=
| Sleep (seconds : Z)
| Print (line : string).

(** [multiprocessing_func(x)] *)
Definition multiprocessing_func (x : Z) : list effect :=
  let y := (x * x)%Z in
  [Sleep 2;
   Print (str x ++ " squared results in a/an " ++ basic_func y ++ " number")%string].

End TestPy.

(** ** Strings of paths and file names *)

Module PyStr.

(** [old in s]: [old] occurs in [s] at some position. *)
Fixpoint occurs (old s : string) : bool :=
  String.prefix old s
  || match s with
     | EmptyString => false
     | String _ s' => occurs old s'
     end.

(** [int(s)] for a non-empty string of decimal digits; leading zeros are
    allowed. *)
Definition int_of_digits (s : string) : option nat :=
  option_map Nat.of_uint (NilZero.uint_of_string s).

End PyStr.

(** ** More properties of runs *)

(** The calls of the VTK path: reading the series, reslicing,
    resampling. *)
Definition vtk_event {Voxel Coord : Type} (ev : Event Voxel Coord) : Prop :=
  match ev with
  | EvReadSeries _ | EvReslice _ | EvResample _ => True
  | _ => False
  end.

(** [array.astype(dtype)] on one voxel when a [dtype] is given, the voxel
    itself otherwise. *)
Definition cast_voxel {Voxel Coord : Type} (E : Collab Voxel Coord) (dt : option dtype)
    (v : Voxel) : Voxel :=
  match dt with
  | Some d => astype E d v
  | None => v
  end.

(** The name of the file that [process_scan] writes slice [idx] to. *)
Definition slice_path (out_dir : string) (idx : nat) : string :=
  (out_dir ++ Py.format_03d idx ++ ".npy")%string.

(** The reslice that [update_image] configures for an object with the
    shear parameters [sh], the rotation angles [az] and [ay] and the
    horizontal origin [ox], over a series whose extent is [extent]. *)
Definition reslice_of (dir : string) (sh : ShearParams) (az ay : float) (ox : option Z)
    (extent : six Z) : ResliceCfg :=
  mkReslice dir
    (option_map (fun x0 => mkPad BG_HU (padded_extent extent x0)) ox)
    (Shear 0 (rad_tilt sh) (minus_center_z sh)
     :: (if (az =? 0)%float && (ay =? 0)%float then []
         else [RotateWXYZ (- az)%float 0 0 1; RotateWXYZ ay 0 1 0]))
    Cubic true BG_HU.

(** What the [try] block leaves when it returns: spacing and orientation
    are there and the volume has at least five slices. *)
Definition vtk_recon {Voxel : Type} (r : Recon Voxel) : Prop :=
  exists scan sp o, r = (scan, Some sp, Some o) /\ 5 <= length scan.

(** What the [except] block leaves when it returns: a volume without
    spacing and orientation. *)
Definition fallback_recon {Voxel : Type} (r : Recon Voxel) : Prop :=
  exists scan, r = (scan, None, None).

(** A metadata record has its geometry complete or not at all: spacing and
    orientation are both [null], or both present with a depth of at least
    five before the crop. *)
Definition complete_or_null {Coord : Type} (meta : Meta Coord) : Prop :=
  null_geometry meta \/
  (exists sp o,
     meta_spacing meta = Some sp /\ meta_image_orientation meta = Some o /\
     5 <= fst (fst (pre_crop_shape meta))).

Definition sound_event {Voxel Coord : Type} (ev : Event Voxel Coord) : Prop :=
  match ev with
  | EvWriteMeta _ meta => complete_or_null meta
  | _ => True
  end.

(** Where a run on the output directory [out_dir] writes: the metadata
    next to the directory, each slice into it under its padded index. *)
Definition artifact_event {Voxel Coord : Type} (out_dir : string)
    (ev : Event Voxel Coord) : Prop :=
  match ev with
  | EvWriteMeta path _ => path = (out_dir ++ "../meta.json")%string
  | EvSaveNpy path _ => exists idx, path = slice_path out_dir idx
  | EvRmtree _ => False
  | EvMakedirs path => path = out_dir
  | _ => True
  end.

(** ** Concrete worlds in which something fails *)

Module Faulty.

(** The concrete world with another [makedirs], [iterdir], [load],
    [crop_scan] and [save_npy]. *)
Definition variant
    (mk : string -> option string)
    (ls : string -> string + list string)
    (ld : string -> bool -> string + array2 Z)
    (crop : array3 Z -> nat * nat -> option Q -> option Q -> Z -> string + array3 Z)
    (save : string -> array2 Z -> option string) : Collab Z (option Q) :=
  mkCollab (atan Demo.world) (read_series Demo.world) (reslice Demo.world)
           (resample Demo.world) (astype Demo.world) (gt0 Demo.world)
           mk ls ld (center_of_mass Demo.world) crop
           (write_meta Demo.world) save.

(** The output directories cannot be created. *)
Definition no_permission : Collab Z (option Q) :=
  variant (fun _ => Some "Permission denied") (iterdir Demo.world) (load Demo.world)
          (crop_scan Demo.world) (save_npy Demo.world).

(** The third slice of the good series cannot be written; the cropper
    leaves the scan as it is. *)
Definition disk_full : Collab Z (option Q) :=
  variant (makedirs Demo.world) (iterdir Demo.world) (load Demo.world)
          (fun scan _ _ _ _ => inr scan)
          (fun path _ =>
             if (path =? "ct/good/3d/002.npy")%string
             then Some "No space left on device" else None).

(** One directory is empty, and one file of another is not an image. *)
Definition broken_files : Collab Z (option Q) :=
  variant (makedirs Demo.world)
          (fun dir => if (dir =? "ct/empty/dicom/")%string then inr []
                      else iterdir Demo.world dir)
          (fun path hu => if (path =? "ct/sideways/dicom/2.dcm")%string
                          then inl "not a DICOM file"
                          else load Demo.world path hu)
          (crop_scan Demo.world) (save_npy Demo.world).

(** The volume of the good series, as [get_slices] returns it. *)
Definition good_scan : array3 Z :=
  [[[23; 24]; [21; 22]]; [[19; 20]; [17; 18]]; [[15; 16]; [13; 14]];
   [[11; 12]; [9; 10]]; [[7; 8]; [5; 6]]; [[3; 4]; [1; 2]]]%Z.

End Faulty.

(** * Proofs *)

(** ** Running a computation step by step *)

Lemma bind_inr {S A B : Type} (m : M S A) (k : A -> M S B) (s s' : S) (a : A) :
  m s = (inr a, s') -> bind m k s = k a s'.
Proof. intros Hm. unfold bind. rewrite Hm. reflexivity. Qed.

Lemma bind_inl {S A B : Type} (m : M S A) (k : A -> M S B) (s s' : S) (e : exn) :
  m s = (inl e, s') -> bind m k s = (inl e, s').
Proof. intros Hm. unfold bind. rewrite Hm. reflexivity. Qed.

Lemma try_except_inl {S A : Type} (body : M S A) (h : exn -> M S A) (s s' : S) (e : exn) :
  body s = (inl e, s') -> try_except body h s = h e s'.
Proof. intros Hb. unfold try_except. rewrite Hb. reflexivity. Qed.

Lemma try_except_inr {S A : Type} (body : M S A) (h : exn -> M S A) (s s' : S) (a : A) :
  body s = (inr a, s') -> try_except body h s = (inr a, s').
Proof. intros Hb. unfold try_except. rewrite Hb. reflexivity. Qed.

(** ** Rules for [triple] *)

Section TripleRules.

Context {Voxel Coord S : Type} {H : @HasLog Voxel Coord S}.
Variable P : Event Voxel Coord -> Prop.

Lemma triple_ret {A : Type} (Q : A -> Prop) (R : exn -> Prop) (a : A) :
  Q a -> triple P Q R (ret (S := S) a).
Proof.
  intros Ha s. split; [ | exact Ha ].
  exists []. cbn. rewrite app_nil_r. split; [ reflexivity | constructor ].
Qed.

Lemma triple_raise {A : Type} (Q : A -> Prop) (R : exn -> Prop) (e : exn) :
  R e -> triple P Q R (raise (S := S) (A := A) e).
Proof.
  intros He s. split; [ | exact He ].
  exists []. cbn. rewrite app_nil_r. split; [ reflexivity | constructor ].
Qed.

Lemma triple_bind {A B : Type} (Q1 : A -> Prop) (Q : B -> Prop) (R : exn -> Prop)
    (m : M S A) (k : A -> M S B) :
  triple P Q1 R m ->
  (forall a, Q1 a -> triple P Q R (k a)) ->
  triple P Q R (bind m k).
Proof.
  intros Hm Hk s. destruct (Hm s) as [[add1 [Hlog1 Hall1]] Hres1].
  unfold bind. destruct (m s) as [[e | a] s1]; cbn in *.
  - split; [ exists add1; auto | exact Hres1 ].
  - destruct (Hk a Hres1 s1) as [[add2 [Hlog2 Hall2]] Hres2].
    split; [ | exact Hres2 ].
    exists (add1 ++ add2). rewrite Hlog2, Hlog1, app_assoc.
    split; [ reflexivity | apply Forall_app; auto ].
Qed.

Lemma triple_weaken {A : Type} (Q Q' : A -> Prop) (R R' : exn -> Prop) (m : M S A) :
  triple P Q R m ->
  (forall a, Q a -> Q' a) ->
  (forall e, R e -> R' e) ->
  triple P Q' R' m.
Proof.
  intros Hm HQ HR s. destruct (Hm s) as [Hlog Hres]. split; [ exact Hlog | ].
  destruct (fst (m s)); auto.
Qed.

Lemma triple_emit (Q : unit -> Prop) (R : exn -> Prop) (ev : Event Voxel Coord) :
  P ev -> Q tt -> triple P Q R (emit (S := S) ev).
Proof.
  intros Hev Hq s. split; [ | exact Hq ].
  exists [ev]. cbn. rewrite get_set_log. split; [ reflexivity | repeat constructor; exact Hev ].
Qed.

Lemma triple_ext {A : Type} (Q : A -> Prop) (R : exn -> Prop) (r : string + A) :
  (forall a, r = inr a -> Q a) ->
  (forall msg, r = inl msg -> R (ExternalError msg)) ->
  triple P Q R (ext (S := S) r).
Proof.
  intros Hq Hr. destruct r as [msg | a]; cbn.
  - apply triple_raise. auto.
  - apply triple_ret. auto.
Qed.

Lemma triple_ext_unit (Q : unit -> Prop) (R : exn -> Prop) (r : option string) :
  (r = None -> Q tt) ->
  (forall msg, r = Some msg -> R (ExternalError msg)) ->
  triple P Q R (ext_unit (S := S) r).
Proof.
  intros Hq Hr. destruct r as [msg | ]; cbn.
  - apply triple_raise. auto.
  - apply triple_ret. auto.
Qed.

Lemma triple_lift {A : Type} (Q : A -> Prop) (R : exn -> Prop) (r : exn + A) :
  (forall a, r = inr a -> Q a) ->
  (forall e, r = inl e -> R e) ->
  triple P Q R (lift (S := S) r).
Proof.
  intros Hq Hr. destruct r as [e | a]; cbn.
  - apply triple_raise. auto.
  - apply triple_ret. auto.
Qed.

Lemma triple_try_except {A : Type} (Q : A -> Prop) (R1 R : exn -> Prop)
    (body : M S A) (h : exn -> M S A) :
  triple P Q R1 body ->
  (forall e, R1 e -> triple P Q R (h e)) ->
  triple P Q R (try_except body h).
Proof.
  intros Hb Hh s. destruct (Hb s) as [[add1 [Hlog1 Hall1]] Hres1].
  unfold try_except. destruct (body s) as [[e | a] s1]; cbn in *.
  - destruct (Hh e Hres1 s1) as [[add2 [Hlog2 Hall2]] Hres2].
    split; [ | exact Hres2 ].
    exists (add1 ++ add2). rewrite Hlog2, Hlog1, app_assoc.
    split; [ reflexivity | apply Forall_app; auto ].
  - split; [ exists add1; auto | exact Hres1 ].
Qed.

Lemma triple_for_each {A B : Type} (Q : B -> Prop) (R : exn -> Prop)
    (f : A -> M S B) (l : list A) :
  (forall a, In a l -> triple P Q R (f a)) ->
  triple P (Forall Q) R (for_each f l).
Proof.
  induction l as [ | a l IH]; intros Hf; cbn [for_each].
  - apply triple_ret. constructor.
  - apply triple_bind with (Q1 := Q); [ apply Hf; left; reflexivity | ].
    intros b Hb. apply triple_bind with (Q1 := Forall Q).
    + apply IH. intros a' Ha'. apply Hf. right. exact Ha'.
    + intros bs Hbs. apply triple_ret. constructor; assumption.
Qed.

End TripleRules.

Lemma triple_events {Voxel Coord S A : Type} {H : @HasLog Voxel Coord S}
    (P P' : Event Voxel Coord -> Prop) (Q : A -> Prop) (R : exn -> Prop) (m : M S A) :
  (forall ev, P ev -> P' ev) ->
  triple P Q R m ->
  triple P' Q R m.
Proof.
  intros HP Hm s. destruct (Hm s) as [[added [Hlog Hall]] Hres].
  split; [ | exact Hres ].
  exists added. split; [ exact Hlog | ].
  eapply Forall_impl; [ | exact Hall ]. exact HP.
Qed.

(** ** The statements of [process_scan] *)

Section ProcessScan.

Context {Voxel Coord : Type}.
Variable E : Collab Voxel Coord.

Lemma process_scan_prepared (dir : string) (log : Log Voxel Coord) :
  makedirs E (Py.replace "dicom/" "3d/" dir) = None ->
  process_scan E dir log =
  bind (reconstruct E dir) (finish E (Py.replace "dicom/" "3d/" dir)) (prepared dir log).
Proof.
  intros Hmk. unfold process_scan, prepared.
  unfold bind at 1. cbn [emit get_log set_log HasLog_Log].
  unfold bind at 1. rewrite Hmk. cbn [ext_unit ret].
  unfold bind at 1. cbn [emit get_log set_log HasLog_Log].
  rewrite <- app_assoc. reflexivity.
Qed.

Lemma load_slice_ok (p : string) (s : array2 Voxel) (log : Log Voxel Coord) :
  load E p false = inr s ->
  load_slice E p log = (inr s, log ++ [EvLoad p false]).
Proof.
  intros Hl. unfold load_slice, bind. cbn. rewrite Hl. reflexivity.
Qed.

Lemma for_each_load_ok (l : list string) (slices : list (array2 Voxel)) :
  Forall2 (fun p s => load E p false = inr s) l slices ->
  forall log : Log Voxel Coord,
    for_each (load_slice E) l log =
    (inr slices, log ++ map (fun p => EvLoad p false) l).
Proof.
  induction 1 as [ | p s l slices Hp Hrest IH]; intros log; cbn [for_each map].
  - rewrite app_nil_r. reflexivity.
  - rewrite (bind_inr _ _ _ _ _ (load_slice_ok p s log Hp)).
    rewrite (bind_inr _ _ _ _ _ (IH _)).
    cbn. rewrite <- app_assoc. reflexivity.
Qed.

Lemma load_slice_triple (p : string) :
  triple (fallback_event (Coord := Coord)) (fun s => load E p false = inr s) foreign
         (load_slice E p).
Proof.
  unfold load_slice.
  apply triple_bind with (Q1 := fun _ => True).
  - apply triple_emit; cbn; auto.
  - intros _ _. apply triple_ext; cbn; auto.
Qed.

Lemma for_each_load_triple (l : list string) :
  triple (fallback_event (Coord := Coord))
         (fun slices => Forall2 (fun p s => load E p false = inr s) l slices)
         foreign
         (for_each (load_slice E) l).
Proof.
  induction l as [ | p l IH]; cbn [for_each].
  - apply triple_ret. constructor.
  - eapply triple_bind; [ apply load_slice_triple | ].
    intros s Hs. eapply triple_bind; [ apply IH | ].
    intros slices Hsl. apply triple_ret. constructor; assumption.
Qed.

Lemma np_stack_inr (slices : list (array2 Voxel)) (scan : array3 Voxel) :
  np_stack slices = inr scan -> scan = slices /\ slices <> [].
Proof.
  unfold np_stack. destruct slices as [ | s rest]; [ discriminate | ].
  destruct (forallb _ rest); [ | discriminate ].
  intros Heq. injection Heq as <-. split; [ reflexivity | discriminate ].
Qed.

Lemma np_stack_inl (slices : list (array2 Voxel)) (e : exn) :
  np_stack slices = inl e -> foreign e.
Proof.
  unfold np_stack. destruct slices as [ | s rest].
  - intros Heq. injection Heq as <-. exact I.
  - destruct (forallb _ rest); [ discriminate | ].
    intros Heq. injection Heq as <-. exact I.
Qed.

(** The [except] block: its events, its result and its exceptions. *)
Lemma fallback_path_triple (dir : string) (e : exn) :
  triple (fallback_event (Coord := Coord))
         (fun r : Recon Voxel =>
            exists scan, r = (scan, None, None) /\ fallback_stack E dir scan /\ scan <> [])
         foreign
         (fallback_path E dir e).
Proof.
  unfold fallback_path.
  apply triple_bind with (Q1 := fun _ => True); [ apply triple_emit; cbn; auto | intros _ _ ].
  apply triple_bind with (Q1 := fun _ => True); [ apply triple_emit; cbn; auto | intros _ _ ].
  apply triple_bind with (Q1 := fun _ => True); [ apply triple_emit; cbn; auto | intros _ _ ].
  apply triple_bind with (Q1 := fun paths => iterdir E dir = inr paths);
    [ apply triple_ext; cbn; auto | intros paths Hpaths ].
  eapply triple_bind; [ apply for_each_load_triple | ].
  intros slices Hslices.
  apply triple_bind with (Q1 := fun scan => scan = slices /\ slices <> []).
  - apply triple_lift.
    + intros scan Hst. apply np_stack_inr. exact Hst.
    + intros e' He'. eapply np_stack_inl. exact He'.
  - intros scan [-> Hne]. apply triple_ret.
    exists slices. split; [ reflexivity | ]. split; [ | exact Hne ].
    exists paths. split; assumption.
Qed.

Lemma save_slice_triple (out_dir : string) (r : Recon Voxel) (item : nat * array2 Voxel) :
  triple (finish_event E r) (fun _ => True) foreign (save_slice E out_dir item).
Proof.
  unfold save_slice. destruct item as [idx sl].
  apply triple_bind with (Q1 := fun _ => True).
  - apply triple_ext_unit; cbn; auto.
  - intros _ _. apply triple_emit; [ | exact I ].
    destruct r as [[scan sp] o]. exact I.
Qed.

(** The statements after the [try]: their events and their exceptions. *)
Lemma finish_triple (out_dir : string) (r : Recon Voxel) :
  triple (finish_event E r) (fun _ => True) foreign (finish E out_dir r).
Proof.
  destruct r as [[scan sp] o]. unfold finish.
  apply triple_bind with (Q1 := fun _ => True);
    [ apply triple_emit; cbn; auto | intros _ _ ].
  apply triple_bind with (Q1 := fun _ => True);
    [ apply triple_ext; cbn; auto | intros [[z y] x] _ ].
  apply triple_bind with (Q1 := fun _ => True);
    [ apply triple_emit; cbn; auto | intros _ _ ].
  apply triple_bind with (Q1 := fun _ => True);
    [ apply triple_ext; cbn; auto | intros scan_cropped _ ].
  apply triple_bind with (Q1 := fun _ => True);
    [ apply triple_ext_unit; cbn; auto | intros _ _ ].
  apply triple_bind with (Q1 := fun _ => True);
    [ apply triple_emit; cbn; auto | intros _ _ ].
  apply triple_bind with (Q1 := fun _ => True).
  - eapply triple_weaken.
    + apply triple_for_each with (Q := fun _ => True).
      intros item _. apply (save_slice_triple out_dir (scan, sp, o)).
    + auto.
    + auto.
  - intros _ _. apply triple_ret. exact I.
Qed.

(** From the point where the primary path has raised, a run only adds
    degraded events, and it ends normally or with a foreign exception. *)
Lemma degraded_run_triple (dir out_dir : string) (e : exn) :
  triple (degraded_event E dir) (fun _ => True) foreign
         (bind (fallback_path E dir e) (finish E out_dir)).
Proof.
  eapply triple_bind.
  - eapply triple_events; [ | apply fallback_path_triple ].
    intros ev. destruct ev; cbn; tauto.
  - intros r [scan [-> [Hstack Hne]]].
    eapply triple_events; [ | apply finish_triple ].
    intros ev. destruct ev; cbn; try tauto.
    + intros [-> [-> ->]]. auto.
    + intros [Hsp [Ho _]]. split; assumption.
Qed.

Lemma save_slices_ok (out_dir : string) (items : list (nat * array2 Voxel)) :
  (forall idx sl, In (idx, sl) items ->
     save_npy E (out_dir ++ Py.format_03d idx ++ ".npy")%string
              (map (map (astype E Int16)) sl) = None) ->
  forall log : Log Voxel Coord,
    exists units,
      for_each (save_slice E out_dir) items log =
      (inr units,
       log ++ map (fun item : nat * array2 Voxel =>
                     EvSaveNpy (out_dir ++ Py.format_03d (fst item) ++ ".npy")%string
                               (map (map (astype E Int16)) (snd item))) items).
Proof.
  induction items as [ | [idx sl] items IH]; intros Hsave log; cbn [for_each map].
  - exists []. rewrite app_nil_r. reflexivity.
  - assert (Hstep : save_slice E out_dir (idx, sl) log =
                    (inr tt, log ++ [EvSaveNpy (out_dir ++ Py.format_03d idx ++ ".npy")%string
                                               (map (map (astype E Int16)) sl)])).
    { unfold save_slice, bind. rewrite (Hsave idx sl (or_introl eq_refl)). reflexivity. }
    rewrite (bind_inr _ _ _ _ _ Hstep).
    destruct (IH (fun i s Hin => Hsave i s (or_intror Hin))
                 (log ++ [EvSaveNpy (out_dir ++ Py.format_03d idx ++ ".npy")%string
                                    (map (map (astype E Int16)) sl)]))
      as [units Hrest].
    rewrite (bind_inr _ _ _ _ _ Hrest).
    exists (tt :: units). cbn. rewrite <- app_assoc. reflexivity.
Qed.

(** When the centroid, the crop and the writes succeed, the statements
    after the [try] log exactly these events and return. *)
Lemma finish_ok (out_dir : string) (scan : array3 Voxel) (sp : option float3)
    (o : option (six float)) (z y x : Coord) (scan_cropped : array3 Voxel)
    (log : Log Voxel Coord) :
  let mask := map (map (map (gt0 E))) scan in
  let meta := mkMeta sp o x y (shape3 scan) (shape3 scan_cropped) in
  let meta_path := (out_dir ++ "../meta.json")%string in
  center_of_mass E mask = inr (z, y, x) ->
  crop_scan E scan OUT_SIZE x y BG_HU = inr scan_cropped ->
  write_meta E meta_path meta = None ->
  (forall idx sl, In (idx, sl) (Py.enumerate scan_cropped) ->
     save_npy E (out_dir ++ Py.format_03d idx ++ ".npy")%string
              (map (map (astype E Int16)) sl) = None) ->
  finish E out_dir (scan, sp, o) log =
  (inr tt,
   log ++ [EvCenterOfMass mask; EvCropScan scan OUT_SIZE x y BG_HU;
           EvWriteMeta meta_path meta]
       ++ saved_slices E out_dir scan_cropped).
Proof.
  intros mask meta meta_path Hcom Hcrop Hmeta Hsave.
  unfold finish. fold mask.
  unfold bind at 1. cbn [emit get_log set_log HasLog_Log].
  unfold bind at 1. rewrite Hcom. cbn [ext ret].
  unfold bind at 1. cbn [emit get_log set_log HasLog_Log].
  unfold bind at 1. rewrite Hcrop. cbn [ext ret].
  fold meta meta_path.
  unfold bind at 1. rewrite Hmeta. cbn [ext_unit ret].
  unfold bind at 1. cbn [emit get_log set_log HasLog_Log].
  destruct (save_slices_ok out_dir (Py.enumerate scan_cropped) Hsave
              (((log ++ [EvCenterOfMass mask]) ++ [EvCropScan scan OUT_SIZE x y BG_HU])
                 ++ [EvWriteMeta meta_path meta])) as [units Hunits].
  rewrite (bind_inr _ _ _ _ _ Hunits).
  unfold ret, saved_slices. repeat rewrite <- app_assoc. reflexivity.
Qed.

(** When the directory can be listed and its files load and stack, the
    [except] block logs exactly these events and returns the stack. *)
Lemma fallback_path_ok (dir : string) (e : exn) (paths : list string)
    (scan : array3 Voxel) (log : Log Voxel Coord) :
  iterdir E dir = inr paths ->
  Forall2 (fun p s => load E p false = inr s) (Py.sorted paths) scan ->
  np_stack scan = inr scan ->
  fallback_path E dir e log =
  (inr (scan, None, None),
   log ++ [EvPrintExc e; EvPrint dir; EvIterdir dir]
       ++ map (fun p => EvLoad p false) (Py.sorted paths)).
Proof.
  intros Hdir Hload Hstack. unfold fallback_path.
  unfold bind at 1. cbn [emit get_log set_log HasLog_Log].
  unfold bind at 1. cbn [emit get_log set_log HasLog_Log].
  unfold bind at 1. cbn [emit get_log set_log HasLog_Log].
  unfold bind at 1. rewrite Hdir. cbn [ext ret].
  rewrite (bind_inr _ _ _ _ _ (for_each_load_ok _ _ Hload _)).
  unfold bind. rewrite Hstack. cbn [lift ret].
  repeat rewrite <- app_assoc. reflexivity.
Qed.

End ProcessScan.

(** ** The methods of [VtkImage] *)

Section VtkImageFacts.

Context {Voxel Coord : Type}.
Variable E : Collab Voxel Coord.

Lemma VtkImage_init_unreadable (dir msg : string) (sp : spacing_policy)
    (log : Log Voxel Coord) :
  read_series E dir = inl msg ->
  VtkImage_init E dir sp log = (inl (ExternalError msg), log ++ [EvReadSeries dir]).
Proof.
  intros Hrd. unfold VtkImage_init, bind. cbn. rewrite Hrd. reflexivity.
Qed.

Lemma VtkImage_init_zero (dir : string) (sp : spacing_policy) (rd : ReaderOutput)
    (log : Log Voxel Coord) :
  read_series E dir = inr rd ->
  (c4 (orientation_patient rd) =? 0)%float = true ->
  VtkImage_init E dir sp log =
  (inl (OrientationError (orientation_patient rd)), log ++ [EvReadSeries dir]).
Proof.
  intros Hrd Hy2. unfold VtkImage_init, bind. cbn. rewrite Hrd. cbn.
  rewrite Hy2. reflexivity.
Qed.

Lemma VtkImage_init_ok (dir : string) (sp : spacing_policy) (rd : ReaderOutput)
    (log : Log Voxel Coord) :
  read_series E dir = inr rd ->
  (c4 (orientation_patient rd) =? 0)%float = false ->
  VtkImage_init E dir sp log = (inr (constructed E rd dir sp), log ++ [EvReadSeries dir]).
Proof.
  intros Hrd Hy2. unfold VtkImage_init, bind. cbn. rewrite Hrd. cbn.
  rewrite Hy2. reflexivity.
Qed.

Lemma set_transform_run (az ay : float) (ox : option Z) (st : Obj Voxel Coord) :
  set_transform az ay ox st =
  (inr tt,
   (assign_image None (assign_origin_x ox (assign_angle_y ay (assign_angle_z az (fst st)))),
    snd st)).
Proof. reflexivity. Qed.

Lemma set_spacing_run (sp : spacing_policy) (st : Obj Voxel Coord) :
  set_spacing sp st = (inr tt, (assign_image None (assign_spacing sp (fst st)), snd st)).
Proof. reflexivity. Qed.

(** What [update_image] does, case by case. *)
Lemma update_image_run (self : VtkImage Voxel) (log : Log Voxel Coord) :
  let cfg := configure_reslice self in
  let resampled (resliced : ImageData Voxel) (sp : float3) :=
    match resample E resliced sp with
    | inl msg => (inl (ExternalError msg), (self, log ++ [EvReslice cfg; EvResample sp]))
    | inr out =>
        (inr tt, (assign_image (Some out) self, log ++ [EvReslice cfg; EvResample sp]))
    end in
  update_image E (self, log) =
  match reslice E cfg with
  | inl msg => (inl (ExternalError msg), (self, log ++ [EvReslice cfg]))
  | inr resliced =>
      match spacing self with
      | Auto =>
          let m := Py.min3 (img_spacing resliced) in
          if (m =? 0)%float
          then (inl (InvalidSpacingError (scan_dir self)), (self, log ++ [EvReslice cfg]))
          else resampled resliced (m, m, m)
      | NoResample =>
          (inr tt, (assign_image (Some resliced) self, log ++ [EvReslice cfg]))
      | Explicit sx sy sz => resampled resliced (sx, sy, sz)
      end
  end.
Proof.
  intros cfg resampled. unfold update_image, bind, get_self. cbn.
  fold cfg. destruct (reslice E cfg) as [msg | resliced]; cbn; [ reflexivity | ].
  unfold resolve_spacing, resampled.
  destruct (spacing self) as [ | | sx sy sz]; cbn.
  - destruct (Py.min3 (img_spacing resliced) =? 0)%float; cbn; [ reflexivity | ].
    rewrite <- app_assoc.
    destruct (resample E resliced _) as [msg | out]; reflexivity.
  - reflexivity.
  - rewrite <- app_assoc.
    destruct (resample E resliced _) as [msg | out]; reflexivity.
Qed.

(** [update_image] computes the pipeline once; it either raises and leaves
    the object as it was, or stores an image. *)
Lemma update_image_summary (self : VtkImage Voxel) (log : Log Voxel Coord) :
  exists r self' rest,
    update_image E (self, log) =
      (r, (self', log ++ EvReslice (configure_reslice self) :: rest)) /\
    Forall (fun ev => is_reslice ev = false) rest /\
    ((exists e, r = inl e /\ self' = self) \/
     (exists img, r = inr tt /\ self' = assign_image (Some img) self)).
Proof.
  rewrite update_image_run. cbv zeta.
  destruct (reslice E (configure_reslice self)) as [msg | resliced].
  - exists (inl (ExternalError msg)), self, []. repeat split; eauto.
  - destruct (spacing self) as [ | | sx sy sz].
    + destruct (Py.min3 (img_spacing resliced) =? 0)%float.
      * eexists _, self, []. repeat split; eauto.
      * destruct (resample E resliced _) as [msg | out].
        -- eexists _, self, [_]. split; [ reflexivity | ]. split; [ repeat constructor | eauto ].
        -- eexists _, _, [_]. split; [ reflexivity | ]. split; [ repeat constructor | eauto ].
    + eexists _, _, []. split; [ reflexivity | ]. split; [ constructor | eauto ].
    + destruct (resample E resliced _) as [msg | out].
      * eexists _, self, [_]. split; [ reflexivity | ]. split; [ repeat constructor | eauto ].
      * eexists _, _, [_]. split; [ reflexivity | ]. split; [ repeat constructor | eauto ].
Qed.

Lemma get_slices_cached (dt : option dtype) (self : VtkImage Voxel)
    (img : ImageData Voxel) (log : Log Voxel Coord) :
  image self = Some img ->
  get_slices E dt (self, log) = (extract E dt self img, (self, log)).
Proof.
  intros Himg. unfold get_slices, bind, get_self, extract. cbn.
  rewrite Himg. cbn. rewrite Himg.
  destruct (dimensions img) as [[rows cols] depth].
  destruct (reshape3 depth cols rows (scalars img)) as [e | array]; cbn; [ reflexivity | ].
  match goal with |- context [if ?b then _ else _] => destruct b end; reflexivity.
Qed.

Lemma get_slices_update_raises (dt : option dtype) (self : VtkImage Voxel)
    (log : Log Voxel Coord) (e : exn) (st' : Obj Voxel Coord) :
  image self = None ->
  update_image E (self, log) = (inl e, st') ->
  get_slices E dt (self, log) = (inl e, st').
Proof.
  intros Himg Hup. unfold get_slices, bind, get_self. cbn.
  rewrite Himg, Hup. reflexivity.
Qed.

Lemma get_slices_updated (dt : option dtype) (self self' : VtkImage Voxel)
    (log log' : Log Voxel Coord) (img : ImageData Voxel) :
  image self = None ->
  update_image E (self, log) = (inr tt, (self', log')) ->
  image self' = Some img ->
  get_slices E dt (self, log) = (extract E dt self' img, (self', log')).
Proof.
  intros Himg Hup Himg'.
  rewrite <- (get_slices_cached dt self' img log' Himg').
  unfold get_slices, bind, get_self. cbn.
  rewrite Himg, Hup, Himg'. cbn. rewrite Himg'. reflexivity.
Qed.

End VtkImageFacts.

(** ** Shapes *)

Section Shapes.

Context {Voxel : Type}.

Lemma length_chunks {A : Type} (n k : nat) (l : list A) : length (chunks n k l) = n.
Proof.
  revert l. induction n as [ | n IH]; intros l; cbn; [ reflexivity | ].
  rewrite IH. reflexivity.
Qed.

Lemma chunks_pieces {A : Type} (n k : nat) (l : list A) :
  n * k <= length l -> Forall (fun piece => length piece = k) (chunks n k l).
Proof.
  revert l. induction n as [ | n IH]; intros l Hlen; cbn; constructor.
  - apply firstn_length_le. cbn in Hlen. lia.
  - apply IH. rewrite length_skipn. cbn in Hlen. lia.
Qed.

Lemma reshape3_shape (depth cols rows : nat) (flat : list Voxel) (a : array3 Voxel) :
  reshape3 depth cols rows flat = inr a -> has_shape3 a (depth, cols, rows).
Proof.
  unfold reshape3. destruct (Nat.eqb_spec (length flat) (depth * cols * rows)) as [Hlen | ];
    [ | discriminate ].
  intros Heq. injection Heq as <-. split.
  - rewrite length_map. apply length_chunks.
  - apply Forall_map.
    assert (Hpieces : Forall (fun piece : list Voxel => length piece = cols * rows)
                             (chunks depth (cols * rows) flat)).
    { apply chunks_pieces. rewrite Hlen, Nat.mul_assoc. apply Nat.le_refl. }
    eapply Forall_impl; [ | exact Hpieces ].
    intros piece Hp. cbv beta. split; [ apply length_chunks | ].
    apply chunks_pieces. rewrite Hp. apply Nat.le_refl.
Qed.

Lemma reshape3_ok (depth cols rows : nat) (flat : list Voxel) :
  length flat = depth * cols * rows ->
  exists a, reshape3 depth cols rows flat = inr a.
Proof.
  intros Hlen. unfold reshape3. rewrite (proj2 (Nat.eqb_eq _ _) Hlen). eauto.
Qed.

Lemma rot90_2_shape (a : array3 Voxel) (s : nat3) :
  has_shape3 a s -> has_shape3 (rot90_2 a) s.
Proof.
  destruct s as [[d h] w]. intros [Hd Hall]. unfold rot90_2. split.
  - rewrite length_rev, length_map. exact Hd.
  - apply Forall_rev. apply Forall_map.
    eapply Forall_impl; [ | exact Hall ].
    intros sl [Hh Hrows]. split; [ rewrite length_rev; exact Hh | apply Forall_rev; exact Hrows ].
Qed.

Lemma map3_shape {B : Type} (f : Voxel -> B) (a : array3 Voxel) (s : nat3) :
  has_shape3 a s -> has_shape3 (map (map (map f)) a) s.
Proof.
  destruct s as [[d h] w]. intros [Hd Hall]. split.
  - rewrite length_map. exact Hd.
  - apply Forall_map. eapply Forall_impl; [ | exact Hall ].
    intros sl [Hh Hrows]. split; [ rewrite length_map; exact Hh | ].
    apply Forall_map. eapply Forall_impl; [ | exact Hrows ].
    intros row Hw. rewrite length_map. exact Hw.
Qed.

End Shapes.

(** What [extract] returns for a well-formed image. *)
Lemma extract_depth {Voxel Coord : Type} (E : Collab Voxel Coord) (dt : option dtype)
    (self : VtkImage Voxel) (img : ImageData Voxel) (rows cols depth : nat) :
  dimensions img = (rows, cols, depth) ->
  length (scalars img) = depth * cols * rows ->
  exists array,
    has_shape3 array (depth, cols, rows) /\
    extract E dt self img =
    if Nat.ltb depth 5 then inl ShortVolumeError
    else inr (array, img_spacing img, shear_params self).
Proof.
  intros Hdim Hlen. unfold extract. rewrite Hdim.
  destruct (reshape3_ok depth cols rows (scalars img) Hlen) as [a Ha].
  rewrite Ha. pose proof (reshape3_shape _ _ _ _ _ Ha) as Hshape.
  apply rot90_2_shape in Hshape.
  set (array := match dt with
                | Some d => array_astype E d (rot90_2 a)
                | None => rot90_2 a
                end).
  assert (Harr : has_shape3 array (depth, cols, rows)).
  { unfold array. destruct dt as [d | ]; [ apply map3_shape | ]; exact Hshape. }
  exists array. split; [ exact Harr | ].
  destruct Harr as [Hd _]. cbv zeta. rewrite Hd. reflexivity.
Qed.

(** ** The state of the object across calls *)

Section ObjectState.

Context {Voxel Coord : Type}.
Variable E : Collab Voxel Coord.

Lemma get_slices_state (dt : option dtype) (self : VtkImage Voxel) (log : Log Voxel Coord) :
  snd (get_slices E dt (self, log)) =
  match image self with
  | Some _ => (self, log)
  | None => snd (update_image E (self, log))
  end.
Proof.
  destruct (image self) as [img | ] eqn:Himg.
  - rewrite (get_slices_cached E dt self img log Himg). reflexivity.
  - destruct (update_image_summary E self log)
      as [r [self' [rest [Hup [_ [[e [-> ->]] | [img [-> ->]]]]]]]].
    + rewrite (get_slices_update_raises E dt _ _ _ _ Himg Hup), Hup. reflexivity.
    + rewrite (get_slices_updated E dt _ _ _ _ img Himg Hup eq_refl), Hup. reflexivity.
Qed.

Lemma recomputations_app (l1 l2 : Log Voxel Coord) :
  recomputations (l1 ++ l2) = recomputations l1 + recomputations l2.
Proof. unfold recomputations. rewrite filter_app, length_app. reflexivity. Qed.

Lemma recomputations_none (l : Log Voxel Coord) :
  Forall (fun ev => is_reslice ev = false) l -> recomputations l = 0.
Proof.
  unfold recomputations. induction 1 as [ | ev l Hev _ IH]; cbn; [ reflexivity | ].
  rewrite Hev. exact IH.
Qed.

(** [update_image] is one recomputation, whether it raises or not. *)
Lemma update_image_recomputes (self : VtkImage Voxel) (log : Log Voxel Coord) :
  recomputations (snd (snd (update_image E (self, log)))) = S (recomputations log).
Proof.
  destruct (update_image_summary E self log) as [r [self' [rest [Hup [Hrest _]]]]].
  rewrite Hup. cbn [snd].
  change (EvReslice (configure_reslice self) :: rest)
    with ([EvReslice (Voxel := Voxel) (Coord := Coord) (configure_reslice self)] ++ rest).
  rewrite !recomputations_app, (recomputations_none rest Hrest). cbn. lia.
Qed.

Lemma update_image_same_series (self : VtkImage Voxel) (log : Log Voxel Coord) :
  same_series (fst (snd (update_image E (self, log)))) self.
Proof.
  destruct (update_image_summary E self log)
    as [r [self' [rest [Hup [_ [[e [-> ->]] | [img [-> ->]]]]]]]];
    rewrite Hup; cbn; repeat split.
Qed.

Lemma invoke_same_series (m : method) (st : Obj Voxel Coord) :
  same_series (fst (snd (invoke E m st))) (fst st).
Proof.
  destruct st as [self log]. destruct m as [az ay ox | sp | | dt]; cbn [invoke].
  - rewrite set_transform_run. repeat split.
  - rewrite set_spacing_run. repeat split.
  - apply update_image_same_series.
  - assert (Hst : snd (bind (get_slices E dt) (fun _ => ret tt) (self, log)) =
                  snd (get_slices E dt (self, log))).
    { unfold bind. destruct (get_slices E dt (self, log)) as [[e | a] st']; reflexivity. }
    rewrite Hst, get_slices_state.
    destruct (image self); [ repeat split | apply update_image_same_series ].
Qed.

Lemma run_same_series (ms : list method) (st : Obj Voxel Coord) :
  same_series (fst (run E ms st)) (fst st).
Proof.
  revert st. induction ms as [ | m ms IH]; intros st; cbn [run].
  - repeat split.
  - destruct (IH (snd (invoke E m st))) as [H1 [H2 [H3 H4]]].
    destruct (invoke_same_series m st) as [G1 [G2 [G3 G4]]].
    repeat split; congruence.
Qed.

End ObjectState.

(** ** Sorting the directory *)

Lemma insert_sorted_perm (x : string) (l : list string) :
  Permutation (x :: l) (Py.insert_sorted x l).
Proof.
  induction l as [ | y l IH]; cbn; [ apply Permutation_refl | ].
  destruct (String.leb x y); [ apply Permutation_refl | ].
  eapply Permutation_trans; [ apply perm_swap | ].
  apply perm_skip. exact IH.
Qed.

Lemma sorted_perm (l : list string) : Permutation l (Py.sorted l).
Proof.
  induction l as [ | x l IH]; cbn; [ constructor | ].
  eapply Permutation_trans; [ apply perm_skip; exact IH | apply insert_sorted_perm ].
Qed.

Lemma insert_sorted_hd (x y : string) (l : list string) :
  String.leb y x = true ->
  HdRel (fun a b => String.leb a b = true) y l ->
  HdRel (fun a b => String.leb a b = true) y (Py.insert_sorted x l).
Proof.
  intros Hyx Hhd. destruct l as [ | z l]; cbn.
  - constructor. exact Hyx.
  - destruct (String.leb x z); constructor; [ exact Hyx | ].
    inversion Hhd; assumption.
Qed.

Lemma insert_sorted_sorted (x : string) (l : list string) :
  Sorted (fun a b => String.leb a b = true) l ->
  Sorted (fun a b => String.leb a b = true) (Py.insert_sorted x l).
Proof.
  induction 1 as [ | y l Hsorted IH Hhd]; cbn.
  - repeat constructor.
  - destruct (String.leb x y) eqn:Hxy.
    + constructor; [ constructor; assumption | constructor; exact Hxy ].
    + constructor; [ exact IH | ].
      apply insert_sorted_hd; [ | exact Hhd ].
      destruct (String.leb_total x y) as [Habs | Hyx]; [ congruence | exact Hyx ].
Qed.

Lemma sorted_sorted (l : list string) :
  Sorted (fun a b => String.leb a b = true) (Py.sorted l).
Proof.
  induction l as [ | x l IH]; cbn; [ constructor | ].
  apply insert_sorted_sorted. exact IH.
Qed.

(** ** The order of floats *)




(** ** The padding of [update_image] *)

Lemma padded_extent_spec (extent : six Z) (ox : Z) :
  let x_size := (c1 extent - c0 extent)%Z in
  let padded := padded_extent extent ox in
  (c0 padded = c0 extent - Z.max (x_size - 2 * ox) 0)%Z /\
  (c1 padded = c1 extent + Z.max (2 * ox - x_size) 0)%Z /\
  (c2 padded, c3 padded, c4 padded, c5 padded) =
    (c2 extent, c3 extent, c4 extent, c5 extent) /\
  (c0 padded <= c0 extent)%Z /\
  (c1 extent <= c1 padded)%Z /\
  (c0 padded = c0 extent \/ c1 padded = c1 extent) /\
  (c0 padded + c1 padded = 2 * (c0 extent + ox))%Z.
Proof.
  cbv zeta. unfold padded_extent. cbn [c0 c1 c2 c3 c4 c5].
  repeat split; lia.
Qed.

(** ** The cropper *)

Section Cropper.

Context {Voxel : Type}.

Lemma pick_inside {A : Type} (l : list A) (i : Z) (d : A) :
  (0 <= i < Z.of_nat (length l))%Z -> DataUtils.pick l i d = nth (Z.to_nat i) l d.
Proof.
  intros [Hlo _]. unfold DataUtils.pick.
  rewrite (proj2 (Z.leb_le 0 i) Hlo). reflexivity.
Qed.

Lemma pick_outside {A : Type} (l : list A) (i : Z) (d : A) :
  (i < 0 \/ Z.of_nat (length l) <= i)%Z -> DataUtils.pick l i d = d.
Proof.
  intros Hout. unfold DataUtils.pick. destruct (Z.leb_spec 0 i) as [Hlo | Hneg].
  - apply nth_overflow. lia.
  - reflexivity.
Qed.

Lemma crop_row_length (bg : Voxel) (x0 : Z) (tw : nat) (row : list Voxel) :
  length (DataUtils.crop_row bg x0 tw row) = tw.
Proof. unfold DataUtils.crop_row. rewrite length_map, length_seq. reflexivity. Qed.

Lemma crop_slice_shape (bg : Voxel) (x0 y0 : Z) (tw th : nat) (sl : list (list Voxel)) :
  length (DataUtils.crop_slice bg x0 y0 tw th sl) = th /\
  Forall (fun row => length row = tw) (DataUtils.crop_slice bg x0 y0 tw th sl).
Proof.
  unfold DataUtils.crop_slice. split.
  - rewrite length_map, length_seq. reflexivity.
  - apply Forall_map. apply Forall_forall. intros i _. apply crop_row_length.
Qed.

Lemma crop_scan_shape (scan : array3 Voxel) (tw th : nat) (x y : Q) (bg : Voxel) :
  has_shape3 (DataUtils.crop_scan scan (tw, th) x y bg) (length scan, th, tw).
Proof.
  unfold DataUtils.crop_scan. split.
  - apply length_map.
  - apply Forall_map. apply Forall_forall. intros sl _. apply crop_slice_shape.
Qed.

Lemma crop_row_nth (bg : Voxel) (x0 : Z) (tw : nat) (row : list Voxel) (j : nat) :
  j < tw ->
  nth j (DataUtils.crop_row bg x0 tw row) bg = DataUtils.pick row (x0 + Z.of_nat j)%Z bg.
Proof.
  intros Hj. unfold DataUtils.crop_row.
  rewrite (nth_indep _ bg (DataUtils.pick row (x0 + Z.of_nat 0)%Z bg))
    by (rewrite length_map, length_seq; exact Hj).
  rewrite (map_nth (fun j => DataUtils.pick row (x0 + Z.of_nat j)%Z bg)).
  rewrite seq_nth by exact Hj. reflexivity.
Qed.

Lemma crop_slice_nth (bg : Voxel) (x0 y0 : Z) (tw th : nat) (sl : list (list Voxel))
    (i : nat) :
  i < th ->
  nth i (DataUtils.crop_slice bg x0 y0 tw th sl) [] =
  DataUtils.crop_row bg x0 tw (DataUtils.pick sl (y0 + Z.of_nat i)%Z []).
Proof.
  intros Hi. unfold DataUtils.crop_slice.
  rewrite (nth_indep _ [] (DataUtils.crop_row bg x0 tw
                             (DataUtils.pick sl (y0 + Z.of_nat 0)%Z [])))
    by (rewrite length_map, length_seq; exact Hi).
  rewrite (map_nth (fun i => DataUtils.crop_row bg x0 tw
                               (DataUtils.pick sl (y0 + Z.of_nat i)%Z []))).
  rewrite seq_nth by exact Hi. reflexivity.
Qed.

(** The voxel of the output at slice [d], row [i], column [j]. *)
Lemma crop_scan_nth (scan : array3 Voxel) (tw th : nat) (x y : Q) (bg : Voxel)
    (d i j : nat) :
  d < length scan -> i < th -> j < tw ->
  nth j (nth i (nth d (DataUtils.crop_scan scan (tw, th) x y bg) []) []) bg =
  DataUtils.pick
    (DataUtils.pick (nth d scan []) (DataUtils.window_start y th + Z.of_nat i)%Z [])
    (DataUtils.window_start x tw + Z.of_nat j)%Z bg.
Proof.
  intros Hd Hi Hj. unfold DataUtils.crop_scan.
  rewrite (nth_indep _ [] (DataUtils.crop_slice bg (DataUtils.window_start x tw)
                             (DataUtils.window_start y th) tw th []))
    by (rewrite length_map; exact Hd).
  rewrite (map_nth (DataUtils.crop_slice bg (DataUtils.window_start x tw)
                      (DataUtils.window_start y th) tw th)).
  rewrite crop_slice_nth by exact Hi.
  apply crop_row_nth. exact Hj.
Qed.

End Cropper.

(** ** The two paths of [process_scan] *)

Section Paths.

Context {Voxel Coord : Type}.
Variable E : Collab Voxel Coord.

(** The [try] block, case by case: the reader fails, the orientation is
    rejected, the reslice fails, the extraction raises, or all succeed. *)
Lemma primary_path_run (dir : string) (log : Log Voxel Coord) :
  primary_path E dir log =
  match read_series E dir with
  | inl msg => (inl (ExternalError msg), log ++ [EvReadSeries dir])
  | inr rd =>
      if (c4 (orientation_patient rd) =? 0)%float
      then (inl (OrientationError (orientation_patient rd)), log ++ [EvReadSeries dir])
      else
        let self := constructed E rd dir NoResample in
        let log1 := log ++ [EvReadSeries dir; EvReslice (configure_reslice self)] in
        match reslice E (configure_reslice self) with
        | inl msg => (inl (ExternalError msg), log1)
        | inr img =>
            match extract E (Some Float32) (assign_image (Some img) self) img with
            | inl e => (inl e, log1)
            | inr (scan, sp, _) => (inr (scan, Some sp, Some (orientation_patient rd)), log1)
            end
        end
  end.
Proof.
  unfold primary_path.
  destruct (read_series E dir) as [msg | rd] eqn:Hrd.
  - rewrite (bind_inl _ _ _ _ _ (VtkImage_init_unreadable E dir msg NoResample log Hrd)).
    reflexivity.
  - destruct (c4 (orientation_patient rd) =? 0)%float eqn:Hy2.
    + rewrite (bind_inl _ _ _ _ _ (VtkImage_init_zero E dir NoResample rd log Hrd Hy2)).
      reflexivity.
    + rewrite (bind_inr _ _ _ _ _ (VtkImage_init_ok E dir NoResample rd log Hrd Hy2)).
      cbv zeta. set (self := constructed E rd dir NoResample).
      pose proof (update_image_run E self (log ++ [EvReadSeries dir])) as Hup.
      cbv zeta in Hup. change (spacing self) with NoResample in Hup.
      unfold bind, call.
      destruct (reslice E (configure_reslice self)) as [msg | img].
      * rewrite (get_slices_update_raises E _ self _ _ _ eq_refl Hup).
        rewrite <- app_assoc. reflexivity.
      * rewrite (get_slices_updated E _ self _ _ _ img eq_refl Hup eq_refl).
        rewrite <- app_assoc.
        destruct (extract E (Some Float32) (assign_image (Some img) self) img)
          as [e | [[scan sp] shear]]; reflexivity.
Qed.

Lemma save_slices_returns (out_dir : string) (items : list (nat * array2 Voxel))
    (log log' : Log Voxel Coord) (units : list unit) :
  for_each (save_slice E out_dir) items log = (inr units, log') ->
  log' = log ++ map (fun item : nat * array2 Voxel =>
                       EvSaveNpy (out_dir ++ Py.format_03d (fst item) ++ ".npy")%string
                                 (map (map (astype E Int16)) (snd item))) items.
Proof.
  revert log log' units. induction items as [ | [idx sl] items IH];
    intros log log' units; cbn [for_each map].
  - intros Heq. injection Heq as _ <-. rewrite app_nil_r. reflexivity.
  - unfold bind at 1. unfold save_slice at 1. unfold bind at 1.
    destruct (save_npy E _ _) as [msg | ]; cbn [ext_unit raise ret]; [ discriminate | ].
    cbn [emit get_log set_log HasLog_Log].
    unfold bind at 1.
    destruct (for_each (save_slice E out_dir) items _) as [[e | us] log2] eqn:Hrest;
      [ discriminate | ].
    intros Heq. injection Heq as _ <-.
    rewrite (IH _ _ _ Hrest), <- app_assoc. reflexivity.
Qed.

(** When the statements after the [try] return, the centroid and the crop
    have succeeded and the metadata and all the slices are in the log. *)
Lemma finish_returns (out_dir : string) (scan : array3 Voxel) (sp : option float3)
    (o : option (six float)) (log log' : Log Voxel Coord) :
  finish E out_dir (scan, sp, o) log = (inr tt, log') ->
  exists z y x scan_cropped,
    center_of_mass E (map (map (map (gt0 E))) scan) = inr (z, y, x) /\
    crop_scan E scan OUT_SIZE x y BG_HU = inr scan_cropped /\
    log' = log ++ [EvCenterOfMass (map (map (map (gt0 E))) scan);
                   EvCropScan scan OUT_SIZE x y BG_HU;
                   EvWriteMeta (out_dir ++ "../meta.json")%string
                     (mkMeta sp o x y (shape3 scan) (shape3 scan_cropped))]
               ++ saved_slices E out_dir scan_cropped.
Proof.
  unfold finish.
  unfold bind at 1. cbn [emit get_log set_log HasLog_Log].
  unfold bind at 1.
  destruct (center_of_mass E _) as [msg | [[z y] x]] eqn:Hcom;
    cbn [ext raise ret]; [ discriminate | ].
  unfold bind at 1. cbn [emit get_log set_log HasLog_Log].
  unfold bind at 1.
  destruct (crop_scan E scan OUT_SIZE x y BG_HU) as [msg | scan_cropped] eqn:Hcrop;
    cbn [ext raise ret]; [ discriminate | ].
  unfold bind at 1.
  destruct (write_meta E _ _) as [msg | ]; cbn [ext_unit raise ret]; [ discriminate | ].
  unfold bind at 1. cbn [emit get_log set_log HasLog_Log].
  unfold bind at 1.
  destruct (for_each (save_slice E out_dir) (Py.enumerate scan_cropped) _)
    as [[e | units] log2] eqn:Hsave; [ discriminate | ].
  cbn [ret]. intros Heq. injection Heq as <-.
  exists z, y, x, scan_cropped.
  split; [ reflexivity | ]. split; [ exact Hcrop | ].
  rewrite (save_slices_returns _ _ _ _ _ Hsave). unfold saved_slices.
  repeat rewrite <- app_assoc. reflexivity.
Qed.

End Paths.

(** ** Runs in which the primary path raises *)

Section DegradedRuns.

Context {Voxel Coord : Type}.
Variable E : Collab Voxel Coord.

Lemma process_scan_primary_raises (dir : string) (log log1 : Log Voxel Coord) (e : exn) :
  makedirs E (Py.replace "dicom/" "3d/" dir) = None ->
  primary_path E dir (prepared dir log) = (inl e, log1) ->
  process_scan E dir log =
  bind (fallback_path E dir e) (finish E (Py.replace "dicom/" "3d/" dir)) log1.
Proof.
  intros Hmk Hprim. rewrite (process_scan_prepared E dir log Hmk).
  unfold bind at 1. unfold reconstruct.
  rewrite (try_except_inl _ _ _ _ _ Hprim). reflexivity.
Qed.

Lemma process_scan_primary_returns (dir : string) (log log1 : Log Voxel Coord)
    (r : Recon Voxel) :
  makedirs E (Py.replace "dicom/" "3d/" dir) = None ->
  primary_path E dir (prepared dir log) = (inr r, log1) ->
  process_scan E dir log = finish E (Py.replace "dicom/" "3d/" dir) r log1.
Proof.
  intros Hmk Hprim. rewrite (process_scan_prepared E dir log Hmk).
  unfold bind at 1. unfold reconstruct.
  rewrite (try_except_inr _ _ _ _ _ Hprim). reflexivity.
Qed.

(** What a degraded run adds to the log and how it can end. *)
Lemma degraded_run_added (dir out_dir : string) (e : exn) (log1 : Log Voxel Coord) :
  exists added,
    snd (bind (fallback_path E dir e) (finish E out_dir) log1) = log1 ++ added /\
    Forall (degraded_event E dir) added /\
    match fst (bind (fallback_path E dir e) (finish E out_dir) log1) with
    | inl e' => foreign e'
    | inr _ => True
    end.
Proof.
  destruct (degraded_run_triple E dir out_dir e log1) as [[added [Hlog Hall]] Hres].
  exists added. split; [ exact Hlog | ]. split; [ exact Hall | ].
  destruct (fst _); [ exact Hres | exact I ].
Qed.

(** The [except] block starts by printing the traceback and the
    directory and by listing the directory; the rest of the run only adds
    degraded events. *)
Lemma degraded_run_head (dir out_dir : string) (e : exn) (log1 : Log Voxel Coord) :
  exists rest,
    snd (bind (fallback_path E dir e) (finish E out_dir) log1) =
      log1 ++ [EvPrintExc e; EvPrint dir; EvIterdir dir] ++ rest /\
    Forall (degraded_event E dir) rest.
Proof.
  destruct (degraded_run_added dir out_dir e log1) as [added [Hlog [Hall _]]].
  assert (Hrun : fallback_path E dir e log1 =
                 (paths <- ext (iterdir E dir) ;;
                  slices <- for_each (load_slice E) (Py.sorted paths) ;;
                  scan <- lift (np_stack slices) ;;
                  ret (scan, None, None))
                   (log1 ++ [EvPrintExc e; EvPrint dir; EvIterdir dir])).
  { unfold fallback_path.
    unfold bind at 1. cbn [emit get_log set_log HasLog_Log].
    unfold bind at 1. cbn [emit get_log set_log HasLog_Log].
    unfold bind at 1. cbn [emit get_log set_log HasLog_Log].
    repeat rewrite <- app_assoc. reflexivity. }
  assert (Hrest : triple (fun _ : Event Voxel Coord => True)
                         (fun _ : unit => True) (fun _ => True)
                         (bind (paths <- ext (iterdir E dir) ;;
                                slices <- for_each (load_slice E) (Py.sorted paths) ;;
                                scan <- lift (np_stack slices) ;;
                                ret (scan, None, None))
                               (finish E out_dir))).
  { apply triple_bind with (Q1 := fun _ => True).
    - apply triple_bind with (Q1 := fun _ => True);
        [ apply triple_ext; auto | intros paths _ ].
      apply triple_bind with (Q1 := fun _ => True).
      + eapply triple_events; [ | eapply triple_weaken;
                                    [ apply (for_each_load_triple E) | auto | auto ] ].
        auto.
      + intros slices _. apply triple_bind with (Q1 := fun _ => True);
          [ apply triple_lift; auto | intros scan _; apply triple_ret; exact I ].
    - intros r _. eapply triple_events; [ | eapply triple_weaken;
                                              [ apply (finish_triple E) | auto | auto ] ].
      auto. }
  destruct (Hrest (log1 ++ [EvPrintExc e; EvPrint dir; EvIterdir dir]))
    as [[rest [Hlog' _]] _].
  cbn [get_log HasLog_Log] in Hlog'.
  assert (Hsame : bind (fallback_path E dir e) (finish E out_dir) log1 =
                  bind (paths <- ext (iterdir E dir) ;;
                        slices <- for_each (load_slice E) (Py.sorted paths) ;;
                        scan <- lift (np_stack slices) ;;
                        ret (scan, None, None))
                       (finish E out_dir)
                       (log1 ++ [EvPrintExc e; EvPrint dir; EvIterdir dir])).
  { unfold bind at 1. rewrite Hrun. reflexivity. }
  rewrite Hsame in Hlog. rewrite Hlog', <- app_assoc in Hlog.
  apply app_inv_head in Hlog. subst added.
  exists rest. split.
  - rewrite Hsame, Hlog', <- app_assoc. reflexivity.
  - apply Forall_app in Hall. exact (proj2 Hall).
Qed.

(** When the directory lists, its files load and stack, and the centroid,
    the crop and the writes succeed, a degraded run returns with exactly
    these events in the log. *)
Lemma degraded_run_ok (dir out_dir : string) (e : exn) (log1 : Log Voxel Coord)
    (paths : list string) (scan : array3 Voxel) (z y x : Coord)
    (scan_cropped : array3 Voxel) :
  let mask := map (map (map (gt0 E))) scan in
  let meta := mkMeta None None x y (shape3 scan) (shape3 scan_cropped) in
  let meta_path := (out_dir ++ "../meta.json")%string in
  iterdir E dir = inr paths ->
  Forall2 (fun p s => load E p false = inr s) (Py.sorted paths) scan ->
  np_stack scan = inr scan ->
  center_of_mass E mask = inr (z, y, x) ->
  crop_scan E scan OUT_SIZE x y BG_HU = inr scan_cropped ->
  write_meta E meta_path meta = None ->
  (forall idx sl, In (idx, sl) (Py.enumerate scan_cropped) ->
     save_npy E (out_dir ++ Py.format_03d idx ++ ".npy")%string
              (map (map (astype E Int16)) sl) = None) ->
  bind (fallback_path E dir e) (finish E out_dir) log1 =
    (inr tt,
     log1 ++ [EvPrintExc e; EvPrint dir; EvIterdir dir]
          ++ map (fun p => EvLoad p false) (Py.sorted paths)
          ++ [EvCenterOfMass mask; EvCropScan scan OUT_SIZE x y BG_HU;
              EvWriteMeta meta_path meta]
          ++ saved_slices E out_dir scan_cropped).
Proof.
  intros mask meta meta_path Hdir Hload Hstack Hcom Hcrop Hmeta Hsave.
  rewrite (bind_inr _ _ _ _ _ (fallback_path_ok E dir e paths scan log1 Hdir Hload Hstack)).
  rewrite (finish_ok E out_dir scan None None z y x scan_cropped _ Hcom Hcrop Hmeta Hsave).
  repeat rewrite <- app_assoc. reflexivity.
Qed.

(** The loop of the [except] block, when it returns, has loaded every
    path of the list. *)
Lemma for_each_load_returns (l : list string) (slices : list (array2 Voxel))
    (log log' : Log Voxel Coord) :
  for_each (load_slice E) l log = (inr slices, log') ->
  Forall2 (fun p s => load E p false = inr s) l slices /\
  log' = log ++ map (fun p => EvLoad p false) l.
Proof.
  revert slices log log'. induction l as [ | p l IH]; intros slices log log'; cbn [for_each map].
  - intros Heq. injection Heq as <- <-. rewrite app_nil_r. split; [ constructor | reflexivity ].
  - unfold bind at 1.
    destruct (load_slice E p log) as [[e1 | s] log2] eqn:Hstep; [ discriminate | ].
    unfold bind at 1.
    destruct (for_each (load_slice E) l log2) as [[e2 | rest] log3] eqn:Hrest; [ discriminate | ].
    cbn [ret]. intros Heq. injection Heq as <- <-.
    destruct (IH _ _ _ Hrest) as [Hall ->].
    unfold load_slice in Hstep. unfold bind at 1 in Hstep.
    cbn [emit get_log set_log HasLog_Log] in Hstep.
    destruct (load E p false) as [msg | s'] eqn:Hload; cbn [ext raise ret] in Hstep;
      [ discriminate | ].
    injection Hstep as <- <-.
    split; [ constructor; assumption | ].
    rewrite <- app_assoc. reflexivity.
Qed.

(** A degraded run that returns has listed the directory, loaded its
    sorted entries, stacked them, cropped the stack and written metadata
    with [null] geometry. *)
Lemma degraded_run_returns (dir out_dir : string) (e : exn) (log1 log' : Log Voxel Coord) :
  bind (fallback_path E dir e) (finish E out_dir) log1 = (inr tt, log') ->
  exists paths scan z y x scan_cropped,
    iterdir E dir = inr paths /\
    Forall2 (fun p s => load E p false = inr s) (Py.sorted paths) scan /\
    np_stack scan = inr scan /\
    center_of_mass E (map (map (map (gt0 E))) scan) = inr (z, y, x) /\
    crop_scan E scan OUT_SIZE x y BG_HU = inr scan_cropped /\
    log' = log1 ++ [EvPrintExc e; EvPrint dir; EvIterdir dir]
                ++ map (fun p => EvLoad p false) (Py.sorted paths)
                ++ [EvCenterOfMass (map (map (map (gt0 E))) scan);
                    EvCropScan scan OUT_SIZE x y BG_HU;
                    EvWriteMeta (out_dir ++ "../meta.json")%string
                      (mkMeta None None x y (shape3 scan) (shape3 scan_cropped))]
                ++ saved_slices E out_dir scan_cropped.
Proof.
  unfold bind at 1.
  destruct (fallback_path E dir e log1) as [[e1 | r] log2] eqn:Hfb; [ discriminate | ].
  intros Hfin.
  unfold fallback_path in Hfb.
  unfold bind at 1 in Hfb. cbn [emit get_log set_log HasLog_Log] in Hfb.
  unfold bind at 1 in Hfb. cbn [emit get_log set_log HasLog_Log] in Hfb.
  unfold bind at 1 in Hfb. cbn [emit get_log set_log HasLog_Log] in Hfb.
  unfold bind at 1 in Hfb.
  destruct (iterdir E dir) as [msg | paths] eqn:Hdir; cbn [ext raise ret] in Hfb;
    [ discriminate | ].
  unfold bind at 1 in Hfb.
  destruct (for_each (load_slice E) (Py.sorted paths) _) as [[e2 | slices] log3] eqn:Hloop;
    [ discriminate | ].
  destruct (for_each_load_returns _ _ _ _ Hloop) as [Hload ->].
  unfold bind at 1 in Hfb.
  destruct (np_stack slices) as [e3 | scan] eqn:Hstack; cbn [lift raise ret] in Hfb;
    [ discriminate | ].
  injection Hfb as <- <-.
  destruct (np_stack_inr _ _ Hstack) as [-> _].
  destruct (finish_returns E _ _ _ _ _ _ Hfin) as [z [y [x [scan_cropped [Hcom [Hcrop ->]]]]]].
  exists paths, slices, z, y, x, scan_cropped.
  split; [ reflexivity | ]. split; [ exact Hload | ]. split; [ exact Hstack | ].
  split; [ exact Hcom | ]. split; [ exact Hcrop | ].
  repeat rewrite <- app_assoc. reflexivity.
Qed.

End DegradedRuns.

(** * The claims *)

(** ** Shear parameters *)

(** C1: for an orientation vector (x1,y1,z1,x2,y2,z2) with y2 not equal to
    zero and a volume whose bounds end in zMax, [VtkImage.__init__] returns
    an object whose shear parameters are exactly
    (atan(z2 / y2), -(zMax / 2)).  They are a function of the orientation
    and the bounds alone, and no sequence of method calls changes them. *)
Theorem shear_params_at_load {Voxel Coord : Type} (E : Collab Voxel Coord)
    (dir : string) (sp : spacing_policy) (rd : ReaderOutput) (log : Log Voxel Coord) :
  read_series E dir = inr rd ->
  (c4 (orientation_patient rd) =? 0)%float = false ->
  exists self : VtkImage Voxel,
    VtkImage_init E dir sp log = (inr self, log ++ [EvReadSeries dir]) /\
    shear_params self =
      mkShearParams
        (atan E (c5 (orientation_patient rd) / c4 (orientation_patient rd))%float)
        (- (c5 (out_bounds rd) / 2))%float /\
    forall (ms : list method) (log' : Log Voxel Coord),
      shear_params (fst (run E ms (self, log'))) = shear_params self.
Proof.
  intros Hrd Hy2. exists (constructed E rd dir sp).
  split; [ apply VtkImage_init_ok; assumption | ].
  split; [ reflexivity | ].
  intros ms log'. apply (run_same_series E ms).
Qed.

(** ** Padding for a horizontal origin *)

(** C8: when [origin_x] is set to x0, [update_image] reslices a padded
    input: the pad fills with the background value and changes the extent
    along the first (width) axis only, lowering its minimum by
    max(xSize - 2*x0, 0) and raising its maximum by max(2*x0 - xSize, 0).
    The extent never shrinks, at most one of its two ends moves, and the
    middle of the padded extent is x0 cells above the old minimum. *)
Theorem origin_padding {Voxel Coord : Type} (E : Collab Voxel Coord)
    (self : VtkImage Voxel) (x0 : Z) (log : Log Voxel Coord) :
  origin_x self = Some x0 ->
  let extent := out_extent (reader self) in
  let x_size := (c1 extent - c0 extent)%Z in
  exists padded rest,
    get_log (snd (update_image E (self, log))) =
      log ++ EvReslice (configure_reslice self) :: rest /\
    rs_pad (configure_reslice self) = Some (mkPad BG_HU padded) /\
    (c0 padded = c0 extent - Z.max (x_size - 2 * x0) 0)%Z /\
    (c1 padded = c1 extent + Z.max (2 * x0 - x_size) 0)%Z /\
    (c2 padded, c3 padded, c4 padded, c5 padded) =
      (c2 extent, c3 extent, c4 extent, c5 extent) /\
    (c0 padded <= c0 extent)%Z /\
    (c1 extent <= c1 padded)%Z /\
    (c0 padded = c0 extent \/ c1 padded = c1 extent) /\
    (c0 padded + c1 padded = 2 * (c0 extent + x0))%Z.
Proof.
  intros Hox extent x_size.
  destruct (update_image_summary E self log) as [r [self' [rest [Hup _]]]].
  exists (padded_extent extent x0), rest.
  split; [ rewrite Hup; reflexivity | ].
  split; [ unfold configure_reslice; cbn [rs_pad]; rewrite Hox; reflexivity | ].
  apply padded_extent_spec.
Qed.

(** ** The footprint of the crop *)

(** C9: for every volume, background value and centroid (x, y), near the
    edges or beyond them, the crop made with the footprint of
    [process_scan] has as many slices as the volume and 400 rows of 400
    voxels in each.  The voxel at row i and column j of a slice is the
    voxel of the input at row floor(y - 200) + i and column
    floor(x - 200) + j when the input has one there, and the background
    value otherwise. *)
Theorem crop_scan_footprint {Voxel : Type} (scan : array3 Voxel) (x y : Q) (bg : Voxel) :
  let out := DataUtils.crop_scan scan OUT_SIZE x y bg in
  has_shape3 out (length scan, 400, 400) /\
  forall d i j : nat,
    d < length scan -> i < 400 -> j < 400 ->
    let r := (Qfloor (y - 200) + Z.of_nat i)%Z in
    let c := (Qfloor (x - 200) + Z.of_nat j)%Z in
    let rows := nth d scan [] in
    let row := nth (Z.to_nat r) rows [] in
    ((0 <= r < Z.of_nat (length rows))%Z /\ (0 <= c < Z.of_nat (length row))%Z ->
       nth j (nth i (nth d out []) []) bg = nth (Z.to_nat c) row bg) /\
    (~ ((0 <= r < Z.of_nat (length rows))%Z /\ (0 <= c < Z.of_nat (length row))%Z) ->
       nth j (nth i (nth d out []) []) bg = bg).
Proof.
  cbv zeta. unfold OUT_SIZE. split; [ apply crop_scan_shape | ].
  intros d i j Hd Hi Hj.
  rewrite (crop_scan_nth scan 400 400 x y bg d i j Hd Hi Hj).
  assert (Hstart : forall c : Q, DataUtils.window_start c 400 = Qfloor (c - 200)).
  { intros c. unfold DataUtils.window_start. apply Qfloor_comp.
    apply Qplus_comp; [ reflexivity | ]. apply Qopp_comp. reflexivity. }
  rewrite !Hstart.
  set (r := (Qfloor (y - 200) + Z.of_nat i)%Z).
  set (c := (Qfloor (x - 200) + Z.of_nat j)%Z).
  split.
  - intros [Hr Hc]. rewrite (pick_inside (nth d scan []) r [] Hr).
    apply pick_inside. exact Hc.
  - intros Hout.
    destruct (Z_lt_dec r 0) as [Hneg | Hnonneg];
      [ rewrite (pick_outside (nth d scan []) r []) by (left; exact Hneg);
        apply pick_outside; cbn; lia | ].
    destruct (Z_le_dec (Z.of_nat (length (nth d scan []))) r) as [Hbig | Hsmall];
      [ rewrite (pick_outside (nth d scan []) r []) by (right; exact Hbig);
        apply pick_outside; cbn; lia | ].
    rewrite (pick_inside (nth d scan []) r []) by lia.
    apply pick_outside. lia.
Qed.

(** ** Minimum depth *)

(** C5: once the image is there (cached, or stored by a successful
    [update_image]) and its scalars fill its dimensions (rows, cols,
    depth), [get_slices] raises [ShortVolumeError] if and only if depth is
    less than 5; for a depth of 5 or more it returns an array of shape
    (depth, cols, rows), the spacing of the image and the shear
    parameters. *)
Theorem get_slices_depth_check {Voxel Coord : Type} (E : Collab Voxel Coord)
    (dt : option dtype) (st st' : Obj Voxel Coord) (img : ImageData Voxel)
    (rows cols depth : nat) :
  image_ready E st st' img ->
  dimensions img = (rows, cols, depth) ->
  length (scalars img) = depth * cols * rows ->
  (fst (get_slices E dt st) = inl ShortVolumeError <-> depth < 5) /\
  (depth < 5 -> get_slices E dt st = (inl ShortVolumeError, st')) /\
  (5 <= depth ->
     exists array,
       get_slices E dt st = (inr (array, img_spacing img, shear_params (fst st')), st') /\
       has_shape3 array (depth, cols, rows)).
Proof.
  intros Hready Hdim Hlen.
  assert (Hrun : get_slices E dt st = (extract E dt (fst st') img, st')).
  { destruct Hready as [self log img Himg | self self' log log' img Himg Hup Himg'].
    - apply get_slices_cached. exact Himg.
    - apply (get_slices_updated E dt self self' log log' img); assumption. }
  destruct (extract_depth E dt (fst st') img rows cols depth Hdim Hlen)
    as [array [Hshape Hextract]].
  rewrite Hrun, Hextract. cbn [fst].
  destruct (Nat.ltb_spec depth 5) as [Hshort | Hlong].
  - split; [ split; [ intros _; exact Hshort | reflexivity ] | ].
    split; [ reflexivity | intros Habs; lia ].
  - split; [ split; [ discriminate | intros Habs; lia ] | ].
    split; [ intros Habs; lia | ].
    intros _. exists array. split; [ reflexivity | exact Hshape ].
Qed.

(** ** Automatic spacing *)


(** ** The cached image *)

(** C7, as far as the code goes: [set_transform] and [set_spacing] empty
    the cache and compute nothing; [get_slices] leaves the object and the
    log alone when the cache is filled and runs the pipeline once when it
    is empty.  After any sequence of calls, two consecutive calls of
    [get_slices] run the pipeline at most once if the first of them leaves
    the cache filled; if [update_image] raised in the first call the cache
    is still empty and the second call runs the pipeline again. *)
Theorem lazy_recomputation {Voxel Coord : Type} (E : Collab Voxel Coord) :
  (forall az ay ox (self : VtkImage Voxel) (log : Log Voxel Coord),
     exists self',
       set_transform az ay ox (self, log) = (inr tt, (self', log)) /\
       image self' = None) /\
  (forall sp (self : VtkImage Voxel) (log : Log Voxel Coord),
     exists self',
       set_spacing sp (self, log) = (inr tt, (self', log)) /\ image self' = None) /\
  (forall dt (self : VtkImage Voxel) (log : Log Voxel Coord),
     image self <> None ->
     snd (get_slices E dt (self, log)) = (self, log)) /\
  (forall dt (self : VtkImage Voxel) (log : Log Voxel Coord),
     image self = None ->
     recomputations (snd (snd (get_slices E dt (self, log)))) = S (recomputations log)) /\
  (forall (ms : list method) (st0 : Obj Voxel Coord) dt1 dt2,
     let st := run E ms st0 in
     let st1 := snd (get_slices E dt1 st) in
     let st2 := snd (get_slices E dt2 st1) in
     (image (fst st1) <> None ->
        recomputations (snd st2) <= S (recomputations (snd st))) /\
     (image (fst st1) = None ->
        (exists e, fst (get_slices E dt1 st) = inl e) /\
        recomputations (snd st2) = S (S (recomputations (snd st))))).
Proof.
  split; [ intros az ay ox self log; eexists; split; reflexivity | ].
  split; [ intros sp self log; eexists; split; reflexivity | ].
  split.
  { intros dt self log Himg. rewrite get_slices_state.
    destruct (image self); [ reflexivity | contradiction ]. }
  assert (Hempty : forall dt (self : VtkImage Voxel) (log : Log Voxel Coord),
             image self = None ->
             recomputations (snd (snd (get_slices E dt (self, log)))) =
             S (recomputations log)).
  { intros dt self log Himg. rewrite get_slices_state, Himg.
    apply update_image_recomputes. }
  split; [ exact Hempty | ].
  intros ms st0 dt1 dt2 st st1 st2.
  destruct st as [self log] eqn:Hst.
  assert (Hfirst : recomputations (snd st1) <= S (recomputations log)).
  { unfold st1. rewrite get_slices_state.
    destruct (image self) eqn:Himg; cbn [snd]; [ lia | ].
    rewrite update_image_recomputes. lia. }
  destruct st1 as [self1 log1] eqn:Hst1. cbn [fst snd] in *.
  split.
  - intros Hfilled. unfold st2. rewrite get_slices_state.
    destruct (image self1); [ exact Hfirst | contradiction ].
  - intros Hstill.
    assert (Hwas : image self = None).
    { destruct (image self) as [img | ] eqn:Himg; [ | reflexivity ].
      unfold st1 in Hst1. rewrite get_slices_state, Himg in Hst1.
      injection Hst1 as <- <-. congruence. }
    destruct (update_image_summary E self log)
      as [r [self' [rest [Hup [_ [[e [-> ->]] | [img [-> ->]]]]]]]].
    + split.
      * exists e. apply f_equal with (f := fst) in Hup.
        rewrite (get_slices_update_raises E dt1 _ _ _ _ Hwas
                   (eq_trans (surjective_pairing _) (f_equal2 pair Hup eq_refl))).
        reflexivity.
      * unfold st2. rewrite (Hempty dt2 self1 log1 Hstill).
        f_equal. change log1 with (snd (self1, log1)). rewrite <- Hst1.
        apply (Hempty dt1 self log Hwas).
    + exfalso. unfold st1 in Hst1. rewrite get_slices_state, Hwas, Hup in Hst1.
      cbn in Hst1. injection Hst1 as <- <-. discriminate.
Qed.

(** C7 as stated fails: the smallest spacing of this series is zero, so
    with the policy ['auto'] every [update_image] raises after the reslice
    and stores nothing; two consecutive calls of [get_slices], with no
    setter in between, run the pipeline twice. *)
Lemma failed_update_recomputes_twice :
  get_slices Demo.world (Some Float32) (Demo.fresh "ct/flat/dicom/" Auto, []) =
    (inl (InvalidSpacingError "ct/flat/dicom/"),
     (Demo.fresh "ct/flat/dicom/" Auto,
      [EvReslice (configure_reslice (Demo.fresh "ct/flat/dicom/" Auto))])) /\
  recomputations
    (snd (run Demo.world [GetSlices (Some Float32); GetSlices (Some Float32)]
              (Demo.fresh "ct/flat/dicom/" Auto, []))) = 2.
Proof. split; reflexivity. Qed.

(** ** Errors of the primary path and of the rest *)


(** ** A zero second in-plane component *)

(** C3: when y2, the fifth component of the orientation, equals zero,
    [VtkImage.__init__] raises [OrientationError] right after the reader,
    before any reslice is configured or run.  [process_scan] catches it and
    runs the [except] block: after the reader's event the log continues
    with the printed exception, the printed directory and the listing of
    the directory, and then only with events of a degraded run.  When the
    directory lists, its files load and stack, and the centroid, the crop
    and the writes succeed, the run returns having written the metadata
    with [null] spacing and [null] orientation; and every run that returns
    is of that kind. *)
Theorem zero_orientation_falls_back {Voxel Coord : Type} (E : Collab Voxel Coord)
    (dir : string) (rd : ReaderOutput) (log : Log Voxel Coord) :
  read_series E dir = inr rd ->
  (c4 (orientation_patient rd) =? 0)%float = true ->
  let e := OrientationError (orientation_patient rd) in
  let out_dir := Py.replace "dicom/" "3d/" dir in
  let meta_path := (out_dir ++ "../meta.json")%string in
  let log1 := prepared dir log ++ [EvReadSeries dir] in
  (forall sp (log0 : Log Voxel Coord),
     VtkImage_init E dir sp log0 = (inl e, log0 ++ [EvReadSeries dir])) /\
  (makedirs E out_dir = None ->
   process_scan E dir log = bind (fallback_path E dir e) (finish E out_dir) log1 /\
   (exists rest,
      snd (process_scan E dir log) =
        log1 ++ [EvPrintExc e; EvPrint dir; EvIterdir dir] ++ rest /\
      Forall (degraded_event E dir) rest) /\
   (forall paths scan z y x scan_cropped,
      let mask := map (map (map (gt0 E))) scan in
      let meta := mkMeta None None x y (shape3 scan) (shape3 scan_cropped) in
      iterdir E dir = inr paths ->
      Forall2 (fun p s => load E p false = inr s) (Py.sorted paths) scan ->
      np_stack scan = inr scan ->
      center_of_mass E mask = inr (z, y, x) ->
      crop_scan E scan OUT_SIZE x y BG_HU = inr scan_cropped ->
      write_meta E meta_path meta = None ->
      (forall idx sl, In (idx, sl) (Py.enumerate scan_cropped) ->
         save_npy E (out_dir ++ Py.format_03d idx ++ ".npy")%string
                  (map (map (astype E Int16)) sl) = None) ->
      process_scan E dir log =
        (inr tt,
         log1 ++ [EvPrintExc e; EvPrint dir; EvIterdir dir]
              ++ map (fun p => EvLoad p false) (Py.sorted paths)
              ++ [EvCenterOfMass mask; EvCropScan scan OUT_SIZE x y BG_HU;
                  EvWriteMeta meta_path meta]
              ++ saved_slices E out_dir scan_cropped)) /\
   (fst (process_scan E dir log) = inr tt ->
    exists paths (scan : array3 Voxel) (z y x : Coord) scan_cropped,
      iterdir E dir = inr paths /\
      Forall2 (fun p s => load E p false = inr s) (Py.sorted paths) scan /\
      center_of_mass E (map (map (map (gt0 E))) scan) = inr (z, y, x) /\
      crop_scan E scan OUT_SIZE x y BG_HU = inr scan_cropped /\
      snd (process_scan E dir log) =
        log1 ++ [EvPrintExc e; EvPrint dir; EvIterdir dir]
             ++ map (fun p => EvLoad p false) (Py.sorted paths)
             ++ [EvCenterOfMass (map (map (map (gt0 E))) scan);
                 EvCropScan scan OUT_SIZE x y BG_HU;
                 EvWriteMeta meta_path
                   (mkMeta None None x y (shape3 scan) (shape3 scan_cropped))]
             ++ saved_slices E out_dir scan_cropped)).
Proof.
  intros Hrd Hy2 e out_dir meta_path log1.
  split; [ intros sp log0; apply VtkImage_init_zero; assumption | ].
  intros Hmk.
  assert (Hprim : primary_path E dir (prepared dir log) = (inl e, log1)).
  { rewrite primary_path_run, Hrd, Hy2. reflexivity. }
  pose proof (process_scan_primary_raises E dir log _ e Hmk Hprim) as Hrun.
  fold out_dir in Hrun. split; [ exact Hrun | ].
  rewrite Hrun. split; [ apply degraded_run_head | ].
  split.
  - intros paths scan z y x scan_cropped mask meta
           Hdir Hload Hstack Hcom Hcrop Hmeta Hsave.
    exact (degraded_run_ok E dir out_dir e log1 paths scan z y x scan_cropped
             Hdir Hload Hstack Hcom Hcrop Hmeta Hsave).
  - intros Hok.
    destruct (bind (fallback_path E dir e) (finish E out_dir) log1)
      as [res log'] eqn:Hbind.
    cbn [fst snd] in Hok |- *. subst res.
    destruct (degraded_run_returns E dir out_dir e log1 log' Hbind)
      as [paths [scan [z [y [x [scan_cropped [Hdir [Hload [_ [Hcom [Hcrop Hlog]]]]]]]]]]].
    exists paths, scan, z, y, x, scan_cropped.
    split; [ exact Hdir | ]. split; [ exact Hload | ].
    split; [ exact Hcom | ]. split; [ exact Hcrop | exact Hlog ].
Qed.

(** ** The fallback volume *)

(** C6: whenever the [try] block raises, the [except] block runs: the log
    continues with the printed exception, the printed directory and the
    listing, and then only with events of a degraded run: no VTK call,
    every load made with [convert_hu=False], every crop applied to a stack
    of the slices loaded for the sorted entries of the directory, every
    metadata record with [null] spacing and [null] orientation.  When the
    directory lists and its files load and stack, the [try] statement
    yields exactly that stack with [None] for spacing and orientation,
    having loaded the files in sorted order, which is a sorted permutation
    of the listing; that stack is the volume whose mask goes to the
    centroid and which is handed to [crop_scan]; and when the crop and the
    writes succeed the run returns having written the metadata with [null]
    spacing and [null] orientation and the shape of the stack.  Every run
    that returns is of that kind. *)
Theorem fallback_volume {Voxel Coord : Type} (E : Collab Voxel Coord)
    (dir : string) (log log1 : Log Voxel Coord) (e : exn) :
  let out_dir := Py.replace "dicom/" "3d/" dir in
  let meta_path := (out_dir ++ "../meta.json")%string in
  makedirs E out_dir = None ->
  primary_path E dir (prepared dir log) = (inl e, log1) ->
  (exists rest,
     snd (process_scan E dir log) =
       log1 ++ [EvPrintExc e; EvPrint dir; EvIterdir dir] ++ rest /\
     Forall (degraded_event E dir) rest) /\
  (forall paths scan,
     iterdir E dir = inr paths ->
     Forall2 (fun p s => load E p false = inr s) (Py.sorted paths) scan ->
     np_stack scan = inr scan ->
     reconstruct E dir (prepared dir log) =
       (inr (scan, None, None),
        log1 ++ [EvPrintExc e; EvPrint dir; EvIterdir dir]
             ++ map (fun p => EvLoad p false) (Py.sorted paths)) /\
     Sorted (fun a b => String.leb a b = true) (Py.sorted paths) /\
     Permutation paths (Py.sorted paths) /\
     forall z y x scan_cropped,
       let mask := map (map (map (gt0 E))) scan in
       let meta := mkMeta None None x y (shape3 scan) (shape3 scan_cropped) in
       center_of_mass E mask = inr (z, y, x) ->
       crop_scan E scan OUT_SIZE x y BG_HU = inr scan_cropped ->
       write_meta E meta_path meta = None ->
       (forall idx sl, In (idx, sl) (Py.enumerate scan_cropped) ->
          save_npy E (out_dir ++ Py.format_03d idx ++ ".npy")%string
                   (map (map (astype E Int16)) sl) = None) ->
       process_scan E dir log =
         (inr tt,
          log1 ++ [EvPrintExc e; EvPrint dir; EvIterdir dir]
               ++ map (fun p => EvLoad p false) (Py.sorted paths)
               ++ [EvCenterOfMass mask; EvCropScan scan OUT_SIZE x y BG_HU;
                   EvWriteMeta meta_path meta]
               ++ saved_slices E out_dir scan_cropped)) /\
  (forall log',
     process_scan E dir log = (inr tt, log') ->
     exists paths (scan : array3 Voxel) (z y x : Coord) scan_cropped,
       iterdir E dir = inr paths /\
       Forall2 (fun p s => load E p false = inr s) (Py.sorted paths) scan /\
       center_of_mass E (map (map (map (gt0 E))) scan) = inr (z, y, x) /\
       crop_scan E scan OUT_SIZE x y BG_HU = inr scan_cropped /\
       log' =
         log1 ++ [EvPrintExc e; EvPrint dir; EvIterdir dir]
              ++ map (fun p => EvLoad p false) (Py.sorted paths)
              ++ [EvCenterOfMass (map (map (map (gt0 E))) scan);
                  EvCropScan scan OUT_SIZE x y BG_HU;
                  EvWriteMeta meta_path
                    (mkMeta None None x y (shape3 scan) (shape3 scan_cropped))]
              ++ saved_slices E out_dir scan_cropped).
Proof.
  intros out_dir meta_path Hmk Hprim.
  pose proof (process_scan_primary_raises E dir log log1 e Hmk Hprim) as Hrun.
  fold out_dir in Hrun. rewrite Hrun.
  split; [ apply degraded_run_head | ].
  split.
  - intros paths scan Hdir Hload Hstack.
    split.
    { unfold reconstruct. rewrite (try_except_inl _ _ _ _ _ Hprim).
      apply fallback_path_ok; assumption. }
    split; [ apply sorted_sorted | ].
    split; [ apply sorted_perm | ].
    intros z y x scan_cropped mask meta Hcom Hcrop Hmeta Hsave.
    exact (degraded_run_ok E dir out_dir e log1 paths scan z y x scan_cropped
             Hdir Hload Hstack Hcom Hcrop Hmeta Hsave).
  - intros log' Hbind.
    destruct (degraded_run_returns E dir out_dir e log1 log' Hbind)
      as [paths [scan [z [y [x [scan_cropped [Hdir [Hload [_ [Hcom [Hcrop Hlog]]]]]]]]]]].
    exists paths, scan, z, y, x, scan_cropped.
    split; [ exact Hdir | ]. split; [ exact Hload | ].
    split; [ exact Hcom | ]. split; [ exact Hcrop | exact Hlog ].
Qed.

(** ** No minimum depth on the fallback path *)

(** C10: when the [try] block raises, no check of the number of slices
    follows: the run cannot end with [ShortVolumeError] (nor with any other
    exception of the module's own), and whenever the directory lists, its
    files load and stack, and the centroid, the crop and the writes
    succeed, [process_scan] returns having logged the centroid, the crop,
    the metadata with the shape of the stack, and one artifact per cropped
    slice, for a stack of any depth, a single slice included. *)
Theorem fallback_has_no_depth_check {Voxel Coord : Type} (E : Collab Voxel Coord)
    (dir : string) (log log1 : Log Voxel Coord) (e : exn) :
  let out_dir := Py.replace "dicom/" "3d/" dir in
  makedirs E out_dir = None ->
  primary_path E dir (prepared dir log) = (inl e, log1) ->
  match fst (process_scan E dir log) with
  | inl e' => foreign e' /\ e' <> ShortVolumeError
  | inr _ => True
  end /\
  (forall paths scan z y x scan_cropped,
     let mask := map (map (map (gt0 E))) scan in
     let meta := mkMeta None None x y (shape3 scan) (shape3 scan_cropped) in
     let meta_path := (out_dir ++ "../meta.json")%string in
     iterdir E dir = inr paths ->
     Forall2 (fun p s => load E p false = inr s) (Py.sorted paths) scan ->
     np_stack scan = inr scan ->
     center_of_mass E mask = inr (z, y, x) ->
     crop_scan E scan OUT_SIZE x y BG_HU = inr scan_cropped ->
     write_meta E meta_path meta = None ->
     (forall idx sl, In (idx, sl) (Py.enumerate scan_cropped) ->
        save_npy E (out_dir ++ Py.format_03d idx ++ ".npy")%string
                 (map (map (astype E Int16)) sl) = None) ->
     length scan = length paths /\
     process_scan E dir log =
       (inr tt,
        log1 ++ [EvPrintExc e; EvPrint dir; EvIterdir dir]
             ++ map (fun p => EvLoad p false) (Py.sorted paths)
             ++ [EvCenterOfMass mask; EvCropScan scan OUT_SIZE x y BG_HU;
                 EvWriteMeta meta_path meta]
             ++ saved_slices E out_dir scan_cropped)).
Proof.
  intros out_dir Hmk Hprim.
  pose proof (process_scan_primary_raises E dir log log1 e Hmk Hprim) as Hrun.
  fold out_dir in Hrun. rewrite Hrun. split.
  - destruct (degraded_run_added E dir out_dir e log1) as [added [_ [_ Hres]]].
    destruct (fst _) as [e' | ]; [ | exact I ].
    split; [ exact Hres | ]. intros ->. exact Hres.
  - intros paths scan z y x scan_cropped mask meta meta_path
           Hdir Hload Hstack Hcom Hcrop Hmeta Hsave.
    split.
    + transitivity (length (Py.sorted paths)).
      * symmetry. exact (Forall2_length Hload).
      * symmetry. apply Permutation_length. apply sorted_perm.
    + rewrite (bind_inr _ _ _ _ _ (fallback_path_ok E dir e paths scan log1 Hdir Hload Hstack)).
      rewrite (finish_ok E out_dir scan None None z y x scan_cropped _
                 Hcom Hcrop Hmeta Hsave).
      repeat rewrite <- app_assoc. reflexivity.
Qed.

(** * Instances in the concrete world *)

(** C1 at the series in standard orientation: y2 = 1, z2 = 0 and
    zMax = 10 give the shear parameters (0, -5). *)
Lemma shear_params_at_load_witness :
  read_series Demo.world "ct/good/dicom/" = inr Demo.standard_series /\
  exists self : VtkImage Z,
    VtkImage_init Demo.world "ct/good/dicom/" Auto [] =
      (inr self, [EvReadSeries "ct/good/dicom/"]) /\
    shear_params self = mkShearParams 0 (-5) /\
    forall (ms : list method) (log' : Log Z (option Q)),
      shear_params (fst (run Demo.world ms (self, log'))) = shear_params self.
Proof.
  split; [ reflexivity | ].
  exact (shear_params_at_load Demo.world "ct/good/dicom/" Auto Demo.standard_series []
           eq_refl eq_refl).
Defined.

(** C8 at an extent of columns 0 to 511 and the origin 200: the low side
    is extended by 111 columns, so that column 200 is the middle of
    -111 .. 511. *)
Lemma origin_padding_witness :
  origin_x Demo.recentred = Some 200%Z /\
  exists padded rest,
    get_log (snd (update_image Demo.world (Demo.recentred, []))) =
      EvReslice (configure_reslice Demo.recentred) :: rest /\
    rs_pad (configure_reslice Demo.recentred) = Some (mkPad BG_HU padded) /\
    c0 padded = (-111)%Z /\
    c1 padded = 511%Z.
Proof.
  split; [ reflexivity | ].
  destruct (origin_padding Demo.world Demo.recentred 200 [] eq_refl)
    as [padded [rest [Hlog [Hpad [Hlow [Hhigh _]]]]]].
  exists padded, rest.
  split; [ exact Hlog | ]. split; [ exact Hpad | ]. split; [ exact Hlow | exact Hhigh ].
Defined.

(** C9 on two slices of 3 x 4 voxels with the centroid (2, 3/2): the
    output has 2 slices of 400 x 400; row 199 and column 198 of the window
    are row 0 and column 0 of the input; the corner of the window is
    background. *)
Lemma crop_scan_footprint_witness :
  has_shape3
    (DataUtils.crop_scan [Demo.small_slice; Demo.small_slice] OUT_SIZE 2 (Qmake 3 2) BG_HU)
    (2, 400, 400) /\
  nth 198 (nth 199 (nth 0
    (DataUtils.crop_scan [Demo.small_slice; Demo.small_slice] OUT_SIZE 2 (Qmake 3 2) BG_HU)
    []) []) BG_HU = 1%Z /\
  nth 0 (nth 0 (nth 0
    (DataUtils.crop_scan [Demo.small_slice; Demo.small_slice] OUT_SIZE 2 (Qmake 3 2) BG_HU)
    []) []) BG_HU = BG_HU.
Proof.
  destruct (crop_scan_footprint [Demo.small_slice; Demo.small_slice] 2 (Qmake 3 2) BG_HU)
    as [Hshape Hvoxel].
  split; [ exact Hshape | ]. split.
  - apply (proj1 (Hvoxel 0 199 198 ltac:(cbn; lia) ltac:(lia) ltac:(lia))).
    cbn. lia.
  - apply (proj2 (Hvoxel 0 0 0 ltac:(cbn; lia) ltac:(lia) ltac:(lia))).
    cbn. lia.
Defined.

(** C5 on a resliced image of depth 4 and on one of depth 6. *)
Lemma get_slices_depth_check_witness :
  get_slices Demo.world (Some Float32) (Demo.fresh "ct/short/dicom/" NoResample, []) =
    (inl ShortVolumeError,
     (Demo.cached "ct/short/dicom/" NoResample (Demo.volume 4 (0.5, 0.5, 1)%float),
      [EvReslice (configure_reslice (Demo.fresh "ct/short/dicom/" NoResample))])) /\
  exists array,
    get_slices Demo.world (Some Float32)
      (Demo.cached "ct/good/dicom/" NoResample (Demo.volume 6 (0.5, 0.75, 1)%float), []) =
      (inr (array, (0.5, 0.75, 1)%float, mkShearParams 0 (-5)),
       (Demo.cached "ct/good/dicom/" NoResample (Demo.volume 6 (0.5, 0.75, 1)%float), [])) /\
    has_shape3 array (6, 2, 2).
Proof.
  split.
  - refine (proj1 (proj2 (get_slices_depth_check Demo.world (Some Float32)
                            (Demo.fresh "ct/short/dicom/" NoResample, [])
                            (Demo.cached "ct/short/dicom/" NoResample
                               (Demo.volume 4 (0.5, 0.5, 1)%float),
                             [EvReslice (configure_reslice
                                           (Demo.fresh "ct/short/dicom/" NoResample))])
                            (Demo.volume 4 (0.5, 0.5, 1)%float) 2 2 4 _ eq_refl eq_refl)) _);
      [ apply ready_updated; reflexivity | lia ].
  - refine (proj2 (proj2 (get_slices_depth_check Demo.world (Some Float32)
                            (Demo.cached "ct/good/dicom/" NoResample
                               (Demo.volume 6 (0.5, 0.75, 1)%float), [])
                            (Demo.cached "ct/good/dicom/" NoResample
                               (Demo.volume 6 (0.5, 0.75, 1)%float), [])
                            (Demo.volume 6 (0.5, 0.75, 1)%float) 2 2 6 _ eq_refl eq_refl)) _);
      [ apply ready_cached; reflexivity | lia ].
Defined.


(** C7, as amended: after a setter, two calls of [get_slices] on the good
    series run the pipeline once. *)
Lemma lazy_recomputation_witness :
  recomputations
    (snd (run Demo.world
            [SetSpacing NoResample; GetSlices (Some Float32); GetSlices (Some Float32)]
            (Demo.cached "ct/good/dicom/" Auto (Demo.volume 6 (0.5, 0.5, 0.5)%float), [])))
  <= 1.
Proof.
  destruct (lazy_recomputation Demo.world) as [_ [_ [_ [_ Hpair]]]].
  refine (proj1 (Hpair [SetSpacing NoResample]
                   (Demo.cached "ct/good/dicom/" Auto
                      (Demo.volume 6 (0.5, 0.5, 0.5)%float), [])
                   (Some Float32) (Some Float32)) _).
  discriminate.
Defined.


(** C3 on the series whose orientation is (1, 0, 0, 0, 0, 1): the
    constructor raises, the three files are loaded, and the metadata is
    written with [null] spacing and orientation. *)
Lemma zero_orientation_falls_back_witness :
  (c4 Demo.sideways =? 0)%float = true /\
  VtkImage_init Demo.world "ct/sideways/dicom/" NoResample [] =
    (inl (OrientationError Demo.sideways), [EvReadSeries "ct/sideways/dicom/"]) /\
  process_scan Demo.world "ct/sideways/dicom/" [] =
    (inr tt,
     [EvRmtree "ct/sideways/3d/"; EvMakedirs "ct/sideways/3d/";
      EvReadSeries "ct/sideways/dicom/";
      EvPrintExc (OrientationError Demo.sideways);
      EvPrint "ct/sideways/dicom/"; EvIterdir "ct/sideways/dicom/";
      EvLoad "ct/sideways/dicom/1.dcm" false;
      EvLoad "ct/sideways/dicom/2.dcm" false;
      EvLoad "ct/sideways/dicom/3.dcm" false;
      EvCenterOfMass [[[true; false]; [true; true]];
                      [[true; false]; [true; true]];
                      [[true; false]; [true; true]]];
      EvCropScan Demo.sideways_scan OUT_SIZE (Some (Qmake 3 9)) (Some (Qmake 6 9)) BG_HU;
      EvWriteMeta "ct/sideways/3d/../meta.json"
        (mkMeta None None (Some (Qmake 3 9)) (Some (Qmake 6 9)) (3, 2, 2) (3, 400, 400))]
     ++ saved_slices Demo.world "ct/sideways/3d/" Demo.sideways_cropped).
Proof.
  split; [ reflexivity | ].
  destruct (zero_orientation_falls_back Demo.world "ct/sideways/dicom/"
              (mkReader Demo.sideways (Six 0 2 0 2 0 10)%float (Six 0 1 0 1 0 5)%Z) []
              eq_refl eq_refl) as [Hinit Hrun].
  split; [ exact (Hinit NoResample []) | ].
  destruct (Hrun eq_refl) as [_ [_ [Hok _]]].
  refine (Hok ["ct/sideways/dicom/2.dcm"; "ct/sideways/dicom/3.dcm";
               "ct/sideways/dicom/1.dcm"]
              Demo.sideways_scan (Some (Qmake 9 9)) (Some (Qmake 6 9)) (Some (Qmake 3 9))
              Demo.sideways_cropped eq_refl _ eq_refl eq_refl eq_refl eq_refl _).
  - repeat constructor.
  - intros idx sl _. reflexivity.
Defined.

(** C6 on a series that the reader cannot read: the three files are loaded
    in sorted order and stacked, the stack is handed to the cropper, and
    the metadata is written with [null] spacing and orientation. *)
Lemma fallback_volume_witness :
  reconstruct Demo.world "ct/unreadable/dicom/" (prepared "ct/unreadable/dicom/" []) =
    (inr (Demo.unreadable_scan, None, None),
     [EvRmtree "ct/unreadable/3d/"; EvMakedirs "ct/unreadable/3d/";
      EvReadSeries "ct/unreadable/dicom/";
      EvPrintExc (ExternalError "cannot read the series");
      EvPrint "ct/unreadable/dicom/"; EvIterdir "ct/unreadable/dicom/";
      EvLoad "ct/unreadable/dicom/1.dcm" false;
      EvLoad "ct/unreadable/dicom/2.dcm" false;
      EvLoad "ct/unreadable/dicom/3.dcm" false]) /\
  process_scan Demo.world "ct/unreadable/dicom/" [] =
    (inr tt,
     [EvRmtree "ct/unreadable/3d/"; EvMakedirs "ct/unreadable/3d/";
      EvReadSeries "ct/unreadable/dicom/";
      EvPrintExc (ExternalError "cannot read the series");
      EvPrint "ct/unreadable/dicom/"; EvIterdir "ct/unreadable/dicom/";
      EvLoad "ct/unreadable/dicom/1.dcm" false;
      EvLoad "ct/unreadable/dicom/2.dcm" false;
      EvLoad "ct/unreadable/dicom/3.dcm" false;
      EvCenterOfMass [[[true; false]; [true; true]];
                      [[true; false]; [true; true]];
                      [[true; false]; [true; true]]];
      EvCropScan Demo.unreadable_scan OUT_SIZE (Some (Qmake 3 9)) (Some (Qmake 6 9)) BG_HU;
      EvWriteMeta "ct/unreadable/3d/../meta.json"
        (mkMeta None None (Some (Qmake 3 9)) (Some (Qmake 6 9)) (3, 2, 2) (3, 400, 400))]
     ++ saved_slices Demo.world "ct/unreadable/3d/" Demo.unreadable_cropped).
Proof.
  destruct (fallback_volume Demo.world "ct/unreadable/dicom/" []
              [EvRmtree "ct/unreadable/3d/"; EvMakedirs "ct/unreadable/3d/";
               EvReadSeries "ct/unreadable/dicom/"]
              (ExternalError "cannot read the series") eq_refl eq_refl)
    as [_ [Hstack _]].
  destruct (Hstack ["ct/unreadable/dicom/2.dcm"; "ct/unreadable/dicom/3.dcm";
                    "ct/unreadable/dicom/1.dcm"]
                   Demo.unreadable_scan eq_refl) as [Hrec [_ [_ Hrun]]];
    [ repeat constructor | reflexivity | ].
  split; [ exact Hrec | ].
  refine (Hrun (Some (Qmake 9 9)) (Some (Qmake 6 9)) (Some (Qmake 3 9))
               Demo.unreadable_cropped eq_refl eq_refl eq_refl _).
  intros idx sl _. reflexivity.
Defined.

(** C10 on a directory with a single file: the stack has one slice, and
    the run returns with the centroid, the crop, the metadata and the one
    slice logged. *)
Lemma fallback_has_no_depth_check_witness :
  length Demo.single_scan = 1 /\
  process_scan Demo.world "ct/single/dicom/" [] =
    (inr tt,
     [EvRmtree "ct/single/3d/"; EvMakedirs "ct/single/3d/";
      EvReadSeries "ct/single/dicom/";
      EvPrintExc (ExternalError "cannot read the series");
      EvPrint "ct/single/dicom/"; EvIterdir "ct/single/dicom/";
      EvLoad "ct/single/dicom/only.dcm" false;
      EvCenterOfMass [[[true; false]; [true; true]]];
      EvCropScan Demo.single_scan OUT_SIZE (Some (Qmake 1 3)) (Some (Qmake 2 3)) BG_HU;
      EvWriteMeta "ct/single/3d/../meta.json"
        (mkMeta None None (Some (Qmake 1 3)) (Some (Qmake 2 3)) (1, 2, 2) (1, 400, 400))]
     ++ saved_slices Demo.world "ct/single/3d/" Demo.single_cropped).
Proof.
  split; [ reflexivity | ].
  destruct (fallback_has_no_depth_check Demo.world "ct/single/dicom/" []
              [EvRmtree "ct/single/3d/"; EvMakedirs "ct/single/3d/";
               EvReadSeries "ct/single/dicom/"]
              (ExternalError "cannot read the series") eq_refl eq_refl) as [_ Hok].
  refine (proj2 (Hok ["ct/single/dicom/only.dcm"] Demo.single_scan
                     (Some (Qmake 0 3)) (Some (Qmake 2 3)) (Some (Qmake 1 3))
                     Demo.single_cropped eq_refl _ eq_refl eq_refl eq_refl eq_refl _)).
  - repeat constructor.
  - intros idx sl _. reflexivity.
Defined.

(** * Further properties of the code *)

(** ** test.py *)

Lemma square_zero_iff (x : Z) : ((x * x =? 0) = (x =? 0))%Z.
Proof.
  destruct (Z.eqb_spec x 0) as [-> | Hx]; [ reflexivity | ].
  apply Z.eqb_neq. nia.
Qed.

Lemma square_mod_2 (x : Z) : ((x * x) mod 2 = x mod 2)%Z.
Proof.
  rewrite Z.mul_mod by lia.
  pose proof (Z.mod_pos_bound x 2 ltac:(lia)) as Hb.
  assert (Hcases : (x mod 2 = 0 \/ x mod 2 = 1)%Z) by lia.
  destruct Hcases as [-> | ->]; reflexivity.
Qed.

(** X1: [basic_func] sorts every integer into exactly one of three
    classes: ['zero'] for 0 alone, ['even'] for the other multiples of 2,
    ['odd'] for the rest, negative odd numbers included. *)
Theorem basic_func_classes (x : Z) :
  (TestPy.basic_func x = "zero" <-> x = 0%Z) /\
  (TestPy.basic_func x = "even" <-> x <> 0%Z /\ exists k : Z, x = (2 * k)%Z) /\
  (TestPy.basic_func x = "odd" <-> exists k : Z, x = (2 * k + 1)%Z).
Proof.
  unfold TestPy.basic_func.
  pose proof (Z.mod_pos_bound x 2 ltac:(lia)) as Hb.
  pose proof (Z.div_mod x 2 ltac:(lia)) as Hdm.
  destruct (Z.eqb_spec x 0) as [Hx | Hx];
    [ | destruct (Z.eqb_spec (x mod 2) 0) as [Hm | Hm] ].
  - split; [ split; [ intros _; exact Hx | reflexivity ] | ].
    split; (split; [ discriminate | ]).
    + intros [Hne _]. contradiction.
    + intros [k Hk]. lia.
  - split; [ split; [ discriminate | intros Habs; contradiction ] | ].
    split.
    + split; [ intros _ | reflexivity ].
      split; [ exact Hx | exists (x / 2)%Z; lia ].
    + split; [ discriminate | intros [k Hk]; lia ].
  - split; [ split; [ discriminate | intros Habs; contradiction ] | ].
    split.
    + split; [ discriminate | intros [_ [k Hk]]; lia ].
    + split; [ intros _; exists (x / 2)%Z; lia | reflexivity ].
Qed.

(** X2: the square of an integer has the class of the integer, so the
    line that [multiprocessing_func(x)] prints after its two seconds of
    sleep names the class of [x] itself. *)
Theorem square_keeps_class (x : Z) :
  TestPy.basic_func (x * x) = TestPy.basic_func x /\
  TestPy.multiprocessing_func x =
    [TestPy.Sleep 2;
     TestPy.Print (TestPy.str x ++ " squared results in a/an "
                   ++ TestPy.basic_func x ++ " number")%string].
Proof.
  assert (Hclass : TestPy.basic_func (x * x) = TestPy.basic_func x).
  { unfold TestPy.basic_func. rewrite square_zero_iff, square_mod_2. reflexivity. }
  split; [ exact Hclass | ].
  unfold TestPy.multiprocessing_func. cbv zeta. rewrite Hclass. reflexivity.
Qed.

(** ** Paths and file names *)

Lemma list_ascii_app (a b : string) :
  list_ascii_of_string (a ++ b) = list_ascii_of_string a ++ list_ascii_of_string b.
Proof. induction a as [ | c a IH]; cbn; [ reflexivity | rewrite IH; reflexivity ]. Qed.

Lemma list_ascii_inj (a b : string) :
  list_ascii_of_string a = list_ascii_of_string b -> a = b.
Proof.
  intros Heq. rewrite <- (string_of_list_ascii_of_string a),
                      <- (string_of_list_ascii_of_string b), Heq.
  reflexivity.
Qed.

Lemma append_inv_head (p a b : string) : (p ++ a = p ++ b)%string -> a = b.
Proof.
  intros Heq. apply list_ascii_inj.
  apply (f_equal list_ascii_of_string) in Heq. rewrite !list_ascii_app in Heq.
  exact (app_inv_head _ _ _ Heq).
Qed.

Lemma append_inv_tail (s a b : string) : (a ++ s = b ++ s)%string -> a = b.
Proof.
  intros Heq. apply list_ascii_inj.
  apply (f_equal list_ascii_of_string) in Heq. rewrite !list_ascii_app in Heq.
  exact (app_inv_tail _ _ _ Heq).
Qed.

Lemma append_assoc' (a b c : string) : ((a ++ b) ++ c = a ++ (b ++ c))%string.
Proof. induction a as [ | x a IH]; cbn; [ reflexivity | rewrite IH; reflexivity ]. Qed.

Lemma length_append' (a b : string) :
  String.length (a ++ b) = String.length a + String.length b.
Proof. induction a as [ | x a IH]; cbn; [ reflexivity | rewrite IH; reflexivity ]. Qed.

(** A prefix that fits in the front part does not look at the rest. *)
Lemma prefix_app_front (old s t : string) :
  String.length old <= String.length s ->
  String.prefix old (s ++ t) = String.prefix old s.
Proof.
  revert s. induction old as [ | a old IH]; intros s Hlen.
  - destruct s, t; reflexivity.
  - destruct s as [ | b s]; cbn in Hlen; [ lia | ].
    cbn. destruct (ascii_dec a b); [ apply IH; lia | reflexivity ].
Qed.

Lemma replace_no_occurrence (old new s : string) :
  PyStr.occurs old s = false -> Py.replace old new s = s.
Proof.
  unfold Py.replace. induction s as [ | c s IH]; intros Hocc; [ reflexivity | ].
  cbn [PyStr.occurs] in Hocc. apply orb_false_iff in Hocc. destruct Hocc as [Hpre Hrest].
  cbn [Py.replace_from]. rewrite Hpre, (IH Hrest). reflexivity.
Qed.

Lemma replace_final_dicom (p : string) :
  PyStr.occurs "dicom/" (p ++ "dicom") = false ->
  Py.replace "dicom/" "3d/" (p ++ "dicom/") = (p ++ "3d/")%string.
Proof.
  unfold Py.replace. induction p as [ | c p IH]; intros Hocc; [ reflexivity | ].
  change (String c p ++ "dicom")%string with (String c (p ++ "dicom")) in Hocc.
  cbn [PyStr.occurs] in Hocc. apply orb_false_iff in Hocc. destruct Hocc as [Hpre Hrest].
  change (String c p ++ "dicom/")%string with (String c (p ++ "dicom/")).
  change (String c p ++ "3d/")%string with (String c (p ++ "3d/")).
  assert (Hpre' : String.prefix "dicom/" (String c (p ++ "dicom/")) = false).
  { change (String c (p ++ "dicom/")) with (String c p ++ ("dicom" ++ "/"))%string.
    rewrite <- append_assoc'.
    rewrite prefix_app_front; [ exact Hpre | ].
    rewrite length_append'. cbn. lia. }
  cbn [Py.replace_from]. rewrite Hpre', (IH Hrest). reflexivity.
Qed.

Lemma to_uint_not_nil (n : nat) : Nat.to_uint n <> Decimal.Nil.
Proof.
  intros Hnil. pose proof (DecimalNat.Unsigned.of_to n) as Hof.
  rewrite Hnil in Hof. cbn in Hof. subst n. discriminate Hnil.
Qed.

Lemma str_of_nat_parses (n : nat) :
  NilEmpty.uint_of_string (Py.str_of_nat n) = Some (Nat.to_uint n).
Proof.
  unfold Py.str_of_nat, NilZero.string_of_uint.
  pose proof (to_uint_not_nil n) as Hnn.
  destruct (Nat.to_uint n) eqn:Hd; try contradiction; apply NilEmpty.usu.
Qed.

Lemma zeros_parse (k : nat) (s : string) (d : Decimal.uint) :
  NilEmpty.uint_of_string s = Some d ->
  exists d', NilEmpty.uint_of_string (Py.zeros k ++ s) = Some d' /\
             Nat.of_uint d' = Nat.of_uint d.
Proof.
  intros Hs. induction k as [ | k [d' [Hparse Hval]]]; cbn.
  - exists d. split; [ exact Hs | reflexivity ].
  - exists (Decimal.D0 d'). rewrite Hparse. split; [ reflexivity | exact Hval ].
Qed.

Lemma format_03d_not_empty (n : nat) : Py.format_03d n <> EmptyString.
Proof.
  unfold Py.format_03d. cbv zeta. intros Habs.
  apply (f_equal String.length) in Habs. rewrite length_append' in Habs. cbn in Habs.
  assert (Hlen : String.length (Py.str_of_nat n) = 0) by lia.
  pose proof (str_of_nat_parses n) as Hp.
  destruct (Py.str_of_nat n); [ | discriminate Hlen ].
  cbn in Hp. injection Hp as Hp. exact (to_uint_not_nil n (eq_sym Hp)).
Qed.

Lemma format_03d_parses (n : nat) : PyStr.int_of_digits (Py.format_03d n) = Some n.
Proof.
  unfold PyStr.int_of_digits, NilZero.uint_of_string.
  pose proof (format_03d_not_empty n) as Hne.
  destruct (zeros_parse (3 - String.length (Py.str_of_nat n)) _ _ (str_of_nat_parses n))
    as [d' [Hparse Hval]].
  fold (Py.format_03d n) in Hparse.
  destruct (Py.format_03d n) as [ | c s] eqn:Hfmt; [ contradiction | ].
  rewrite Hparse. cbn. rewrite Hval, DecimalNat.Unsigned.of_to. reflexivity.
Qed.

Lemma slice_path_inj (out_dir : string) (i j : nat) :
  slice_path out_dir i = slice_path out_dir j -> i = j.
Proof.
  unfold slice_path. intros Heq.
  apply append_inv_head, append_inv_tail in Heq.
  pose proof (format_03d_parses i) as Hi. rewrite Heq, format_03d_parses in Hi.
  injection Hi as Hi. symmetry. exact Hi.
Qed.

Lemma enumerate_from_indices {A : Type} (start : nat) (l : list A) :
  map fst (Py.enumerate_from start l) = seq start (length l).
Proof.
  revert start. induction l as [ | a l IH]; intros start; cbn; [ reflexivity | ].
  rewrite IH. reflexivity.
Qed.

Lemma NoDup_map_injective {A B : Type} (f : A -> B) (l : list A) :
  (forall a b, f a = f b -> a = b) -> NoDup l -> NoDup (map f l).
Proof.
  intros Hinj. induction 1 as [ | a l Hnotin Hnodup IH]; cbn; constructor; [ | exact IH ].
  intros Hin. apply in_map_iff in Hin. destruct Hin as [b [Hfb Hb]].
  apply Hinj in Hfb. subst b. contradiction.
Qed.

Lemma digits_below_100 (d : Decimal.uint) :
  String.length (NilZero.string_of_uint d) < 3 -> Nat.of_uint d < 100.
Proof.
  destruct d as [ | d | d | d | d | d | d | d | d | d | d ];
    [ intros _; cbn; lia | .. ];
    (destruct d as [ | d | d | d | d | d | d | d | d | d | d ];
     [ intros _; cbn; lia | .. ];
     (destruct d as [ | d | d | d | d | d | d | d | d | d | d ];
      [ intros _; cbn; lia | .. ]; cbn; intros Hlen; lia)).
Qed.

(** X5: the name of a slice file can be read back: [int] of the
    zero-padded index is the index.  Hence the files written for the
    slices of a scan all have different names, so no slice overwrites
    another. *)
Theorem slice_names_round_trip :
  (forall idx : nat, PyStr.int_of_digits (Py.format_03d idx) = Some idx) /\
  (forall (Voxel : Type) (out_dir : string) (scan_cropped : array3 Voxel),
     NoDup (map (fun item : nat * array2 Voxel => slice_path out_dir (fst item))
                (Py.enumerate scan_cropped))).
Proof.
  split; [ exact format_03d_parses | ].
  intros Voxel out_dir scan_cropped.
  rewrite <- (map_map fst (slice_path out_dir)).
  unfold Py.enumerate. rewrite enumerate_from_indices.
  apply NoDup_map_injective; [ apply slice_path_inj | apply seq_NoDup ].
Qed.

(** X6: the index in a slice's file name has exactly three digits below
    1000, and from 100 on it is the plain decimal numeral: nothing is
    padded and nothing is cut off, so a scan of 1000 slices or more gets
    longer names. *)
Theorem slice_name_width (idx : nat) :
  (idx < 1000 -> String.length (Py.format_03d idx) = 3) /\
  (100 <= idx -> Py.format_03d idx = Py.str_of_nat idx).
Proof.
  split.
  - intros Hlt.
    assert (Hall : forallb (fun n => Nat.eqb (String.length (Py.format_03d n)) 3)
                           (seq 0 1000) = true) by (vm_compute; reflexivity).
    rewrite forallb_forall in Hall.
    apply Nat.eqb_eq. apply Hall. apply in_seq. lia.
  - intros Hge. unfold Py.format_03d. cbv zeta.
    assert (Hlen : 3 <= String.length (Py.str_of_nat idx)).
    { destruct (le_lt_dec 3 (String.length (Py.str_of_nat idx))) as [Hok | Hshort];
        [ exact Hok | ].
      pose proof (digits_below_100 (Nat.to_uint idx) Hshort) as Hsmall.
      rewrite DecimalNat.Unsigned.of_to in Hsmall. lia. }
    replace (3 - String.length (Py.str_of_nat idx)) with 0 by lia.
    reflexivity.
Qed.

(** ** The methods of [VtkImage], continued *)

Section Extraction.

Context {Voxel Coord : Type}.
Variable E : Collab Voxel Coord.

Lemma chunks_nth {A : Type} (n k i : nat) (l : list A) :
  i < n -> nth i (chunks n k l) [] = firstn k (skipn (i * k) l).
Proof.
  revert i l. induction n as [ | n IH]; intros i l Hi; [ lia | ].
  destruct i as [ | i]; cbn [chunks nth].
  - reflexivity.
  - rewrite IH by lia. rewrite skipn_skipn.
    replace (i * k + k) with (S i * k) by lia. reflexivity.
Qed.

Lemma chunks_nth_nth {A : Type} (n k i j : nat) (l : list A) (d : A) :
  i < n -> j < k -> nth j (nth i (chunks n k l) []) d = nth (i * k + j) l d.
Proof.
  intros Hi Hj. rewrite chunks_nth by exact Hi.
  rewrite nth_firstn. rewrite (proj2 (Nat.ltb_lt j k) Hj).
  apply nth_skipn.
Qed.

Lemma reshape3_nth (depth cols rows : nat) (flat : list Voxel) (a : array3 Voxel)
    (i j k : nat) (v0 : Voxel) :
  reshape3 depth cols rows flat = inr a ->
  i < depth -> j < cols -> k < rows ->
  nth k (nth j (nth i a []) []) v0 = nth (i * (cols * rows) + j * rows + k) flat v0.
Proof.
  unfold reshape3. destruct (Nat.eqb (length flat) (depth * cols * rows)); [ | discriminate ].
  intros Heq Hi Hj Hk. injection Heq as <-.
  rewrite (nth_indep (map (chunks cols rows) (chunks depth (cols * rows) flat))
             (@nil (list Voxel)) (chunks cols rows (@nil Voxel)))
    by (rewrite length_map, length_chunks; exact Hi).
  rewrite (map_nth (chunks cols rows)).
  rewrite chunks_nth_nth by assumption.
  rewrite chunks_nth by exact Hi.
  rewrite nth_firstn.
  assert (Hin : j * rows + k < cols * rows) by nia.
  rewrite (proj2 (Nat.ltb_lt _ _) Hin).
  rewrite nth_skipn. f_equal. lia.
Qed.

Lemma rot90_2_nth (a : array3 Voxel) (d c r i j : nat) :
  has_shape3 a (d, c, r) -> i < d -> j < c ->
  nth j (nth i (rot90_2 a) []) [] = nth (c - 1 - j) (nth (d - 1 - i) a []) [].
Proof.
  intros [Hd Hall] Hi Hj. unfold rot90_2. unfold array3, array2 in *.
  rewrite rev_nth by (rewrite length_map; lia).
  rewrite length_map, Hd.
  replace (d - S i) with (d - 1 - i) by lia.
  change (@nil (list Voxel)) with (rev (@nil (list Voxel))) at 1.
  rewrite (map_nth (@rev (list Voxel))).
  assert (Hlen : length (nth (d - 1 - i) a []) = c).
  { rewrite Forall_forall in Hall. apply Hall. apply nth_In. lia. }
  rewrite rev_nth by lia. rewrite Hlen. f_equal. lia.
Qed.

Lemma map3_nth {B : Type} (f : Voxel -> B) (a : array3 Voxel) (i j k : nat) (v0 : Voxel) :
  nth k (nth j (nth i (map (map (map f)) a) []) []) (f v0) =
  f (nth k (nth j (nth i a []) []) v0).
Proof.
  assert (H1 : nth i (map (map (map f)) a) [] = map (map f) (nth i a []))
    by exact (map_nth (map (map f)) a [] i).
  rewrite H1.
  assert (H2 : nth j (map (map f) (nth i a [])) [] = map f (nth j (nth i a []) []))
    by exact (map_nth (map f) (nth i a []) [] j).
  rewrite H2. apply map_nth.
Qed.

Lemma extract_inr (dt : option dtype) (self : VtkImage Voxel) (img : ImageData Voxel)
    (rows cols depth : nat) (array : array3 Voxel) (sp : float3) (sh : ShearParams) :
  dimensions img = (rows, cols, depth) ->
  extract E dt self img = inr (array, sp, sh) ->
  exists a,
    reshape3 depth cols rows (scalars img) = inr a /\
    array = match dt with
            | Some d => array_astype E d (rot90_2 a)
            | None => rot90_2 a
            end /\
    sp = img_spacing img /\ sh = shear_params self /\ 5 <= length array.
Proof.
  intros Hdim. unfold extract. rewrite Hdim.
  destruct (reshape3 depth cols rows (scalars img)) as [e | a]; [ discriminate | ].
  cbv zeta.
  match goal with |- context [Nat.ltb ?n 5] => destruct (Nat.ltb_spec n 5) as [Hlt | Hge] end;
    [ discriminate | ].
  intros Heq. injection Heq as <- <- <-.
  exists a. repeat split. exact Hge.
Qed.

Lemma image_ready_run (dt : option dtype) (st st' : Obj Voxel Coord)
    (img : ImageData Voxel) :
  image_ready E st st' img ->
  get_slices E dt st = (extract E dt (fst st') img, st').
Proof.
  intros [self log img' Himg | self self' log log' img' Himg Hup Himg'].
  - apply get_slices_cached. exact Himg.
  - apply (get_slices_updated E dt self self' log log' img'); assumption.
Qed.

End Extraction.

(** X12: the array that [get_slices] returns holds the scalars of the
    image with the slices and the rows in reverse order and the columns in
    place: the voxel at slice i, row j, column k is the cast of the scalar
    at index (depth-1-i)*cols*rows + (cols-1-j)*rows + k. *)
Theorem get_slices_voxel {Voxel Coord : Type} (E : Collab Voxel Coord)
    (dt : option dtype) (st st' : Obj Voxel Coord) (img : ImageData Voxel)
    (rows cols depth : nat) (array : array3 Voxel) (sp : float3) (sh : ShearParams) :
  image_ready E st st' img ->
  dimensions img = (rows, cols, depth) ->
  get_slices E dt st = (inr (array, sp, sh), st') ->
  forall (i j k : nat) (v0 : Voxel),
    i < depth -> j < cols -> k < rows ->
    nth k (nth j (nth i array []) []) (cast_voxel E dt v0) =
    cast_voxel E dt
      (nth ((depth - 1 - i) * (cols * rows) + (cols - 1 - j) * rows + k)
           (scalars img) v0).
Proof.
  intros Hready Hdim Hrun i j k v0 Hi Hj Hk.
  rewrite (image_ready_run E dt st st' img Hready) in Hrun.
  injection Hrun as Hextract.
  destruct (extract_inr E dt (fst st') img rows cols depth array sp sh Hdim Hextract)
    as [a [Hreshape [-> _]]].
  pose proof (reshape3_shape _ _ _ _ _ Hreshape) as Hshape.
  assert (Hrot : nth k (nth j (nth i (rot90_2 a) []) []) v0 =
                 nth ((depth - 1 - i) * (cols * rows) + (cols - 1 - j) * rows + k)
                     (scalars img) v0).
  { rewrite (rot90_2_nth a depth cols rows i j Hshape Hi Hj).
    apply (reshape3_nth depth cols rows (scalars img) a); [ exact Hreshape | lia | lia | exact Hk ]. }
  destruct dt as [d | ]; cbn [cast_voxel]; [ | exact Hrot ].
  exact (eq_trans (map3_nth (astype E d) (rot90_2 a) i j k v0)
                  (f_equal (astype E d) Hrot)).
Qed.

(** X7: in [process_scan] the VTK path, once the series is read and its
    orientation accepted, makes exactly one reslice and no resampling; the
    reslice is unpadded, cubic, auto-cropped, filled with the background
    value, and its transform is the shear of the gantry tilt alone,
    Shear(0, atan(z2/y2), -(zMax/2)). *)
Theorem primary_reslice_is_shear_only {Voxel Coord : Type} (E : Collab Voxel Coord)
    (dir : string) (rd : ReaderOutput) (log : Log Voxel Coord) :
  read_series E dir = inr rd ->
  (c4 (orientation_patient rd) =? 0)%float = false ->
  snd (primary_path E dir log) =
    log ++ [EvReadSeries dir;
            EvReslice
              (mkReslice dir None
                 [Shear 0
                    (atan E (c5 (orientation_patient rd) / c4 (orientation_patient rd))%float)
                    (- (c5 (out_bounds rd) / 2))%float]
                 Cubic true BG_HU)].
Proof.
  intros Hrd Hy2. rewrite primary_path_run, Hrd, Hy2. cbv zeta.
  destruct (reslice E _) as [msg | img]; [ reflexivity | ].
  destruct (extract E _ _ img) as [e | [[scan sp] sh]]; reflexivity.
Qed.

(** X8: after [set_transform(angle_z, angle_y, origin_x)], whatever the
    object was set to before, [update_image] reslices with the shear of the
    load followed, unless both angles equal zero, by the rotation by
    -angle_z about z and then the rotation by angle_y about y, and with
    the input padded exactly when an origin is given.  Calling
    [set_transform(0, 0, None)] therefore restores the reslice of a fresh
    object. *)
Theorem transform_after_set_transform {Voxel Coord : Type} (E : Collab Voxel Coord)
    (az ay : float) (ox : option Z) (self : VtkImage Voxel) (log : Log Voxel Coord) :
  (exists rest,
     snd (run E [SetTransform az ay ox; UpdateImage] (self, log)) =
       log ++ EvReslice (reslice_of (scan_dir self) (shear_params self) az ay ox
                                    (out_extent (reader self))) :: rest /\
     Forall (fun ev => is_reslice ev = false) rest) /\
  reslice_of (scan_dir self) (shear_params self) 0 0 None (out_extent (reader self)) =
    mkReslice (scan_dir self) None
      [Shear 0 (rad_tilt (shear_params self)) (minus_center_z (shear_params self))]
      Cubic true BG_HU.
Proof.
  split; [ | reflexivity ].
  cbn [run invoke]. rewrite set_transform_run. cbn [fst snd].
  set (self1 := assign_image None
                  (assign_origin_x ox (assign_angle_y ay (assign_angle_z az self)))).
  destruct (update_image_summary E self1 log) as [r [self' [rest [Hup [Hrest _]]]]].
  exists rest. rewrite Hup. cbn [snd]. split; [ | exact Hrest ].
  f_equal. f_equal. f_equal.
  unfold configure_reslice, reslice_of, self1. cbn.
  destruct ox; destruct (az =? 0)%float; destruct (ay =? 0)%float; reflexivity.
Qed.

(** X9: [update_image] stores an image or changes nothing: when it raises,
    the object is exactly as before, a cached image included; when it
    returns, only [self.image] has changed.  It raises
    [InvalidSpacingError] under ['auto'] only, and otherwise only what VTK
    raises. *)
Theorem update_image_exception_safe {Voxel Coord : Type} (E : Collab Voxel Coord)
    (self : VtkImage Voxel) (log : Log Voxel Coord) :
  match update_image E (self, log) with
  | (inl e, (self', _)) =>
      self' = self /\
      ((e = InvalidSpacingError (scan_dir self) /\ spacing self = Auto) \/
       exists msg, e = ExternalError msg)
  | (inr _, (self', _)) => exists img, self' = assign_image (Some img) self
  end.
Proof.
  rewrite update_image_run. cbv zeta.
  destruct (reslice E (configure_reslice self)) as [msg | resliced];
    [ split; [ reflexivity | right; eauto ] | ].
  destruct (spacing self) as [ | | sx sy sz] eqn:Hsp.
  - destruct (Py.min3 (img_spacing resliced) =? 0)%float;
      [ split; [ reflexivity | left; split; reflexivity ] | ].
    destruct (resample E resliced _) as [msg | out];
      [ split; [ reflexivity | right; eauto ] | eauto ].
  - eauto.
  - destruct (resample E resliced _) as [msg | out];
      [ split; [ reflexivity | right; eauto ] | eauto ].
Qed.

(** X10: the zero check belongs to ['auto'] alone.  An explicit spacing is
    handed to the resampler as it is, zero or negative values included, and
    never raises [InvalidSpacingError]; with ['none'] nothing is resampled
    and the resliced image is stored. *)
Theorem explicit_spacing_unchecked {Voxel Coord : Type} (E : Collab Voxel Coord)
    (self : VtkImage Voxel) (log : Log Voxel Coord) (resliced : ImageData Voxel) :
  reslice E (configure_reslice self) = inr resliced ->
  (forall sx sy sz,
     spacing self = Explicit sx sy sz ->
     get_log (snd (update_image E (self, log))) =
       log ++ [EvReslice (configure_reslice self); EvResample (sx, sy, sz)] /\
     fst (update_image E (self, log)) <> inl (InvalidSpacingError (scan_dir self)) /\
     forall out,
       resample E resliced (sx, sy, sz) = inr out ->
       update_image E (self, log) =
       (inr tt, (assign_image (Some out) self,
                 log ++ [EvReslice (configure_reslice self); EvResample (sx, sy, sz)]))) /\
  (spacing self = NoResample ->
   update_image E (self, log) =
   (inr tt, (assign_image (Some resliced) self,
             log ++ [EvReslice (configure_reslice self)]))).
Proof.
  intros Hreslice.
  pose proof (update_image_run E self log) as Hrun. cbv zeta in Hrun.
  rewrite Hreslice in Hrun. split.
  - intros sx sy sz Hsp. rewrite Hsp in Hrun. rewrite Hrun.
    destruct (resample E resliced (sx, sy, sz)) as [msg | out].
    + split; [ reflexivity | ]. split; [ discriminate | discriminate ].
    + split; [ reflexivity | ]. split; [ discriminate | ].
      intros out' Hout. injection Hout as <-. reflexivity.
  - intros Hsp. rewrite Hsp in Hrun. exact Hrun.
Qed.

(** X11: a call of [get_slices] that leaves an image in the cache can be
    repeated: the second call returns or raises exactly what the first did
    and changes neither the object nor the log. *)
Theorem get_slices_idempotent {Voxel Coord : Type} (E : Collab Voxel Coord)
    (dt : option dtype) (st st1 : Obj Voxel Coord)
    (r : exn + (array3 Voxel * float3 * ShearParams)) :
  get_slices E dt st = (r, st1) ->
  image (fst st1) <> None ->
  get_slices E dt st1 = (r, st1).
Proof.
  destruct st as [self log]. intros Hrun Hfilled.
  destruct (image self) as [img | ] eqn:Himg.
  - rewrite (get_slices_cached E dt self img log Himg) in Hrun.
    injection Hrun as <- <-. apply get_slices_cached. exact Himg.
  - destruct (update_image_summary E self log)
      as [r' [self' [rest [Hup [_ [[e [-> ->]] | [img [-> ->]]]]]]]].
    + rewrite (get_slices_update_raises E dt _ _ _ _ Himg Hup) in Hrun.
      injection Hrun as <- <-. cbn in Hfilled. contradiction.
    + rewrite (get_slices_updated E dt _ _ _ _ img Himg Hup eq_refl) in Hrun.
      injection Hrun as <- <-. apply get_slices_cached. reflexivity.
Qed.

(** ** Runs of [process_scan], continued *)

Section MoreRuns.

Context {Voxel Coord : Type}.
Variable E : Collab Voxel Coord.

Lemma extract_ok (dt : option dtype) (self : VtkImage Voxel) (img : ImageData Voxel)
    (rows cols depth : nat) (a : array3 Voxel) :
  dimensions img = (rows, cols, depth) ->
  reshape3 depth cols rows (scalars img) = inr a ->
  5 <= depth ->
  extract E dt self img =
  inr (match dt with Some d => array_astype E d (rot90_2 a) | None => rot90_2 a end,
       img_spacing img, shear_params self).
Proof.
  intros Hdim Hreshape Hdepth. unfold extract. rewrite Hdim, Hreshape. cbv zeta.
  pose proof (rot90_2_shape _ _ (reshape3_shape _ _ _ _ _ Hreshape)) as Hshape.
  assert (Hlen : length (match dt with
                         | Some d => array_astype E d (rot90_2 a)
                         | None => rot90_2 a
                         end) = depth).
  { destruct dt as [d | ]; [ apply (map3_shape (astype E d)) in Hshape | ];
      destruct Hshape as [Hd _]; exact Hd. }
  match goal with
  | |- context [Nat.ltb ?n 5] =>
      assert (Hn : n = depth) by exact Hlen; rewrite Hn
  end.
  rewrite (proj2 (Nat.ltb_ge depth 5) Hdepth). reflexivity.
Qed.

(** The [try] block: its events, and what it leaves when it returns. *)
Lemma primary_path_triple (dir : string) :
  triple (vtk_event (Coord := Coord)) (vtk_recon (Voxel := Voxel)) (fun _ => True)
         (primary_path E dir).
Proof.
  intros log. rewrite primary_path_run. cbn [get_log HasLog_Log].
  destruct (read_series E dir) as [msg | rd].
  { split; [ exists [EvReadSeries dir]; split; [ reflexivity | repeat constructor ] | exact I ]. }
  destruct (c4 (orientation_patient rd) =? 0)%float.
  { split; [ exists [EvReadSeries dir]; split; [ reflexivity | repeat constructor ] | exact I ]. }
  cbv zeta. set (self := constructed E rd dir NoResample).
  assert (Hlog : exists added,
             log ++ [EvReadSeries dir; EvReslice (configure_reslice self)] = log ++ added /\
             Forall (vtk_event (Voxel := Voxel) (Coord := Coord)) added).
  { eexists. split; [ reflexivity | repeat constructor ]. }
  destruct (reslice E (configure_reslice self)) as [msg | img]; [ split; [ exact Hlog | exact I ] | ].
  destruct (extract E (Some Float32) (assign_image (Some img) self) img)
    as [e | [[scan sp] sh]] eqn:Hextract; [ split; [ exact Hlog | exact I ] | ].
  split; [ exact Hlog | ]. cbn [fst].
  destruct (dimensions img) as [[rows cols] depth] eqn:Hdim.
  destruct (extract_inr E _ _ img rows cols depth scan sp sh Hdim Hextract)
    as [a [_ [_ [_ [_ Hlen]]]]].
  exists scan, sp, (orientation_patient rd). split; [ reflexivity | exact Hlen ].
Qed.

Lemma reconstruct_triple (dir : string) :
  triple (fun ev : Event Voxel Coord => vtk_event ev \/ fallback_event ev)
         (fun r : Recon Voxel => vtk_recon r \/ fallback_recon r)
         (fun _ => True)
         (reconstruct E dir).
Proof.
  unfold reconstruct. apply triple_try_except with (R1 := fun _ => True).
  - eapply triple_events; [ intros ev Hev; left; exact Hev | ].
    eapply triple_weaken; [ apply primary_path_triple | intros r Hr; left; exact Hr | auto ].
  - intros e _. eapply triple_events; [ intros ev Hev; right; exact Hev | ].
    eapply triple_weaken; [ apply fallback_path_triple | | auto ].
    intros r [scan [-> _]]. right. exists scan. reflexivity.
Qed.

Lemma finish_sound (out_dir : string) (r : Recon Voxel) :
  vtk_recon r \/ fallback_recon r ->
  triple (sound_event (Voxel := Voxel) (Coord := Coord)) (fun _ => True) (fun _ => True)
         (finish E out_dir r).
Proof.
  intros Hr. eapply triple_events; [ | eapply triple_weaken; [ apply finish_triple | auto | auto ] ].
  intros ev. destruct r as [[scan sp] o]. destruct ev; cbn; try tauto.
  intros [Hsp [Ho Hshape]]. destruct Hr as [[scan' [sp' [o' [Heq Hlen]]]] | [scan' Heq]];
    injection Heq as -> -> ->.
  - right. exists sp', o'. rewrite Hshape. cbn. auto.
  - left. split; assumption.
Qed.

(** [process_scan] from the call of [os.makedirs] on. *)
Lemma process_scan_unfold (dir : string) (log : Log Voxel Coord) :
  process_scan E dir log =
  (ext_unit (makedirs E (Py.replace "dicom/" "3d/" dir)) ;;
   emit (EvMakedirs (Py.replace "dicom/" "3d/" dir)) ;;
   r <- reconstruct E dir ;;
   finish E (Py.replace "dicom/" "3d/" dir) r)
    (log ++ [EvRmtree (Py.replace "dicom/" "3d/" dir)]).
Proof. reflexivity. Qed.

Lemma after_rmtree_triple (dir : string) :
  triple (sound_event (Voxel := Voxel) (Coord := Coord)) (fun _ => True) (fun _ => True)
         (ext_unit (makedirs E (Py.replace "dicom/" "3d/" dir)) ;;
          emit (EvMakedirs (Py.replace "dicom/" "3d/" dir)) ;;
          r <- reconstruct E dir ;;
          finish E (Py.replace "dicom/" "3d/" dir) r).
Proof.
  apply triple_bind with (Q1 := fun _ => True);
    [ apply triple_ext_unit; auto | intros _ _ ].
  apply triple_bind with (Q1 := fun _ => True);
    [ apply triple_emit; cbn; auto | intros _ _ ].
  eapply triple_bind.
  - eapply triple_events; [ | apply reconstruct_triple ].
    intros ev. destruct ev; cbn; tauto.
  - intros r Hr. apply finish_sound. exact Hr.
Qed.

(** Every run starts by emptying the output directory and only appends
    sound events after that. *)
Lemma process_scan_log (dir : string) (log : Log Voxel Coord) :
  exists rest,
    snd (process_scan E dir log) =
      log ++ EvRmtree (Py.replace "dicom/" "3d/" dir) :: rest /\
    Forall (sound_event (Voxel := Voxel) (Coord := Coord)) rest.
Proof.
  rewrite process_scan_unfold.
  destruct (after_rmtree_triple dir (log ++ [EvRmtree (Py.replace "dicom/" "3d/" dir)]))
    as [[rest [Hlog Hall]] _].
  exists rest. cbn [get_log HasLog_Log] in Hlog. rewrite Hlog, <- app_assoc.
  split; [ reflexivity | exact Hall ].
Qed.

(** The slices that are saved before a write fails. *)
Lemma save_slices_fail (out_dir : string) (done todo : list (nat * array2 Voxel))
    (idx : nat) (sl : array2 Voxel) (msg : string) :
  (forall i s, In (i, s) done ->
     save_npy E (slice_path out_dir i) (map (map (astype E Int16)) s) = None) ->
  save_npy E (slice_path out_dir idx) (map (map (astype E Int16)) sl) = Some msg ->
  forall log : Log Voxel Coord,
    for_each (save_slice E out_dir) (done ++ (idx, sl) :: todo) log =
    (inl (ExternalError msg),
     log ++ map (fun item : nat * array2 Voxel =>
                   EvSaveNpy (slice_path out_dir (fst item))
                             (map (map (astype E Int16)) (snd item))) done).
Proof.
  induction done as [ | [i s] done IH]; intros Hdone Hfail log; cbn [app for_each map].
  - unfold bind at 1. unfold save_slice, bind. fold (slice_path out_dir idx).
    rewrite Hfail. cbn. rewrite app_nil_r. reflexivity.
  - assert (Hstep : save_slice E out_dir (i, s) log =
                    (inr tt, log ++ [EvSaveNpy (slice_path out_dir i)
                                               (map (map (astype E Int16)) s)])).
    { unfold save_slice, bind. fold (slice_path out_dir i).
      rewrite (Hdone i s (or_introl eq_refl)). reflexivity. }
    rewrite (bind_inr _ _ _ _ _ Hstep).
    rewrite (bind_inl _ _ _ _ _
               (IH (fun i' s' Hin => Hdone i' s' (or_intror Hin)) Hfail _)).
    rewrite <- app_assoc. reflexivity.
Qed.

(** The files that are loaded before a load fails. *)
Lemma for_each_load_fail (done todo : list string) (p msg : string)
    (slices : list (array2 Voxel)) :
  Forall2 (fun q s => load E q false = inr s) done slices ->
  load E p false = inl msg ->
  forall log : Log Voxel Coord,
    for_each (load_slice E) (done ++ p :: todo) log =
    (inl (ExternalError msg),
     log ++ map (fun q => EvLoad q false) done ++ [EvLoad p false]).
Proof.
  induction 1 as [ | q s done slices Hq Hrest IH]; intros Hfail log; cbn [app for_each map].
  - unfold bind at 1. unfold load_slice, bind. cbn. rewrite Hfail. reflexivity.
  - rewrite (bind_inr _ _ _ _ _ (load_slice_ok E q s log Hq)).
    rewrite (bind_inl _ _ _ _ _ (IH Hfail _)).
    rewrite <- app_assoc. reflexivity.
Qed.

End MoreRuns.

Section Artifacts.

Context {Voxel Coord : Type}.
Variable E : Collab Voxel Coord.

Lemma finish_artifacts (out_dir : string) (r : Recon Voxel) :
  triple (artifact_event (Voxel := Voxel) (Coord := Coord) out_dir)
         (fun _ => True) (fun _ => True) (finish E out_dir r).
Proof.
  destruct r as [[scan sp] o]. unfold finish.
  apply triple_bind with (Q1 := fun _ => True);
    [ apply triple_emit; cbn; auto | intros _ _ ].
  apply triple_bind with (Q1 := fun _ => True);
    [ apply triple_ext; cbn; auto | intros [[z y] x] _ ].
  apply triple_bind with (Q1 := fun _ => True);
    [ apply triple_emit; cbn; auto | intros _ _ ].
  apply triple_bind with (Q1 := fun _ => True);
    [ apply triple_ext; cbn; auto | intros scan_cropped _ ].
  apply triple_bind with (Q1 := fun _ => True);
    [ apply triple_ext_unit; cbn; auto | intros _ _ ].
  apply triple_bind with (Q1 := fun _ => True);
    [ apply triple_emit; cbn; auto | intros _ _ ].
  apply triple_bind with (Q1 := fun _ => True).
  - eapply triple_weaken.
    + apply triple_for_each with (Q := fun _ => True) (R := fun _ => True).
      intros [idx sl] _. unfold save_slice.
      apply triple_bind with (Q1 := fun _ => True);
        [ apply triple_ext_unit; auto | intros _ _ ].
      apply triple_emit; [ | exact I ]. exists idx. reflexivity.
    + auto.
    + auto.
  - intros _ _. apply triple_ret. exact I.
Qed.

Lemma process_scan_artifacts (dir : string) (log : Log Voxel Coord) :
  exists rest,
    snd (process_scan E dir log) =
      log ++ EvRmtree (Py.replace "dicom/" "3d/" dir) :: rest /\
    Forall (artifact_event (Voxel := Voxel) (Coord := Coord)
              (Py.replace "dicom/" "3d/" dir)) rest.
Proof.
  rewrite process_scan_unfold.
  set (out_dir := Py.replace "dicom/" "3d/" dir).
  assert (Htriple : triple (artifact_event (Voxel := Voxel) (Coord := Coord) out_dir)
                           (fun _ => True) (fun _ => True)
                           (ext_unit (makedirs E out_dir) ;;
                            emit (EvMakedirs out_dir) ;;
                            r <- reconstruct E dir ;;
                            finish E out_dir r)).
  { apply triple_bind with (Q1 := fun _ => True);
      [ apply triple_ext_unit; auto | intros _ _ ].
    apply triple_bind with (Q1 := fun _ => True);
      [ apply triple_emit; cbn; auto | intros _ _ ].
    apply triple_bind with (Q1 := fun _ => True).
    - eapply triple_events; [ | eapply triple_weaken; [ apply reconstruct_triple | auto | auto ] ].
      intros ev. destruct ev; cbn; tauto.
    - intros r _. apply finish_artifacts. }
  destruct (Htriple (log ++ [EvRmtree out_dir])) as [[rest [Hlog Hall]] _].
  exists rest. cbn [get_log HasLog_Log] in Hlog. rewrite Hlog, <- app_assoc.
  split; [ reflexivity | exact Hall ].
Qed.

End Artifacts.

(** X3: for a scan directory [root/dicom/] with no other occurrence of
    [dicom/] in it, the output directory is [root/3d/]: every run empties
    that directory first, creates no other, and writes the metadata only
    to [root/3d/../meta.json] and slices only to files of [root/3d/] named
    by a padded index. *)
Theorem out_dir_of_dicom_dir {Voxel Coord : Type} (E : Collab Voxel Coord)
    (root : string) (log : Log Voxel Coord) :
  PyStr.occurs "dicom/" (root ++ "dicom") = false ->
  Py.replace "dicom/" "3d/" (root ++ "dicom/") = (root ++ "3d/")%string /\
  exists rest,
    snd (process_scan E (root ++ "dicom/") log) =
      log ++ EvRmtree (root ++ "3d/") :: rest /\
    Forall (artifact_event (root ++ "3d/")) rest.
Proof.
  intros Hocc. pose proof (replace_final_dicom root Hocc) as Hout.
  split; [ exact Hout | ].
  destruct (process_scan_artifacts E (root ++ "dicom/") log) as [rest [Hlog Hall]].
  rewrite Hout in Hlog, Hall. exists rest. split; assumption.
Qed.

(** X4: for a scan directory in which [dicom/] does not occur, the output
    directory is the scan directory itself, so a run starts by emptying
    and creating again the directory it is about to read.  When the
    primary path then raises and the directory lists no entry, the
    fallback stacks an empty list: numpy's [ValueError] leaves
    [process_scan], and the log holds, after the two events on the
    directory, VTK events, the printed exception, the printed directory
    and the listing only: no file is loaded, and neither metadata nor a
    slice is written. *)
Theorem scan_dir_without_dicom_is_wiped {Voxel Coord : Type} (E : Collab Voxel Coord)
    (dir : string) (log log1 : Log Voxel Coord) (e : exn) :
  PyStr.occurs "dicom/" dir = false ->
  makedirs E dir = None ->
  primary_path E dir (log ++ [EvRmtree dir; EvMakedirs dir]) = (inl e, log1) ->
  iterdir E dir = inr [] ->
  Py.replace "dicom/" "3d/" dir = dir /\
  process_scan E dir log =
    (inl (NumpyValueError "need at least one array to stack"),
     log1 ++ [EvPrintExc e; EvPrint dir; EvIterdir dir]) /\
  exists vtk,
    log1 = log ++ [EvRmtree dir; EvMakedirs dir] ++ vtk /\
    Forall (vtk_event (Voxel := Voxel) (Coord := Coord)) vtk.
Proof.
  intros Hocc Hmk Hprim Hdir.
  pose proof (replace_no_occurrence "dicom/" "3d/" dir Hocc) as Hout.
  split; [ exact Hout | ].
  split.
  - assert (Hmk' : makedirs E (Py.replace "dicom/" "3d/" dir) = None)
      by (rewrite Hout; exact Hmk).
    assert (Hprim' : primary_path E dir (prepared dir log) = (inl e, log1))
      by (unfold prepared; rewrite Hout; exact Hprim).
    rewrite (process_scan_primary_raises E dir log log1 e Hmk' Hprim').
    apply bind_inl. unfold fallback_path.
    unfold bind at 1. cbn [emit get_log set_log HasLog_Log].
    unfold bind at 1. cbn [emit get_log set_log HasLog_Log].
    unfold bind at 1. cbn [emit get_log set_log HasLog_Log].
    unfold bind at 1. rewrite Hdir. cbn [ext ret].
    repeat rewrite <- app_assoc. reflexivity.
  - destruct (primary_path_triple E dir (log ++ [EvRmtree dir; EvMakedirs dir]))
      as [[vtk [Hlog Hall]] _].
    rewrite Hprim in Hlog. cbn [snd get_log HasLog_Log] in Hlog.
    exists vtk. split; [ rewrite Hlog, <- app_assoc; reflexivity | exact Hall ].
Qed.

(** X15: [os.makedirs] is called before the [try]: when it raises,
    [process_scan] raises the same exception after emptying the output
    directory, without reading the series and without falling back. *)
Theorem makedirs_failure_aborts {Voxel Coord : Type} (E : Collab Voxel Coord)
    (dir msg : string) (log : Log Voxel Coord) :
  makedirs E (Py.replace "dicom/" "3d/" dir) = Some msg ->
  process_scan E dir log =
    (inl (ExternalError msg), log ++ [EvRmtree (Py.replace "dicom/" "3d/" dir)]).
Proof.
  intros Hmk. rewrite process_scan_unfold. unfold bind at 1. rewrite Hmk. reflexivity.
Qed.

(** X19: in every run of [process_scan], whatever the collaborators do, a
    metadata record that is written has its geometry complete or not at
    all: spacing and orientation are both [null], or both present together
    with a depth of at least five before the crop. *)
Theorem metadata_complete_or_null {Voxel Coord : Type} (E : Collab Voxel Coord)
    (dir : string) (log : Log Voxel Coord) :
  exists rest,
    snd (process_scan E dir log) =
      log ++ EvRmtree (Py.replace "dicom/" "3d/" dir) :: rest /\
    forall path meta,
      In (EvWriteMeta path meta) rest ->
      (meta_spacing meta = None /\ meta_image_orientation meta = None) \/
      (exists sp o,
         meta_spacing meta = Some sp /\ meta_image_orientation meta = Some o /\
         5 <= fst (fst (pre_crop_shape meta))).
Proof.
  destruct (process_scan_log E dir log) as [rest [Hlog Hall]].
  exists rest. split; [ exact Hlog | ].
  intros path meta Hin. rewrite Forall_forall in Hall.
  exact (Hall _ Hin).
Qed.

(** X14: when the [try] block returns, the series was read with a
    non-zero y2, resliced once and never resampled; the spacing it leaves
    is that of the resliced image, the orientation that of the series, and
    the volume has the image's dimensions in the order (depth, cols, rows)
    with a depth of at least five. *)
Theorem vtk_path_result {Voxel Coord : Type} (E : Collab Voxel Coord)
    (dir : string) (log log1 : Log Voxel Coord) (scan : array3 Voxel)
    (sp : option float3) (o : option (six float)) :
  primary_path E dir log = (inr (scan, sp, o), log1) ->
  exists rd img rows cols depth,
    read_series E dir = inr rd /\
    (c4 (orientation_patient rd) =? 0)%float = false /\
    reslice E (configure_reslice (constructed E rd dir NoResample)) = inr img /\
    dimensions img = (rows, cols, depth) /\
    sp = Some (img_spacing img) /\
    o = Some (orientation_patient rd) /\
    has_shape3 scan (depth, cols, rows) /\
    5 <= depth /\
    log1 = log ++ [EvReadSeries dir;
                   EvReslice (configure_reslice (constructed E rd dir NoResample))].
Proof.
  rewrite primary_path_run.
  destruct (read_series E dir) as [msg | rd] eqn:Hrd; [ discriminate | ].
  destruct (c4 (orientation_patient rd) =? 0)%float eqn:Hy2; [ discriminate | ].
  cbv zeta. set (self := constructed E rd dir NoResample).
  destruct (reslice E (configure_reslice self)) as [msg | img] eqn:Hreslice;
    [ discriminate | ].
  destruct (extract E (Some Float32) (assign_image (Some img) self) img)
    as [e | [[scan' sp'] sh]] eqn:Hextract; [ discriminate | ].
  intros Heq. injection Heq as <- <- <- <-.
  destruct (dimensions img) as [[rows cols] depth] eqn:Hdim.
  destruct (extract_inr E _ _ img rows cols depth scan' sp' sh Hdim Hextract)
    as [a [Hreshape [Harr [Hsp [_ Hlen]]]]].
  assert (Hshape : has_shape3 scan' (depth, cols, rows)).
  { rewrite Harr. apply (map3_shape (astype E Float32)). apply rot90_2_shape.
    eapply reshape3_shape. exact Hreshape. }
  assert (Hdepth : 5 <= depth).
  { destruct Hshape as [Hd _]. rewrite <- Hd. exact Hlen. }
  exists rd, img, rows, cols, depth.
  split; [ reflexivity | ]. split; [ exact Hy2 | ]. split; [ exact Hreslice | ].
  split; [ exact Hdim | ]. split; [ rewrite Hsp; reflexivity | ].
  split; [ reflexivity | ]. split; [ exact Hshape | ].
  split; [ exact Hdepth | reflexivity ].
Qed.

(** X13: the run of [process_scan] when everything succeeds.  With the
    series read, y2 not zero, a resliced image of depth at least five whose
    scalars fill its dimensions, and the centroid, the crop and the writes
    succeeding, [process_scan] returns after exactly these calls: reader,
    one reslice, centroid, crop, metadata, slices.  The metadata holds the
    spacing of the resliced image, the orientation of the series and the
    shape (depth, cols, rows) of the volume. *)
Theorem vtk_path_success_trace {Voxel Coord : Type} (E : Collab Voxel Coord)
    (dir : string) (log : Log Voxel Coord) (rd : ReaderOutput) (img : ImageData Voxel)
    (rows cols depth : nat) (a : array3 Voxel) (z y x : Coord)
    (scan_cropped : array3 Voxel) :
  let out_dir := Py.replace "dicom/" "3d/" dir in
  let self := constructed E rd dir NoResample in
  let scan := array_astype E Float32 (rot90_2 a) in
  let mask := map (map (map (gt0 E))) scan in
  let meta := mkMeta (Some (img_spacing img)) (Some (orientation_patient rd)) x y
                     (shape3 scan) (shape3 scan_cropped) in
  makedirs E out_dir = None ->
  read_series E dir = inr rd ->
  (c4 (orientation_patient rd) =? 0)%float = false ->
  reslice E (configure_reslice self) = inr img ->
  dimensions img = (rows, cols, depth) ->
  reshape3 depth cols rows (scalars img) = inr a ->
  5 <= depth ->
  center_of_mass E mask = inr (z, y, x) ->
  crop_scan E scan OUT_SIZE x y BG_HU = inr scan_cropped ->
  write_meta E (out_dir ++ "../meta.json")%string meta = None ->
  (forall idx sl, In (idx, sl) (Py.enumerate scan_cropped) ->
     save_npy E (out_dir ++ Py.format_03d idx ++ ".npy")%string
              (map (map (astype E Int16)) sl) = None) ->
  has_shape3 scan (depth, cols, rows) /\
  process_scan E dir log =
    (inr tt,
     log ++ [EvRmtree out_dir; EvMakedirs out_dir; EvReadSeries dir;
             EvReslice (configure_reslice self);
             EvCenterOfMass mask; EvCropScan scan OUT_SIZE x y BG_HU;
             EvWriteMeta (out_dir ++ "../meta.json")%string meta]
         ++ saved_slices E out_dir scan_cropped).
Proof.
  intros out_dir self scan mask meta
         Hmk Hrd Hy2 Hreslice Hdim Hreshape Hdepth Hcom Hcrop Hmeta Hsave.
  split.
  { unfold scan. apply (map3_shape (astype E Float32)). apply rot90_2_shape.
    eapply reshape3_shape. exact Hreshape. }
  assert (Hprim : primary_path E dir (prepared dir log) =
                  (inr (scan, Some (img_spacing img), Some (orientation_patient rd)),
                   prepared dir log ++ [EvReadSeries dir; EvReslice (configure_reslice self)])).
  { rewrite primary_path_run, Hrd, Hy2. cbv zeta. fold self. rewrite Hreslice.
    rewrite (extract_ok E (Some Float32) _ img rows cols depth a Hdim Hreshape Hdepth).
    reflexivity. }
  rewrite (process_scan_primary_returns E dir log _ _ Hmk Hprim).
  fold out_dir.
  rewrite (finish_ok E out_dir scan _ _ z y x scan_cropped _ Hcom Hcrop Hmeta Hsave).
  unfold prepared. fold out_dir. repeat rewrite <- app_assoc. reflexivity.
Qed.

(** X16: slices are written after the metadata and in the order of their
    index.  When the centroid, the crop and the metadata succeed and the
    write of a slice fails, [process_scan] raises that exception and leaves
    a partial output: the metadata and exactly the slices in front of the
    failing one; the index of the failing slice is their number. *)
Theorem slice_write_failure_leaves_partial_output {Voxel Coord : Type}
    (E : Collab Voxel Coord) (dir : string) (log log2 : Log Voxel Coord)
    (scan : array3 Voxel) (sp : option float3) (o : option (six float))
    (z y x : Coord) (scan_cropped : array3 Voxel)
    (done todo : list (nat * array2 Voxel)) (idx : nat) (sl : array2 Voxel)
    (msg : string) :
  let out_dir := Py.replace "dicom/" "3d/" dir in
  let mask := map (map (map (gt0 E))) scan in
  let meta := mkMeta sp o x y (shape3 scan) (shape3 scan_cropped) in
  makedirs E out_dir = None ->
  reconstruct E dir (prepared dir log) = (inr (scan, sp, o), log2) ->
  center_of_mass E mask = inr (z, y, x) ->
  crop_scan E scan OUT_SIZE x y BG_HU = inr scan_cropped ->
  write_meta E (out_dir ++ "../meta.json")%string meta = None ->
  Py.enumerate scan_cropped = done ++ (idx, sl) :: todo ->
  (forall i s, In (i, s) done ->
     save_npy E (slice_path out_dir i) (map (map (astype E Int16)) s) = None) ->
  save_npy E (slice_path out_dir idx) (map (map (astype E Int16)) sl) = Some msg ->
  idx = length done /\
  process_scan E dir log =
    (inl (ExternalError msg),
     log2 ++ [EvCenterOfMass mask; EvCropScan scan OUT_SIZE x y BG_HU;
              EvWriteMeta (out_dir ++ "../meta.json")%string meta]
          ++ map (fun item : nat * array2 Voxel =>
                    EvSaveNpy (slice_path out_dir (fst item))
                              (map (map (astype E Int16)) (snd item))) done).
Proof.
  intros out_dir mask meta Hmk Hrec Hcom Hcrop Hmeta Hsplit Hdone Hfail.
  split.
  { pose proof (enumerate_from_indices 0 scan_cropped) as Hidx.
    fold (Py.enumerate scan_cropped) in Hidx. rewrite Hsplit in Hidx.
    rewrite map_app in Hidx. cbn [map fst] in Hidx.
    assert (Hnth : nth (length done) (map fst done ++ idx :: map fst todo) 0 = idx).
    { rewrite app_nth2 by (rewrite length_map; lia).
      rewrite length_map, Nat.sub_diag. reflexivity. }
    rewrite Hidx in Hnth.
    assert (Hlt : length done < length scan_cropped).
    { apply (f_equal (@length nat)) in Hidx.
      rewrite length_app, length_seq in Hidx. cbn in Hidx. rewrite !length_map in Hidx. lia. }
    rewrite seq_nth in Hnth by exact Hlt. cbn in Hnth. symmetry. exact Hnth. }
  rewrite (process_scan_prepared E dir log Hmk). fold out_dir.
  rewrite (bind_inr _ _ _ _ _ Hrec).
  unfold finish. fold mask.
  unfold bind at 1. cbn [emit get_log set_log HasLog_Log].
  unfold bind at 1. rewrite Hcom. cbn [ext ret].
  unfold bind at 1. cbn [emit get_log set_log HasLog_Log].
  unfold bind at 1. rewrite Hcrop. cbn [ext ret].
  fold meta.
  unfold bind at 1. rewrite Hmeta. cbn [ext_unit ret].
  unfold bind at 1. cbn [emit get_log set_log HasLog_Log].
  rewrite Hsplit.
  rewrite (bind_inl _ _ _ _ _ (save_slices_fail E out_dir done todo idx sl msg Hdone Hfail _)).
  repeat rewrite <- app_assoc. reflexivity.
Qed.

(** X17: an empty scan directory cannot be reconstructed.  When the [try]
    block raises and the directory has no entry, numpy's [stack] raises
    [ValueError] on the empty list and [process_scan] raises it, having
    loaded and written nothing. *)
Theorem empty_directory_aborts {Voxel Coord : Type} (E : Collab Voxel Coord)
    (dir : string) (log log1 : Log Voxel Coord) (e : exn) :
  makedirs E (Py.replace "dicom/" "3d/" dir) = None ->
  primary_path E dir (prepared dir log) = (inl e, log1) ->
  iterdir E dir = inr [] ->
  process_scan E dir log =
    (inl (NumpyValueError "need at least one array to stack"),
     log1 ++ [EvPrintExc e; EvPrint dir; EvIterdir dir]).
Proof.
  intros Hmk Hprim Hdir.
  rewrite (process_scan_primary_raises E dir log log1 e Hmk Hprim).
  unfold bind at 1. unfold fallback_path.
  unfold bind at 1. cbn [emit get_log set_log HasLog_Log].
  unfold bind at 1. cbn [emit get_log set_log HasLog_Log].
  unfold bind at 1. cbn [emit get_log set_log HasLog_Log].
  unfold bind at 1. rewrite Hdir. cbn.
  repeat rewrite <- app_assoc. reflexivity.
Qed.

(** X18: the fallback stops at the first file that does not load.  When
    the [try] block raises and, in sorted order, the files in front of [p]
    load and [p] does not, [process_scan] raises the loader's exception;
    the files behind [p] are not loaded, and nothing is cropped or
    written. *)
Theorem load_failure_stops_the_loop {Voxel Coord : Type} (E : Collab Voxel Coord)
    (dir : string) (log log1 : Log Voxel Coord) (e : exn)
    (paths done todo : list string) (p msg : string) (slices : list (array2 Voxel)) :
  makedirs E (Py.replace "dicom/" "3d/" dir) = None ->
  primary_path E dir (prepared dir log) = (inl e, log1) ->
  iterdir E dir = inr paths ->
  Py.sorted paths = done ++ p :: todo ->
  Forall2 (fun q s => load E q false = inr s) done slices ->
  load E p false = inl msg ->
  process_scan E dir log =
    (inl (ExternalError msg),
     log1 ++ [EvPrintExc e; EvPrint dir; EvIterdir dir]
          ++ map (fun q => EvLoad q false) done ++ [EvLoad p false]).
Proof.
  intros Hmk Hprim Hdir Hsplit Hdone Hfail.
  rewrite (process_scan_primary_raises E dir log log1 e Hmk Hprim).
  unfold bind at 1. unfold fallback_path.
  unfold bind at 1. cbn [emit get_log set_log HasLog_Log].
  unfold bind at 1. cbn [emit get_log set_log HasLog_Log].
  unfold bind at 1. cbn [emit get_log set_log HasLog_Log].
  unfold bind at 1. rewrite Hdir. cbn [ext ret].
  rewrite Hsplit.
  rewrite (bind_inl _ _ _ _ _ (for_each_load_fail E done todo p msg slices Hdone Hfail _)).
  repeat rewrite <- app_assoc. reflexivity.
Qed.

Lemma reconstruct_foreign {Voxel Coord : Type} (E : Collab Voxel Coord) (dir : string) :
  triple (fun _ : Event Voxel Coord => True) (fun _ : Recon Voxel => True) foreign
         (reconstruct E dir).
Proof.
  unfold reconstruct. apply triple_try_except with (R1 := fun _ => True).
  - eapply triple_events; [ intros ev _; exact I | ].
    eapply triple_weaken; [ apply primary_path_triple | auto | auto ].
  - intros e _. eapply triple_events; [ intros ev _; exact I | ].
    eapply triple_weaken; [ apply fallback_path_triple | auto | auto ].
Qed.

(** X20: [process_scan] returns only with a complete output.  When the
    output directory is created and the [try] statement leaves the volume
    [scan], a run that returns has computed the centroid of the mask
    [scan > 0], has cropped [scan] around its last two coordinates with the
    fixed footprint and background, and has written the metadata, with the
    third coordinate as [crop_x] and the second as [crop_y], followed by
    every slice of the crop. *)
Theorem returning_run_output {Voxel Coord : Type} (E : Collab Voxel Coord)
    (dir : string) (log log2 log' : Log Voxel Coord) (scan : array3 Voxel)
    (sp : option float3) (o : option (six float)) :
  let out_dir := Py.replace "dicom/" "3d/" dir in
  let mask := map (map (map (gt0 E))) scan in
  makedirs E out_dir = None ->
  reconstruct E dir (prepared dir log) = (inr (scan, sp, o), log2) ->
  process_scan E dir log = (inr tt, log') ->
  exists z y x scan_cropped,
    center_of_mass E mask = inr (z, y, x) /\
    crop_scan E scan OUT_SIZE x y BG_HU = inr scan_cropped /\
    log' = log2 ++ [EvCenterOfMass mask; EvCropScan scan OUT_SIZE x y BG_HU;
                    EvWriteMeta (out_dir ++ "../meta.json")%string
                      (mkMeta sp o x y (shape3 scan) (shape3 scan_cropped))]
                ++ saved_slices E out_dir scan_cropped.
Proof.
  intros out_dir mask Hmk Hrec Hrun.
  rewrite (process_scan_prepared E dir log Hmk) in Hrun. fold out_dir in Hrun.
  rewrite (bind_inr _ _ _ _ _ Hrec) in Hrun.
  exact (finish_returns E out_dir scan sp o log2 log' Hrun).
Qed.

(** X21: the exceptions that the module raises itself never leave
    [process_scan].  Whatever the collaborators do, a run ends normally or
    with an exception of a collaborator or of numpy; [OrientationError],
    [InvalidSpacingError] and [ShortVolumeError] are always absorbed by the
    fallback. *)
Theorem own_exceptions_never_escape {Voxel Coord : Type} (E : Collab Voxel Coord)
    (dir : string) (log : Log Voxel Coord) :
  match fst (process_scan E dir log) with
  | inl e =>
      foreign e /\
      e <> ShortVolumeError /\
      (forall o, e <> OrientationError o) /\
      (forall path, e <> InvalidSpacingError path)
  | inr _ => True
  end.
Proof.
  assert (Htriple : triple (fun _ : Event Voxel Coord => True) (fun _ : unit => True)
                           foreign (process_scan E dir)).
  { unfold process_scan.
    apply triple_bind with (Q1 := fun _ => True);
      [ apply triple_emit; auto | intros _ _ ].
    apply triple_bind with (Q1 := fun _ => True);
      [ apply triple_ext_unit; cbn; auto | intros _ _ ].
    apply triple_bind with (Q1 := fun _ => True);
      [ apply triple_emit; auto | intros _ _ ].
    apply triple_bind with (Q1 := fun _ => True); [ apply reconstruct_foreign | ].
    intros r _. eapply triple_events; [ intros ev _; exact I | apply finish_triple ]. }
  destruct (Htriple log) as [_ Hres].
  destruct (fst (process_scan E dir log)) as [e | ]; [ | exact I ].
  split; [ exact Hres | ].
  split; [ intros ->; exact Hres | ].
  split; [ intros o0 ->; exact Hres | intros path ->; exact Hres ].
Qed.

(** * Instances of the further properties *)

(** X3 on the directory [ct/sideways/dicom/]. *)
Lemma out_dir_of_dicom_dir_witness :
  PyStr.occurs "dicom/" "ct/sideways/dicom" = false /\
  Py.replace "dicom/" "3d/" "ct/sideways/dicom/" = "ct/sideways/3d/" /\
  exists rest,
    snd (process_scan Demo.world "ct/sideways/dicom/" []) =
      EvRmtree "ct/sideways/3d/" :: rest /\
    Forall (artifact_event "ct/sideways/3d/") rest.
Proof.
  split; [ reflexivity | ].
  exact (out_dir_of_dicom_dir Demo.world "ct/sideways/" [] eq_refl).
Defined.

(** X4 on the directory [ct/plain/], which is empty once the run has
    emptied it. *)
Lemma scan_dir_without_dicom_is_wiped_witness :
  PyStr.occurs "dicom/" "ct/plain/" = false /\
  iterdir Demo.world "ct/plain/" = inr [] /\
  process_scan Demo.world "ct/plain/" [] =
    (inl (NumpyValueError "need at least one array to stack"),
     [EvRmtree "ct/plain/"; EvMakedirs "ct/plain/"; EvReadSeries "ct/plain/";
      EvPrintExc (ExternalError "cannot read the series");
      EvPrint "ct/plain/"; EvIterdir "ct/plain/"]).
Proof.
  split; [ reflexivity | ]. split; [ reflexivity | ].
  exact (proj1 (proj2 (scan_dir_without_dicom_is_wiped Demo.world "ct/plain/" []
                         [EvRmtree "ct/plain/"; EvMakedirs "ct/plain/";
                          EvReadSeries "ct/plain/"]
                         (ExternalError "cannot read the series")
                         eq_refl eq_refl eq_refl eq_refl))).
Defined.

(** X6 on the indices 7 and 1234. *)
Lemma slice_name_width_witness :
  Py.format_03d 7 = "007" /\ String.length (Py.format_03d 7) = 3 /\
  Py.format_03d 1234 = Py.str_of_nat 1234.
Proof.
  split; [ reflexivity | ].
  split.
  - apply (proj1 (slice_name_width 7)). lia.
  - apply (proj2 (slice_name_width 1234)). lia.
Defined.

(** X7 on the good series. *)
Lemma primary_reslice_is_shear_only_witness :
  snd (primary_path Demo.world "ct/good/dicom/" []) =
    [EvReadSeries "ct/good/dicom/";
     EvReslice (mkReslice "ct/good/dicom/" None [Shear 0 0 (-5)] Cubic true BG_HU)].
Proof.
  exact (primary_reslice_is_shear_only Demo.world "ct/good/dicom/" Demo.standard_series []
           eq_refl eq_refl).
Defined.

(** X10 on the good series with the explicit spacing (0, 0, 0). *)
Lemma explicit_spacing_unchecked_witness :
  update_image Demo.world (Demo.fresh "ct/good/dicom/" (Explicit 0 0 0), []) =
    (inr tt,
     (Demo.cached "ct/good/dicom/" (Explicit 0 0 0) (Demo.volume 6 (0, 0, 0)%float),
      [EvReslice (configure_reslice (Demo.fresh "ct/good/dicom/" (Explicit 0 0 0)));
       EvResample (0, 0, 0)%float])).
Proof.
  destruct (explicit_spacing_unchecked Demo.world
              (Demo.fresh "ct/good/dicom/" (Explicit 0 0 0)) []
              (Demo.volume 6 (0.5, 0.75, 1)%float) eq_refl) as [Hexplicit _].
  destruct (Hexplicit 0%float 0%float 0%float eq_refl) as [_ [_ Hok]].
  exact (Hok (Demo.volume 6 (0, 0, 0)%float) eq_refl).
Defined.

(** X11 on the series of depth 4: the second call raises
    [ShortVolumeError] again and does not reslice. *)
Lemma get_slices_idempotent_witness :
  get_slices Demo.world (Some Float32)
    (Demo.cached "ct/short/dicom/" NoResample (Demo.volume 4 (0.5, 0.5, 1)%float),
     [EvReslice (configure_reslice (Demo.fresh "ct/short/dicom/" NoResample))]) =
  (inl ShortVolumeError,
   (Demo.cached "ct/short/dicom/" NoResample (Demo.volume 4 (0.5, 0.5, 1)%float),
    [EvReslice (configure_reslice (Demo.fresh "ct/short/dicom/" NoResample))])).
Proof.
  refine (get_slices_idempotent Demo.world (Some Float32)
            (Demo.fresh "ct/short/dicom/" NoResample, []) _ _ eq_refl _).
  discriminate.
Defined.

(** X12 on the good series: the first voxel of the volume is the scalar at
    index 22. *)
Lemma get_slices_voxel_witness :
  nth 0 (nth 0 (nth 0 Faulty.good_scan []) []) 0%Z =
  nth 22 (scalars (Demo.volume 6 (0.5, 0.75, 1)%float)) 0%Z.
Proof.
  refine (get_slices_voxel Demo.world (Some Float32)
            (Demo.cached "ct/good/dicom/" NoResample
               (Demo.volume 6 (0.5, 0.75, 1)%float), [])
            (Demo.cached "ct/good/dicom/" NoResample
               (Demo.volume 6 (0.5, 0.75, 1)%float), [])
            (Demo.volume 6 (0.5, 0.75, 1)%float) 2 2 6 Faulty.good_scan
            (0.5, 0.75, 1)%float (mkShearParams 0 (-5))
            _ eq_refl eq_refl 0 0 0 0%Z _ _ _);
    [ apply ready_cached; reflexivity | lia | lia | lia ].
Defined.

(** X14 on the good series. *)
Lemma vtk_path_result_witness :
  primary_path Demo.world "ct/good/dicom/" [] =
    (inr (Faulty.good_scan, Some (0.5, 0.75, 1)%float, Some Demo.standard),
     [EvReadSeries "ct/good/dicom/";
      EvReslice (configure_reslice (Demo.fresh "ct/good/dicom/" NoResample))]) /\
  exists rd img rows cols depth,
    read_series Demo.world "ct/good/dicom/" = inr rd /\
    (c4 (orientation_patient rd) =? 0)%float = false /\
    reslice Demo.world
      (configure_reslice (constructed Demo.world rd "ct/good/dicom/" NoResample)) = inr img /\
    dimensions img = (rows, cols, depth) /\
    Some (0.5, 0.75, 1)%float = Some (img_spacing img) /\
    Some Demo.standard = Some (orientation_patient rd) /\
    has_shape3 Faulty.good_scan (depth, cols, rows) /\
    5 <= depth /\
    ([EvReadSeries "ct/good/dicom/";
      EvReslice (configure_reslice (Demo.fresh "ct/good/dicom/" NoResample))]
     : Log Z (option Q)) =
    [] ++ [EvReadSeries "ct/good/dicom/";
           EvReslice (configure_reslice
                        (constructed Demo.world rd "ct/good/dicom/" NoResample))].
Proof.
  split; [ reflexivity | ].
  exact (vtk_path_result Demo.world "ct/good/dicom/" [] _ Faulty.good_scan _ _ eq_refl).
Defined.

(** X13 on the good series: the run returns. *)
Lemma vtk_path_success_trace_witness :
  has_shape3 Faulty.good_scan (6, 2, 2) /\
  exists log', process_scan Demo.world "ct/good/dicom/" [] = (inr tt, log').
Proof.
  destruct (vtk_path_success_trace Demo.world "ct/good/dicom/" []
              Demo.standard_series (Demo.volume 6 (0.5, 0.75, 1)%float) 2 2 6
              (map (chunks 2 2) (chunks 6 4 (scalars (Demo.volume 6 (0.5, 0.75, 1)%float))))
              (Some (Qmake 60 24)) (Some (Qmake 12 24)) (Some (Qmake 12 24))
              (DataUtils.crop_scan Faulty.good_scan OUT_SIZE (Qmake 12 24) (Qmake 12 24) BG_HU)
              eq_refl eq_refl eq_refl eq_refl eq_refl eq_refl
              ltac:(lia) eq_refl eq_refl eq_refl (fun _ _ _ => eq_refl))
    as [Hshape Hrun].
  split; [ exact Hshape | ].
  eexists. exact Hrun.
Defined.

(** X15 where the output directory cannot be created. *)
Lemma makedirs_failure_aborts_witness :
  process_scan Faulty.no_permission "ct/good/dicom/" [] =
    (inl (ExternalError "Permission denied"), [EvRmtree "ct/good/3d/"]).
Proof.
  exact (makedirs_failure_aborts Faulty.no_permission "ct/good/dicom/"
           "Permission denied" [] eq_refl).
Defined.

(** X16 where the third slice cannot be written: the metadata and the
    slices 000 and 001 are there. *)
Lemma slice_write_failure_leaves_partial_output_witness :
  process_scan Faulty.disk_full "ct/good/dicom/" [] =
    (inl (ExternalError "No space left on device"),
     [EvRmtree "ct/good/3d/"; EvMakedirs "ct/good/3d/"; EvReadSeries "ct/good/dicom/";
      EvReslice (configure_reslice (Demo.fresh "ct/good/dicom/" NoResample));
      EvCenterOfMass (map (map (map (Z.ltb 0))) Faulty.good_scan);
      EvCropScan Faulty.good_scan OUT_SIZE (Some (Qmake 12 24)) (Some (Qmake 12 24)) BG_HU;
      EvWriteMeta "ct/good/3d/../meta.json"
        (mkMeta (Some (0.5, 0.75, 1)%float) (Some Demo.standard)
                (Some (Qmake 12 24)) (Some (Qmake 12 24)) (6, 2, 2) (6, 2, 2));
      EvSaveNpy "ct/good/3d/000.npy" [[23; 24]; [21; 22]]%Z;
      EvSaveNpy "ct/good/3d/001.npy" [[19; 20]; [17; 18]]%Z]).
Proof.
  refine (proj2 (slice_write_failure_leaves_partial_output Faulty.disk_full
                   "ct/good/dicom/" []
                   [EvRmtree "ct/good/3d/"; EvMakedirs "ct/good/3d/";
                    EvReadSeries "ct/good/dicom/";
                    EvReslice (configure_reslice (Demo.fresh "ct/good/dicom/" NoResample))]
                   Faulty.good_scan (Some (0.5, 0.75, 1)%float) (Some Demo.standard)
                   (Some (Qmake 60 24)) (Some (Qmake 12 24)) (Some (Qmake 12 24))
                   Faulty.good_scan
                   [(0, [[23; 24]; [21; 22]]%Z); (1, [[19; 20]; [17; 18]]%Z)]
                   [(3, [[11; 12]; [9; 10]]%Z); (4, [[7; 8]; [5; 6]]%Z);
                    (5, [[3; 4]; [1; 2]]%Z)]
                   2 [[15; 16]; [13; 14]]%Z "No space left on device"
                   eq_refl eq_refl eq_refl eq_refl eq_refl eq_refl _ eq_refl)).
  intros i s [Heq | [Heq | []]]; injection Heq as <- <-; reflexivity.
Defined.

(** X17 on an empty directory. *)
Lemma empty_directory_aborts_witness :
  process_scan Faulty.broken_files "ct/empty/dicom/" [] =
    (inl (NumpyValueError "need at least one array to stack"),
     [EvRmtree "ct/empty/3d/"; EvMakedirs "ct/empty/3d/"; EvReadSeries "ct/empty/dicom/";
      EvPrintExc (ExternalError "cannot read the series");
      EvPrint "ct/empty/dicom/"; EvIterdir "ct/empty/dicom/"]).
Proof.
  exact (empty_directory_aborts Faulty.broken_files "ct/empty/dicom/" []
           [EvRmtree "ct/empty/3d/"; EvMakedirs "ct/empty/3d/";
            EvReadSeries "ct/empty/dicom/"]
           (ExternalError "cannot read the series") eq_refl eq_refl eq_refl).
Defined.

(** X18 where the second of three files does not load: the third is not
    touched. *)
Lemma load_failure_stops_the_loop_witness :
  process_scan Faulty.broken_files "ct/sideways/dicom/" [] =
    (inl (ExternalError "not a DICOM file"),
     [EvRmtree "ct/sideways/3d/"; EvMakedirs "ct/sideways/3d/";
      EvReadSeries "ct/sideways/dicom/";
      EvPrintExc (OrientationError Demo.sideways);
      EvPrint "ct/sideways/dicom/"; EvIterdir "ct/sideways/dicom/";
      EvLoad "ct/sideways/dicom/1.dcm" false;
      EvLoad "ct/sideways/dicom/2.dcm" false]).
Proof.
  refine (load_failure_stops_the_loop Faulty.broken_files "ct/sideways/dicom/" []
            [EvRmtree "ct/sideways/3d/"; EvMakedirs "ct/sideways/3d/";
             EvReadSeries "ct/sideways/dicom/"]
            (OrientationError Demo.sideways)
            ["ct/sideways/dicom/2.dcm"; "ct/sideways/dicom/3.dcm";
             "ct/sideways/dicom/1.dcm"]
            ["ct/sideways/dicom/1.dcm"] ["ct/sideways/dicom/3.dcm"]
            "ct/sideways/dicom/2.dcm" "not a DICOM file"
            [[[49; 0]; [3; 49]]%Z]
            eq_refl eq_refl eq_refl eq_refl _ eq_refl).
  repeat constructor.
Defined.

(** X20 on the directory with a single file, where the run returns: the
    one slice of the crop is written. *)
Lemma returning_run_output_witness :
  exists z y x scan_cropped,
    center_of_mass Demo.world (map (map (map (Z.ltb 0))) Demo.single_scan) =
      inr (z, y, x) /\
    crop_scan Demo.world Demo.single_scan OUT_SIZE x y BG_HU = inr scan_cropped /\
    snd (process_scan Demo.world "ct/single/dicom/" []) =
      [EvRmtree "ct/single/3d/"; EvMakedirs "ct/single/3d/";
       EvReadSeries "ct/single/dicom/";
       EvPrintExc (ExternalError "cannot read the series");
       EvPrint "ct/single/dicom/"; EvIterdir "ct/single/dicom/";
       EvLoad "ct/single/dicom/only.dcm" false]
      ++ [EvCenterOfMass (map (map (map (Z.ltb 0))) Demo.single_scan);
          EvCropScan Demo.single_scan OUT_SIZE x y BG_HU;
          EvWriteMeta "ct/single/3d/../meta.json"
            (mkMeta None None x y (shape3 Demo.single_scan) (shape3 scan_cropped))]
      ++ saved_slices Demo.world "ct/single/3d/" scan_cropped.
Proof.
  exact (returning_run_output Demo.world "ct/single/dicom/" [] _ _
           Demo.single_scan None None eq_refl eq_refl
           (surjective_pairing (process_scan Demo.world "ct/single/dicom/" []))).
Defined.
